(** * mosaic.js: gateway clients, transaction helper and anchor wait

    A shallow embedding of the parts of mosaic.js that drive a cross-chain
    message: [Utils] (hash locks, [sendTransaction]), the [EIP20Gateway] and
    [EIP20CoGateway] contract clients, and the demo's [Facilitate] anchor
    wait, [stake] and [redeem].  The [Facilitator] on top of them is not
    among the sources at hand; its [performProgressRedeem] is modelled from
    the specification, and the operations of it and of the token client
    that the code calls are collaborators like the chain.

    JavaScript objects live in a heap of property maps, so that aliasing and
    in-place writes ([this._bountyAmount = bounty], [txOptions.gas = ...])
    are modelled as such.  Every interaction with the outside world (contract
    method objects, [.call()], [estimateGas], [send], the anchor read, the
    sleep timer) is recorded in a trace; what the outside world answers is an
    environment [Env] the definitions are parametric in. *)

From Stdlib Require Import ZArith NArith Lia Ascii String.
From Stdlib Require Strings.Byte.
From stdpp Require Import base option strings list gmap fin_maps pretty.

Local Open Scope Z_scope.
Local Open Scope string_scope.

(** ** JavaScript values, objects and the heap *)

Module JS.

Definition loc := positive.

(** Numbers are the integral ones; the code under study never computes
    with a fraction. *)
Inductive Value :=
| VUndefined
| VNull
| VBool (b : bool)
| VNum (n : Z)
| VStr (s : string)
| VObj (l : loc).

(** [typeof v === 'string'] *)
Definition isString (v : Value) : bool :=
  match v with VStr _ => true | _ => false end.

(** ToBoolean: what [if (v)] and [!v] test. *)
Definition truthy (v : Value) : bool :=
  match v with
  | VUndefined | VNull => false
  | VBool b => b
  | VNum n => negb (Z.eqb n 0)
  | VStr s => negb (String.eqb s "")
  | VObj _ => true
  end.

(** Number::toString of an integer.  Up to [2^53] it is the decimal
    digits.  Beyond, a Number is a double, and JavaScript prints the
    shortest decimal that still rounds to it, the nearest one if there are
    two: [2^60] is printed as 1152921504606847000.  From [10^21] on the
    exponent form [d.ddde+k] is used, as in [1e+21]. *)

(** Whether the decimal [x] rounds to the double [m], for [m] from [2^53]
    on: it lies within half a unit in the last place of [m] (a quarter
    below a power of two), the bounds included when the mantissa is
    even. *)
Definition roundsTo (m x : Z) : bool :=
  let e := (Z.log2 m - 52)%Z in
  let above := (2 ^ (e - 1))%Z in
  let below := if (m =? 2 ^ Z.log2 m)%Z then (2 ^ (e - 2))%Z else above in
  if Z.even (m / 2 ^ e)
  then ((m - below <=? x) && (x <=? m + above))%Z
  else ((m - below <? x) && (x <? m + above))%Z.

(** The shortest decimal for [m], trying multiples of [10^j] for [j] from
    the given one downwards. *)
Fixpoint shortest (j : nat) (m : Z) : Z :=
  match j with
  | O => m
  | S j' =>
    let unit := (10 ^ Z.of_nat j)%Z in
    let lower := (m / unit * unit)%Z in
    let upper := (lower + unit)%Z in
    if roundsTo m lower && roundsTo m upper
    then (if (m - lower <=? upper - m)%Z then lower else upper)
    else if roundsTo m lower then lower
    else if roundsTo m upper then upper
    else shortest j' m
  end.

Fixpoint dropZeros (digits : list ascii) : list ascii :=
  match digits with
  | "0"%char :: rest => dropZeros rest
  | _ => digits
  end.

Definition stripZeros (digits : string) : string :=
  string_of_list_ascii
    (List.rev (dropZeros (List.rev (list_ascii_of_string digits)))).

Definition exponentForm (digits : string) : string :=
  match digits with
  | EmptyString => EmptyString
  | String d rest =>
    let fraction := stripZeros rest in
    String d (if String.eqb fraction "" then "" else "." +:+ fraction)
      +:+ "e+" +:+ pretty (String.length rest)
  end.

Definition numberToString (n : Z) : string :=
  let m := Z.abs n in
  let printed := if (m <? 2 ^ 53)%Z then m else shortest (String.length (pretty m)) m in
  (if (n <? 0)%Z then "-" else "")
    +:+ (if (printed <? 10 ^ 21)%Z then pretty printed else exponentForm (pretty printed)).

(** ToString, as used by a template literal [`${v}`]. *)
Definition toStr (v : Value) : string :=
  match v with
  | VUndefined => "undefined"
  | VNull => "null"
  | VBool true => "true"
  | VBool false => "false"
  | VNum n => numberToString n
  | VStr s => s
  | VObj _ => "[object Object]"
  end.

(** [typeof v === 'number'] *)
Definition isNumber (v : Value) : bool :=
  match v with VNum _ => true | _ => false end.

(** Errors: the two classes the library constructs itself, and whatever a
    collaborator (web3, bn.js, the chain) throws or rejects with. *)
Inductive Error :=
| TypeError (msg : string)
| PlainError (msg : string)
| Foreign (v : Value).

(** The result of evaluating a call: a value, or a synchronous [throw]. *)
Inductive Completion (A : Type) :=
| Return (a : A)
| Throw (e : Error).
Arguments Return {A} a.
Arguments Throw {A} e.

(** The eventual state of a promise.  [Pending] is a promise that is
    never settled. *)
Inductive Promise (A : Type) :=
| Resolved (a : A)
| Rejected (e : Error)
| Pending.
Arguments Resolved {A} a.
Arguments Rejected {A} e.
Arguments Pending {A}.

(** Own enumerable properties of a value, as [Object.assign] reads them
    from a source: [undefined] and [null] are skipped, a string exposes
    its characters under their indices, other primitives have none. *)
Fixpoint charProps (i : nat) (s : string) : gmap string Value :=
  match s with
  | EmptyString => ∅
  | String c s' => <[pretty i := VStr (String c EmptyString)]> (charProps (S i) s')
  end.

Definition ownProps (h : gmap loc (gmap string Value)) (v : Value) : gmap string Value :=
  match v with
  | VObj l => default ∅ (h !! l)
  | VStr s => charProps 0 s
  | _ => ∅
  end.

(** [Object.assign(target, source)]: left operand of [∪] wins. *)
Definition assign (target source : gmap string Value) : gmap string Value :=
  source ∪ target.

End JS.
Export JS.

(** ** The outside world *)

(** A transaction object, as returned by [contract.methods.m(args)] of the
    contract bound to the client instance [tx_contract]. *)
Record Tx := mkTx {
  tx_contract : loc;
  tx_method : string;
  tx_args : list Value
}.

(** [EMethod]: a method object was built ([contract.methods.m(args)], no
    network); [ECall]: its [.call()] was issued, the read of the chain. *)
Inductive Event :=
| EMethod (tx : Tx)
| ECall (tx : Tx)
| EEstimateGas (tx : Tx) (options : gmap string Value)
| ESend (tx : Tx) (options : gmap string Value)
| EAnchorRead
| ESleep (ms : Z).

Record World := mkWorld {
  heap : gmap loc (gmap string Value);
  trace : list Event
}.

(** What the collaborators answer.  The answers of the chain may depend on
    everything that happened before. *)
Record Env := mkEnv {
  (** [Web3.utils.isAddress] *)
  isAddress : Value -> bool;
  (** [new BN(v)]: the integer it denotes, or the exception of bn.js *)
  BN : Value -> Completion Z;
  (** The Keccak-256 digest that [Web3Utils.keccak256] computes for a
      string (a [0x]-prefixed hexadecimal string is hashed as the bytes it
      writes, any other string as its text); the first 32 bytes count. *)
  keccakDigest : string -> list Byte.byte;
  (** [contract.methods.m(args).call()], once the request is on its way *)
  chainCall : list Event -> Tx -> Promise Value;
  (** The exception with which web3 refuses to encode the arguments of a
      method object when it is called, if it does: nothing is sent then. *)
  abiError : Tx -> option Error;
  (** [tx.estimateGas(options)] *)
  txEstimateGas : list Event -> Tx -> gmap string Value -> Promise Value;
  (** [tx.send(options)]: a receipt, an error, or neither *)
  txSend : list Event -> Tx -> gmap string Value -> Promise Value
}.

(** ** A state monad over the world *)

Definition M (A : Type) : Type := World -> A * World.

#[global] Instance M_ret : MRet M := fun A a w => (a, w).

#[global] Instance M_bind : MBind M :=
  fun A B k m w => let (a, w') := m w in k a w'.

Definition emit (e : Event) : M unit :=
  fun w => (tt, mkWorld (heap w) (trace w ++ [e])).

Definition history : M (list Event) := fun w => (trace w, w).

(** [v.k] for a value that is not [undefined] or [null]. *)
Definition getProp (v : Value) (k : string) : M Value :=
  fun w => (default VUndefined (ownProps (heap w) v !! k), w).

(** [l.k = v] *)
Definition setProp (l : loc) (k : string) (v : Value) : M unit :=
  fun w => (tt, mkWorld (<[l := <[k := v]> (default ∅ (heap w !! l))]> (heap w)) (trace w)).

(** A new object with the given properties. *)
Definition alloc (o : gmap string Value) : M loc :=
  fun w => let l := fresh (dom (heap w)) in
           (l, mkWorld (<[l := o]> (heap w)) (trace w)).

(** [p.then(f)] *)
Definition pthen {A B} (p : Promise A) (f : A -> M (Promise B)) : M (Promise B) :=
  match p with
  | Resolved a => f a
  | Rejected e => mret (Rejected e)
  | Pending => mret Pending
  end.

(** Inside [.then] and inside an [async] function a throw becomes a
    rejection. *)
Definition settle {A} (c : Completion (Promise A)) : Promise A :=
  match c with
  | Return p => p
  | Throw e => Rejected e
  end.

Definition reject {A} (e : Error) : M (Completion (Promise A)) :=
  mret (Return (Rejected e)).

(** The properties of the object at [l]. *)
Definition readObj (l : loc) : M (gmap string Value) :=
  fun w => (default ∅ (heap w !! l), w).

(** ** Hexadecimal text *)

(** [buffer.toString('hex')] of Node, and the digits of a digest: two
    lower-case hexadecimal digits for every byte. *)
Definition hexDigit (n : N) : ascii :=
  if (n <? 10)%N then ascii_of_N (48 + n) else ascii_of_N (87 + n).

Definition hexOfByte (b : Byte.byte) : string :=
  String (hexDigit (Byte.to_N b / 16)) (String (hexDigit (Byte.to_N b mod 16)) "").

Fixpoint hexOfBytes (bytes : list Byte.byte) : string :=
  match bytes with
  | [] => ""
  | b :: rest => hexOfByte b +:+ hexOfBytes rest
  end.

(** ** web3-utils *)

Module Web3Utils.

(** The strings that stand for the empty message: the empty string, and a
    [0x] prefix with no digit behind it, which web3 reads as no byte at
    all. *)
Definition isEmptyMessage (s : string) : bool :=
  String.eqb s "" || String.eqb s "0x" || String.eqb s "0X".

(** A digest as web3 prints it: [0x] and the 64 digits of its 32 bytes. *)
Definition digestText (digest : list Byte.byte) : string :=
  "0x" +:+ hexOfBytes (take 32 (digest ++ replicate 32 Byte.x00)).

(** What hashing a value without a [slice] method throws; the text is
    the one of Node 10. *)
Definition notHashable (v : Value) : Error :=
  match v with
  | VUndefined | VNull => TypeError ("Cannot read property 'slice' of " +:+ toStr v)
  | _ => TypeError "str.slice is not a function"
  end.

Section WithEnv.
Variable env : Env.

Definition hashText (s : string) : string := digestText (keccakDigest env s).

(** [Web3Utils.keccak256(v)].  web3 compares the digest with the digest of
    the empty message and returns [null] in place of that one; the digest
    is taken to be the one of the empty message for the empty messages
    only.  A value that is not a string is not hashed: the hash function
    throws on it. *)
Definition keccak256 (v : Value) : Completion Value :=
  match v with
  | VStr s => if isEmptyMessage s then Return VNull else Return (VStr (hashText s))
  | _ => Throw (notHashable v)
  end.

End WithEnv.
End Web3Utils.

(** ** src/utils/Utils.js *)

Module Utils.

Record HashLock := mkHashLock {
  secret : string;
  unlockSecret : Value;
  hashLock : Value
}.

Section WithEnv.
Variable env : Env.

Definition toHashLock (secretString : string) : Completion HashLock :=
  match Web3Utils.keccak256 env (VStr secretString) with
  | Throw e => Throw e
  | Return unlockSecret =>
    match Web3Utils.keccak256 env unlockSecret with
    | Throw e => Throw e
    | Return hashLock =>
      Return {| secret := secretString;
                unlockSecret := unlockSecret;
                hashLock := hashLock |}
    end
  end.

(** [tx.estimateGas(txOptions)] *)
Definition estimateGas (tx : Tx) (txOptions : loc) : M (Promise Value) :=
  h ← history;
  o ← readObj txOptions;
  emit (EEstimateGas tx o);;
  mret (txEstimateGas env h tx o).

(** [tx.send(txOptions)] with its [receipt], [error] and [catch]
    handlers: a receipt resolves, an error or exception rejects. *)
Definition send (tx : Tx) (txOptions : loc) : M (Promise Value) :=
  h ← history;
  o ← readObj txOptions;
  emit (ESend tx o);;
  mret (txSend env h tx o).

(** When [estimateGas] rejects, the [async] executor of the new promise
    fails and neither [onResolve] nor [onReject] is ever called. *)
Definition sendTransaction (tx : Tx) (txOption : Value) : M (Promise Value) :=
  source ← (fun w => (ownProps (heap w) txOption, w));
  txOptions ← alloc (assign ∅ source);
  gas ← getProp (VObj txOptions) "gas";
  if negb (truthy gas) then
    estimate ← estimateGas tx txOptions;
    match estimate with
    | Resolved g => setProp txOptions "gas" g;; send tx txOptions
    | Rejected _ => mret Pending
    | Pending => mret Pending
    end
  else send tx txOptions.

(** [randomBytes] is what [Crypto.randomBytes] returns at this call. *)
Definition createSecretHashLock (randomBytes : nat -> list Byte.byte)
  : Completion HashLock :=
  let secret := hexOfBytes (randomBytes 16%nat) in
  toHashLock secret.

End WithEnv.
End Utils.

(** ** Contract handles *)

(** [this.contract.methods.m(args)] *)
Definition method (this : loc) (m : string) (args : list Value) : M Tx :=
  let tx := mkTx this m args in
  emit (EMethod tx);; mret tx.

(** [tx.call()] of a method object that web3 can encode: one without
    arguments, or one on an address that [isAddress] has accepted.  The
    request goes out and the promise is that of the chain. *)
Definition call (env : Env) (tx : Tx) : M (Promise Value) :=
  h ← history;
  emit (ECall tx);;
  mret (chainCall env h tx).

(** [tx.call()] of a method object whose arguments nothing has checked:
    web3 encodes them first and, when it cannot, throws there and then,
    with no request sent. *)
Definition callEncoded (env : Env) (tx : Tx) : M (Completion (Promise Value)) :=
  match abiError env tx with
  | Some e => mret (Throw e)
  | None => p ← call env tx; mret (Return p)
  end.

Definition isUndefined (v : Value) : bool :=
  match v with VUndefined => true | _ => false end.

(** ** The token contract client *)

(** src/ContractInteract/EIP20Token.js is not among the sources; the
    gateway clients use its constructor and two of its methods, taken here
    as they come.  The methods receive the token object and their arguments
    in the order of the call. *)
Record TokenOps := mkTokenOps {
  (** [new EIP20Token(this.web3, address)] *)
  newEIP20Token : Value -> M (Completion Value);
  (** [token.isAmountApproved(owner, spender, amount)] *)
  tokenIsAmountApproved : Value -> list Value -> M (Completion (Promise Value));
  (** [token.approve(spender, amount, txOptions)] *)
  tokenApprove : Value -> list Value -> M (Completion (Promise Value))
}.

(** ** src/ContractInteract/EIP20Gateway.js *)

Module EIP20Gateway.
Section WithEnv.
Variable env : Env.

Definition stakeRawTx (this : loc)
    (amount beneficiary gasPrice gasLimit nonce hashLock : Value)
    : M (Completion (Promise Tx)) :=
  match BN env amount with
  | Throw e => mret (Throw e)
  | Return n =>
    if negb (n >? 0) then
      reject (TypeError ("Stake amount must be greater than zero: " +:+ toStr amount +:+ "."))
    else if negb (isAddress env beneficiary) then
      reject (TypeError ("Invalid beneficiary address: " +:+ toStr beneficiary +:+ "."))
    else if isUndefined gasPrice then
      reject (TypeError ("Invalid gas price: " +:+ toStr gasPrice +:+ "."))
    else if isUndefined gasLimit then
      reject (TypeError ("Invalid gas limit: " +:+ toStr gasLimit +:+ "."))
    else if negb (isString nonce) then
      reject (TypeError ("Invalid nonce: " +:+ toStr nonce +:+ "."))
    else if negb (isString hashLock) then
      reject (TypeError ("Invalid hash lock: " +:+ toStr hashLock +:+ "."))
    else
      tx ← method this "stake" [amount; beneficiary; gasPrice; gasLimit; nonce; hashLock];
      mret (Return (Resolved tx))
  end.

Definition stake (this : loc)
    (amount beneficiary gasPrice gasLimit nonce hashLock txOptions : Value)
    : M (Completion (Promise Value)) :=
  if negb (truthy txOptions) then
    reject (TypeError ("Invalid transaction options: " +:+ toStr txOptions +:+ "."))
  else
    from ← getProp txOptions "from";
    if negb (isAddress env from) then
      reject (TypeError ("Invalid facilitator address: " +:+ toStr from +:+ "."))
    else
      raw ← stakeRawTx this amount beneficiary gasPrice gasLimit nonce hashLock;
      match raw with
      | Throw e => mret (Throw e)
      | Return p =>
        r ← pthen p (fun tx => Utils.sendTransaction env tx txOptions);
        mret (Return r)
      end.

Definition getBounty (this : loc) : M (Promise Value) :=
  cached ← getProp (VObj this) "_bountyAmount";
  if truthy cached then mret (Resolved cached)
  else
    tx ← method this "bounty" [];
    p ← call env tx;
    pthen p (fun bounty =>
      setProp this "_bountyAmount" bounty;; mret (Resolved bounty)).

Definition getBaseToken (this : loc) : M (Promise Value) :=
  cached ← getProp (VObj this) "_baseTokenAddress";
  if truthy cached then mret (Resolved cached)
  else
    tx ← method this "baseToken" [];
    p ← call env tx;
    pthen p (fun baseToken =>
      setProp this "_baseTokenAddress" baseToken;; mret (Resolved baseToken)).

Definition getValueToken (this : loc) : M (Promise Value) :=
  cached ← getProp (VObj this) "_valueTokenAddress";
  if truthy cached then mret (Resolved cached)
  else
    tx ← method this "token" [];
    p ← call env tx;
    pthen p (fun token =>
      setProp this "_valueTokenAddress" token;; mret (Resolved token)).

Definition getNonce (this : loc) (accountAddress : Value)
    : M (Completion (Promise Value)) :=
  if negb (isAddress env accountAddress) then
    reject (TypeError ("Invalid account address: " +:+ toStr accountAddress +:+ "."))
  else
    tx ← method this "getNonce" [accountAddress];
    p ← call env tx;
    mret (Return p).

Definition getStateRootProviderAddress (this : loc) : M (Promise Value) :=
  cached ← getProp (VObj this) "_stateRootProviderAddress";
  if truthy cached then mret (Resolved cached)
  else
    tx ← method this "stateRootProvider" [];
    p ← call env tx;
    pthen p (fun stateRootProviderAddress =>
      setProp this "_stateRootProviderAddress" stateRootProviderAddress;;
      mret (Resolved stateRootProviderAddress)).

Definition getInboxMessageStatus (this : loc) (messageHash : Value)
    : M (Completion (Promise Value)) :=
  if negb (isString messageHash) then
    reject (TypeError ("Invalid message hash: " +:+ toStr messageHash +:+ "."))
  else
    tx ← method this "getInboxMessageStatus" [messageHash];
    callEncoded env tx.

Definition getOutboxMessageStatus (this : loc) (messageHash : Value)
    : M (Completion (Promise Value)) :=
  if negb (isString messageHash) then
    reject (TypeError ("Invalid message hash: " +:+ toStr messageHash +:+ "."))
  else
    tx ← method this "getOutboxMessageStatus" [messageHash];
    callEncoded env tx.

Definition proveGatewayRawTx (this : loc)
    (blockHeight encodedAccount accountProof : Value) : M (Promise Tx) :=
  if negb (isString blockHeight) then
    mret (Rejected (TypeError ("Invalid block height: " +:+ toStr blockHeight +:+ ".")))
  else if negb (isString encodedAccount) then
    mret (Rejected (TypeError ("Invalid account data: " +:+ toStr encodedAccount +:+ ".")))
  else if negb (isString accountProof) then
    mret (Rejected (TypeError ("Invalid account proof: " +:+ toStr accountProof +:+ ".")))
  else
    tx ← method this "proveGateway" [blockHeight; encodedAccount; accountProof];
    mret (Resolved tx).

Definition proveGateway (this : loc)
    (blockHeight encodedAccount accountProof txOptions : Value) : M (Promise Value) :=
  if negb (truthy txOptions) then
    mret (Rejected (TypeError ("Invalid transaction options: " +:+ toStr txOptions +:+ ".")))
  else
    from ← getProp txOptions "from";
    if negb (isAddress env from) then
      mret (Rejected (TypeError
        ("Invalid from address " +:+ toStr from +:+ " in transaction options.")))
    else
      p ← proveGatewayRawTx this blockHeight encodedAccount accountProof;
      pthen p (fun tx => Utils.sendTransaction env tx txOptions).

Definition progressStakeRawTx (this : loc) (messageHash unlockSecret : Value)
    : M (Promise Tx) :=
  if negb (isString messageHash) then
    mret (Rejected (TypeError ("Invalid message hash: " +:+ toStr messageHash +:+ ".")))
  else if negb (isString unlockSecret) then
    mret (Rejected (TypeError ("Invalid unlock secret: " +:+ toStr unlockSecret +:+ ".")))
  else
    tx ← method this "progressStake" [messageHash; unlockSecret];
    mret (Resolved tx).

Definition progressStake (this : loc) (messageHash unlockSecret txOptions : Value)
    : M (Promise Value) :=
  if negb (truthy txOptions) then
    mret (Rejected (TypeError ("Invalid transaction options: " +:+ toStr txOptions +:+ ".")))
  else
    from ← getProp txOptions "from";
    if negb (isAddress env from) then
      mret (Rejected (TypeError
        ("Invalid from address " +:+ toStr from +:+ " in transaction options.")))
    else
      p ← progressStakeRawTx this messageHash unlockSecret;
      pthen p (fun tx => Utils.sendTransaction env tx txOptions).

Definition confirmRedeemIntentRawTx (this : loc)
    (redeemer nonce beneficiary amount gasPrice gasLimit blockHeight hashLock
       storageProof : Value) : M (Promise Tx) :=
  if negb (isAddress env redeemer) then
    mret (Rejected (TypeError ("Invalid redeemer address: " +:+ toStr redeemer +:+ ".")))
  else if negb (isString nonce) then
    mret (Rejected (TypeError ("Invalid nonce: " +:+ toStr nonce +:+ ".")))
  else if negb (isAddress env beneficiary) then
    mret (Rejected (TypeError ("Invalid beneficiary address: " +:+ toStr beneficiary +:+ ".")))
  else if negb (isString amount) then
    mret (Rejected (TypeError ("Invalid redeem amount: " +:+ toStr amount +:+ ".")))
  else if negb (isString gasPrice) then
    mret (Rejected (TypeError ("Invalid gas price: " +:+ toStr gasPrice +:+ ".")))
  else if negb (isString gasLimit) then
    mret (Rejected (TypeError ("Invalid gas limit: " +:+ toStr gasLimit +:+ ".")))
  else if negb (isString blockHeight) then
    mret (Rejected (TypeError ("Invalid block height: " +:+ toStr blockHeight +:+ ".")))
  else if negb (isString hashLock) then
    mret (Rejected (TypeError ("Invalid hash lock: " +:+ toStr hashLock +:+ ".")))
  else if negb (isString storageProof) then
    mret (Rejected (TypeError ("Invalid storage proof data: " +:+ toStr storageProof +:+ ".")))
  else
    tx ← method this "confirmRedeemIntent"
           [redeemer; nonce; beneficiary; amount; gasPrice; gasLimit; blockHeight;
            hashLock; storageProof];
    mret (Resolved tx).

Definition confirmRedeemIntent (this : loc)
    (redeemer nonce beneficiary amount gasPrice gasLimit blockNumber hashLock
       storageProof txOptions : Value) : M (Promise Value) :=
  if negb (truthy txOptions) then
    mret (Rejected (TypeError ("Invalid transaction options: " +:+ toStr txOptions +:+ ".")))
  else
    from ← getProp txOptions "from";
    if negb (isAddress env from) then
      mret (Rejected (TypeError
        ("Invalid from address " +:+ toStr from +:+ " in transaction options.")))
    else
      p ← confirmRedeemIntentRawTx this redeemer nonce beneficiary amount gasPrice
            gasLimit blockNumber hashLock storageProof;
      pthen p (fun tx => Utils.sendTransaction env tx txOptions).

Definition progressUnstakeRawTx (this : loc) (messageHash unlockSecret : Value)
    : M (Promise Tx) :=
  if negb (isString messageHash) then
    mret (Rejected (TypeError ("Invalid message hash: " +:+ toStr messageHash +:+ ".")))
  else if negb (isString unlockSecret) then
    mret (Rejected (TypeError ("Invalid unlock secret: " +:+ toStr unlockSecret +:+ ".")))
  else
    tx ← method this "progressUnstake" [messageHash; unlockSecret];
    mret (Resolved tx).

Definition progressUnstake (this : loc) (messageHash unlockSecret txOptions : Value)
    : M (Promise Value) :=
  if negb (truthy txOptions) then
    mret (Rejected (TypeError ("Invalid transaction options: " +:+ toStr txOptions +:+ ".")))
  else
    from ← getProp txOptions "from";
    if negb (isAddress env from) then
      mret (Rejected (TypeError
        ("Invalid from address " +:+ toStr from +:+ " in transaction options.")))
    else
      p ← progressUnstakeRawTx this messageHash unlockSecret;
      pthen p (fun tx => Utils.sendTransaction env tx txOptions).

Definition getStakeVault (this : loc) : M (Promise Value) :=
  tx ← method this "stakeVault" [];
  call env tx.

Definition activateGatewayRawTx (this : loc) (coGatewayAddress : Value) : M (Promise Tx) :=
  if negb (isAddress env coGatewayAddress) then
    mret (Rejected (TypeError "Invalid coGateway address."))
  else
    tx ← method this "activateGateway" [coGatewayAddress];
    mret (Resolved tx).

Definition activateGateway (this : loc) (coGatewayAddress txOptions : Value)
    : M (Promise Value) :=
  if negb (truthy txOptions) then
    mret (Rejected (TypeError "Invalid transaction options."))
  else
    from ← getProp txOptions "from";
    if negb (isAddress env from) then
      mret (Rejected (TypeError ("Invalid from address: " +:+ toStr from +:+ ".")))
    else
      p ← activateGatewayRawTx this coGatewayAddress;
      pthen p (fun tx => Utils.sendTransaction env tx txOptions).

End WithEnv.

Section WithToken.
Variable env : Env.
Variable T : TokenOps.

Definition getValueTokenContract (this : loc) : M (Promise Value) :=
  cached ← getProp (VObj this) "_eip20ValueToken";
  if truthy cached then mret (Resolved cached)
  else
    p ← getValueToken env this;
    pthen p (fun valueTokenAddress =>
      created ← newEIP20Token T valueTokenAddress;
      match created with
      | Throw e => mret (Rejected e)
      | Return token =>
        setProp this "_eip20ValueToken" token;; mret (Resolved token)
      end).

Definition getBaseTokenContract (this : loc) : M (Promise Value) :=
  cached ← getProp (VObj this) "_eip20BaseToken";
  if truthy cached then mret (Resolved cached)
  else
    p ← getBaseToken env this;
    pthen p (fun baseTokenAddress =>
      created ← newEIP20Token T baseTokenAddress;
      match created with
      | Throw e => mret (Rejected e)
      | Return token =>
        setProp this "_eip20BaseToken" token;; mret (Resolved token)
      end).

Definition isStakeAmountApproved (this : loc) (stakerAddress amount : Value)
    : M (Promise Value) :=
  if negb (isAddress env stakerAddress) then
    mret (Rejected (TypeError ("Invalid staker address: " +:+ toStr stakerAddress +:+ ".")))
  else if negb (isString amount) then
    mret (Rejected (TypeError ("Invalid stake amount: " +:+ toStr amount +:+ ".")))
  else
    p ← getValueTokenContract this;
    pthen p (fun eip20ValueToken =>
      address ← getProp (VObj this) "address";
      answer ← tokenIsAmountApproved T eip20ValueToken [stakerAddress; address; amount];
      mret (settle answer)).

Definition isBountyAmountApproved (this : loc) (facilityAddress : Value)
    : M (Promise Value) :=
  if negb (isAddress env facilityAddress) then
    mret (Rejected (TypeError
      ("Invalid facilitator address: " +:+ toStr facilityAddress +:+ ".")))
  else
    p ← getBaseTokenContract this;
    pthen p (fun eip20BaseToken =>
      b ← getBounty env this;
      pthen b (fun bounty =>
        address ← getProp (VObj this) "address";
        answer ← tokenIsAmountApproved T eip20BaseToken [facilityAddress; address; bounty];
        mret (settle answer))).

Definition approveStakeAmount (this : loc) (amount txOptions : Value)
    : M (Promise Value) :=
  if negb (truthy txOptions) then
    mret (Rejected (TypeError ("Invalid transaction options: " +:+ toStr txOptions +:+ ".")))
  else
    from ← getProp txOptions "from";
    if negb (isAddress env from) then
      mret (Rejected (TypeError ("Invalid from address: " +:+ toStr from +:+ ".")))
    else if negb (isString amount) then
      mret (Rejected (TypeError ("Invalid stake amount: " +:+ toStr amount +:+ ".")))
    else
      p ← getValueTokenContract this;
      pthen p (fun eip20Token =>
        address ← getProp (VObj this) "address";
        answer ← tokenApprove T eip20Token [address; amount; txOptions];
        mret (settle answer)).

Definition approveBountyAmount (this : loc) (txOptions : Value) : M (Promise Value) :=
  if negb (truthy txOptions) then
    mret (Rejected (TypeError ("Invalid transaction options: " +:+ toStr txOptions +:+ ".")))
  else
    from ← getProp txOptions "from";
    if negb (isAddress env from) then
      mret (Rejected (TypeError ("Invalid from address: " +:+ toStr from +:+ ".")))
    else
      p ← getBaseTokenContract this;
      pthen p (fun eip20BaseToken =>
        b ← getBounty env this;
        pthen b (fun bounty =>
          address ← getProp (VObj this) "address";
          answer ← tokenApprove T eip20BaseToken [address; bounty; txOptions];
          mret (settle answer))).

End WithToken.
End EIP20Gateway.

(** ** src/ContractInteract/EIP20CoGateway.js *)

Module EIP20CoGateway.
Section WithEnv.
Variable env : Env.

Definition progressRedeemRawTx (this : loc) (messageHash unlockSecret : Value)
    : M (Promise Tx) :=
  if negb (isString messageHash) then
    mret (Rejected (TypeError ("Invalid message hash: " +:+ toStr messageHash +:+ ".")))
  else if negb (isString unlockSecret) then
    mret (Rejected (TypeError ("Invalid unlock secret: " +:+ toStr unlockSecret +:+ ".")))
  else
    tx ← method this "progressRedeem" [messageHash; unlockSecret];
    mret (Resolved tx).

Definition progressRedeem (this : loc) (messageHash unlockSecret txOptions : Value)
    : M (Promise Value) :=
  if negb (truthy txOptions) then
    mret (Rejected (TypeError ("Invalid transaction options: " +:+ toStr txOptions +:+ ".")))
  else
    from ← getProp txOptions "from";
    if negb (isAddress env from) then
      mret (Rejected (TypeError
        ("Invalid from address " +:+ toStr from +:+ " in transaction options.")))
    else
      p ← progressRedeemRawTx this messageHash unlockSecret;
      pthen p (fun tx => Utils.sendTransaction env tx txOptions).

Definition getBounty (this : loc) : M (Promise Value) :=
  cached ← getProp (VObj this) "_bountyAmount";
  if truthy cached then mret (Resolved cached)
  else
    tx ← method this "bounty" [];
    p ← call env tx;
    pthen p (fun bounty =>
      setProp this "_bountyAmount" bounty;; mret (Resolved bounty)).

Definition getUtilityToken (this : loc) : M (Promise Value) :=
  cached ← getProp (VObj this) "_utilityToken";
  if truthy cached then mret (Resolved cached)
  else
    tx ← method this "utilityToken" [];
    p ← call env tx;
    pthen p (fun utilityToken =>
      setProp this "_utilityToken" utilityToken;; mret (Resolved utilityToken)).

(** Unlike its sibling in EIP20Gateway, this one throws. *)
Definition getNonce (this : loc) (accountAddress : Value)
    : M (Completion (Promise Value)) :=
  if negb (isAddress env accountAddress) then
    mret (Throw (TypeError ("Invalid account address: " +:+ toStr accountAddress +:+ ".")))
  else
    tx ← method this "getNonce" [accountAddress];
    p ← call env tx;
    mret (Return p).

Definition getStateRootProviderAddress (this : loc) : M (Promise Value) :=
  cached ← getProp (VObj this) "_stateRootProviderAddress";
  if truthy cached then mret (Resolved cached)
  else
    tx ← method this "stateRootProvider" [];
    p ← call env tx;
    pthen p (fun stateRootProviderAddress =>
      setProp this "_stateRootProviderAddress" stateRootProviderAddress;;
      mret (Resolved stateRootProviderAddress)).

Definition getInboxMessageStatus (this : loc) (messageHash : Value)
    : M (Completion (Promise Value)) :=
  if negb (isString messageHash) then
    reject (TypeError ("Invalid message hash: " +:+ toStr messageHash +:+ "."))
  else
    tx ← method this "getInboxMessageStatus" [messageHash];
    callEncoded env tx.

Definition getOutboxMessageStatus (this : loc) (messageHash : Value)
    : M (Completion (Promise Value)) :=
  if negb (isString messageHash) then
    reject (TypeError ("Invalid message hash: " +:+ toStr messageHash +:+ "."))
  else
    tx ← method this "getOutboxMessageStatus" [messageHash];
    callEncoded env tx.

Definition redeemRawTx (this : loc)
    (amount beneficiary gasPrice gasLimit nonce hashLock : Value)
    : M (Completion (Promise Tx)) :=
  match BN env amount with
  | Throw e => mret (Throw e)
  | Return n =>
    if negb (n >? 0) then
      reject (TypeError ("Redeem amount must be greater than zero: " +:+ toStr amount +:+ "."))
    else if negb (isAddress env beneficiary) then
      reject (TypeError ("Invalid beneficiary address: " +:+ toStr beneficiary +:+ "."))
    else if negb (isString gasPrice) then
      reject (TypeError ("Invalid gas price: " +:+ toStr gasPrice +:+ "."))
    else if negb (isString gasLimit) then
      reject (TypeError ("Invalid gas limit: " +:+ toStr gasLimit +:+ "."))
    else if negb (isString nonce) then
      reject (TypeError ("Invalid nonce: " +:+ toStr nonce +:+ "."))
    else if negb (isString hashLock) then
      reject (TypeError ("Invalid hash lock: " +:+ toStr hashLock +:+ "."))
    else
      tx ← method this "redeem" [amount; beneficiary; gasPrice; gasLimit; nonce; hashLock];
      mret (Return (Resolved tx))
  end.

Definition redeem (this : loc)
    (amount beneficiary gasPrice gasLimit nonce hashLock txOptions : Value)
    : M (Completion (Promise Value)) :=
  if negb (truthy txOptions) then
    reject (TypeError ("Invalid transaction options: " +:+ toStr txOptions +:+ "."))
  else
    from ← getProp txOptions "from";
    if negb (isAddress env from) then
      reject (TypeError ("Invalid redeemer address: " +:+ toStr from +:+ "."))
    else
      raw ← redeemRawTx this amount beneficiary gasPrice gasLimit nonce hashLock;
      match raw with
      | Throw e => mret (Throw e)
      | Return p =>
        r ← pthen p (fun tx => Utils.sendTransaction env tx txOptions);
        mret (Return r)
      end.

Definition proveGatewayRawTx (this : loc)
    (blockHeight encodedAccount accountProof : Value) : M (Promise Tx) :=
  if negb (isString blockHeight) then
    mret (Rejected (TypeError ("Invalid block height: " +:+ toStr blockHeight +:+ ".")))
  else if negb (isString encodedAccount) then
    mret (Rejected (TypeError ("Invalid account data: " +:+ toStr encodedAccount +:+ ".")))
  else if negb (isString accountProof) then
    mret (Rejected (TypeError ("Invalid account proof: " +:+ toStr accountProof +:+ ".")))
  else
    tx ← method this "proveGateway" [blockHeight; encodedAccount; accountProof];
    mret (Resolved tx).

Definition proveGateway (this : loc)
    (blockHeight encodedAccount accountProof txOptions : Value) : M (Promise Value) :=
  if negb (truthy txOptions) then
    mret (Rejected (TypeError ("Invalid transaction options: " +:+ toStr txOptions +:+ ".")))
  else
    from ← getProp txOptions "from";
    if negb (isAddress env from) then
      mret (Rejected (TypeError
        ("Invalid from address " +:+ toStr from +:+ " in transaction options.")))
    else
      p ← proveGatewayRawTx this blockHeight encodedAccount accountProof;
      pthen p (fun tx => Utils.sendTransaction env tx txOptions).

Definition confirmStakeIntentRawTx (this : loc)
    (staker nonce beneficiary amount gasPrice gasLimit hashLock blockHeight
       storageProof : Value) : M (Promise Tx) :=
  if negb (isAddress env staker) then
    mret (Rejected (TypeError ("Invalid staker address: " +:+ toStr staker +:+ ".")))
  else if negb (isString nonce) then
    mret (Rejected (TypeError ("Invalid nonce: " +:+ toStr nonce +:+ ".")))
  else if negb (isAddress env beneficiary) then
    mret (Rejected (TypeError ("Invalid beneficiary address: " +:+ toStr beneficiary +:+ ".")))
  else if negb (isString amount) then
    mret (Rejected (TypeError ("Invalid stake amount: " +:+ toStr amount +:+ ".")))
  else if negb (isString gasPrice) then
    mret (Rejected (TypeError ("Invalid gas price: " +:+ toStr gasPrice +:+ ".")))
  else if negb (isString gasLimit) then
    mret (Rejected (TypeError ("Invalid gas limit: " +:+ toStr gasLimit +:+ ".")))
  else if negb (isString blockHeight) then
    mret (Rejected (TypeError ("Invalid block height: " +:+ toStr blockHeight +:+ ".")))
  else if negb (isString hashLock) then
    mret (Rejected (TypeError ("Invalid hash lock: " +:+ toStr hashLock +:+ ".")))
  else if negb (isString storageProof) then
    mret (Rejected (TypeError ("Invalid storage proof data: " +:+ toStr storageProof +:+ ".")))
  else
    tx ← method this "confirmStakeIntent"
           [staker; nonce; beneficiary; amount; gasPrice; gasLimit; hashLock;
            blockHeight; storageProof];
    mret (Resolved tx).

Definition confirmStakeIntent (this : loc)
    (staker nonce beneficiary amount gasPrice gasLimit hashLock blockHeight
       storageProof txOptions : Value) : M (Promise Value) :=
  if negb (truthy txOptions) then
    mret (Rejected (TypeError ("Invalid transaction options: " +:+ toStr txOptions +:+ ".")))
  else
    from ← getProp txOptions "from";
    if negb (isAddress env from) then
      mret (Rejected (TypeError
        ("Invalid from address " +:+ toStr from +:+ " in transaction options.")))
    else
      p ← confirmStakeIntentRawTx this staker nonce beneficiary amount gasPrice gasLimit
            hashLock blockHeight storageProof;
      pthen p (fun tx => Utils.sendTransaction env tx txOptions).

Definition progressMintRawTx (this : loc) (messageHash unlockSecret : Value)
    : M (Promise Tx) :=
  if negb (isString messageHash) then
    mret (Rejected (TypeError ("Invalid message hash: " +:+ toStr messageHash +:+ ".")))
  else if negb (isString unlockSecret) then
    mret (Rejected (TypeError ("Invalid unlock secret: " +:+ toStr unlockSecret +:+ ".")))
  else
    tx ← method this "progressMint" [messageHash; unlockSecret];
    mret (Resolved tx).

Definition progressMint (this : loc) (messageHash unlockSecret txOptions : Value)
    : M (Promise Value) :=
  if negb (truthy txOptions) then
    mret (Rejected (TypeError ("Invalid transaction options: " +:+ toStr txOptions +:+ ".")))
  else
    from ← getProp txOptions "from";
    if negb (isAddress env from) then
      mret (Rejected (TypeError
        ("Invalid from address " +:+ toStr from +:+ " in transaction options.")))
    else
      p ← progressMintRawTx this messageHash unlockSecret;
      pthen p (fun tx => Utils.sendTransaction env tx txOptions).

End WithEnv.

Section WithToken.
Variable env : Env.
Variable T : TokenOps.

Definition getUtilityTokenContract (this : loc) : M (Promise Value) :=
  cached ← getProp (VObj this) "_eip20UtilityToken";
  if truthy cached then mret (Resolved cached)
  else
    p ← getUtilityToken env this;
    pthen p (fun utilityToken =>
      created ← newEIP20Token T utilityToken;
      match created with
      | Throw e => mret (Rejected e)
      | Return token =>
        setProp this "_eip20UtilityToken" token;; mret (Resolved token)
      end).

Definition isRedeemAmountApproved (this : loc) (redeemer amount : Value)
    : M (Promise Value) :=
  if negb (isAddress env redeemer) then
    mret (Rejected (TypeError ("Invalid redeemer address: " +:+ toStr redeemer +:+ ".")))
  else if negb (isString amount) then
    mret (Rejected (TypeError ("Invalid redeem amount: " +:+ toStr amount +:+ ".")))
  else
    p ← getUtilityTokenContract this;
    pthen p (fun eip20ValueToken =>
      address ← getProp (VObj this) "address";
      answer ← tokenIsAmountApproved T eip20ValueToken [redeemer; address; amount];
      mret (settle answer)).

Definition approveRedeemAmount (this : loc) (amount txOptions : Value)
    : M (Promise Value) :=
  if negb (truthy txOptions) then
    mret (Rejected (TypeError ("Invalid transaction options: " +:+ toStr txOptions +:+ ".")))
  else
    from ← getProp txOptions "from";
    if negb (isAddress env from) then
      mret (Rejected (TypeError ("Invalid from address: " +:+ toStr from +:+ ".")))
    else if negb (isString amount) then
      mret (Rejected (TypeError ("Invalid redeem amount: " +:+ toStr amount +:+ ".")))
    else
      p ← getUtilityTokenContract this;
      pthen p (fun eip20Token =>
        address ← getProp (VObj this) "address";
        answer ← tokenApprove T eip20Token [address; amount; txOptions];
        mret (settle answer)).

End WithToken.
End EIP20CoGateway.

(** ** Demo/Facilitate.js *)

Module Facilitate.

Definition TIME_DURATION : Z := 10000.

(** [sleep(ms)]: the timer always fires. *)
Definition sleep (ms : Z) : M unit := emit (ESleep ms).

Definition isAnchorRead (e : Event) : bool :=
  match e with EAnchorRead => true | _ => false end.

(** Number of anchor reads made so far. *)
Definition reads (t : list Event) : nat := length (List.filter isAnchorRead t).

(** The anchor handed to the wait (src/ContractInteract/Anchor.js is not
    among the sources, so the anchor is taken by what it answers):
    [anchor n] is what its [getLatestStateRootBlockHeight()] answers when it
    is asked after [n] earlier reads. *)
Definition Anchor : Type := nat -> Promise Value.

Definition getLatestStateRootBlockHeight (anchor : Anchor) : M (Promise Value) :=
  h ← history;
  emit EAnchorRead;;
  mret (anchor (reads h)).

Section WithEnv.
Variable env : Env.

(** The function calls itself after every sleep, without a bound; [fuel]
    is the number of polls the model follows, and [None] says that the
    wait is still going on after that many.  [Some Pending]: the anchor
    never answered. *)
Fixpoint waitForStateRootCommit (fuel : nat) (anchor : Anchor) (blockNumber : Value)
    : M (option (Promise Value)) :=
  match fuel with
  | O => mret None
  | S fuel' =>
    match BN env blockNumber with
    | Throw e => mret (Some (Rejected e))
    | Return transactionBlockNumber =>
      p ← getLatestStateRootBlockHeight anchor;
      match p with
      | Pending => mret (Some Pending)
      | Rejected e => mret (Some (Rejected e))
      | Resolved height =>
        match BN env height with
        | Throw e => mret (Some (Rejected e))
        | Return latestBlockHeight =>
          let shouldWait := transactionBlockNumber >=? latestBlockHeight in
          if shouldWait then
            sleep TIME_DURATION;;
            r ← waitForStateRootCommit fuel' anchor blockNumber;
            match r with
            | None => mret None
            | Some (Resolved _) => mret (Some (Resolved (VBool true)))
            | Some (Rejected e) => mret (Some (Rejected e))
            | Some Pending => mret (Some Pending)
            end
          else mret (Some (Resolved (VBool true)))
        end
      end
    end
  end.

End WithEnv.
(** The operations of [this.facilitator] that the demo calls.
    src/Facilitator/Facilitator.js is not among the sources, so they are
    taken as they come; each receives its arguments in the order of the
    call. *)
Record FacilitatorOps := mkFacilitatorOps {
  (** [facilitator.getHashLock()] *)
  getHashLock : M Utils.HashLock;
  (** [facilitator.stake(staker, amount, beneficiary, gasPrice, gasLimit,
      hashLock, txOptions)] *)
  facilitatorStake : list Value -> M (Completion (Promise Value));
  (** [facilitator.progressStake(staker, amount, beneficiary, gasPrice,
      gasLimit, nonce, hashLock, unlockSecret, txOptionsOrigin,
      txOptionsAuxiliary)] *)
  facilitatorProgressStake : list Value -> M (Completion (Promise Value));
  (** [facilitator.redeem(redeemer, amount, beneficiary, gasPrice, gasLimit,
      hashLock, txOptions)] *)
  facilitatorRedeem : list Value -> M (Completion (Promise Value));
  (** [facilitator.progressRedeem(redeemer, nonce, beneficiary, amount,
      gasPrice, gasLimit, hashLock, unlockSecret, txOptionsOrigin,
      txOptionsAuxiliary)] *)
  facilitatorProgressRedeem : list Value -> M (Completion (Promise Value))
}.

(** The fields of a [Facilitate] object that its methods read; none of
    them is written after the constructor. *)
Record Instance := mkInstance {
  gateway : loc;
  coGateway : loc;
  originAnchor : Anchor;
  auxiliaryAnchor : Anchor;
  txOptionsOrigin : Value;
  txOptionsAuxiliary : Value
}.

(** [v.k], which throws when [v] is [undefined] or [null]. *)
Definition member (v : Value) (k : string) : M (Completion Value) :=
  match v with
  | VUndefined => mret (Throw (TypeError ("Cannot read property '" +:+ k +:+ "' of undefined")))
  | VNull => mret (Throw (TypeError ("Cannot read property '" +:+ k +:+ "' of null")))
  | _ => x ← getProp v k; mret (Return x)
  end.

(** [p.then(f)] where [f] may still be waiting when the model stops. *)
Definition thenWaiting {A B} (p : Promise A) (f : A -> M (option (Promise B)))
    : M (option (Promise B)) :=
  match p with
  | Resolved a => f a
  | Rejected e => mret (Some (Rejected e))
  | Pending => mret (Some Pending)
  end.

(** [Object.assign(target, source)] for a new object [target]. *)
Definition assignNew (target : gmap string Value) (source : Value) : M loc :=
  props ← (fun w => (ownProps (heap w) source, w));
  alloc (assign target props).

Section WithFacilitator.
Variable env : Env.
Variable F : FacilitatorOps.

Definition getOriginChainNonce (self : Instance) (address : Value)
    : M (Completion (Promise Value)) :=
  EIP20Gateway.getNonce env (gateway self) address.

Definition getAuxiliaryChainNonce (self : Instance) (address : Value)
    : M (Completion (Promise Value)) :=
  EIP20CoGateway.getNonce env (coGateway self) address.

(** [None]: the anchor wait inside is still going on after [fuel] polls. *)
Definition stake (fuel : nat) (self : Instance)
    (staker amount beneficiary gasPrice gasLimit : Value)
    : M (option (Completion (Promise Value))) :=
  generatedHashLock ← getHashLock F;
  nonceCall ← getOriginChainNonce self staker;
  match nonceCall with
  | Throw e => mret (Some (Throw e))
  | Return noncePromise =>
    r ← thenWaiting noncePromise (fun nonce =>
      staked ← facilitatorStake F
                 [staker; amount; beneficiary; gasPrice; gasLimit;
                  Utils.hashLock generatedHashLock; txOptionsOrigin self];
      thenWaiting (settle staked) (fun receipt =>
        blockNumber ← member receipt "blockNumber";
        match blockNumber with
        | Throw e => mret (Some (Rejected e))
        | Return blockNumber =>
          waited ← waitForStateRootCommit env fuel (auxiliaryAnchor self) blockNumber;
          match waited with
          | None => mret None
          | Some p =>
            thenWaiting p (fun _ =>
              progressed ← facilitatorProgressStake F
                             [staker; amount; beneficiary; gasPrice; gasLimit; nonce;
                              Utils.hashLock generatedHashLock;
                              Utils.unlockSecret generatedHashLock;
                              txOptionsOrigin self; txOptionsAuxiliary self];
              mret (Some (settle progressed)))
          end
        end));
    mret (Return <$> r)
  end.

Definition redeem (fuel : nat) (self : Instance)
    (redeemer amount beneficiary gasPrice gasLimit : Value)
    : M (option (Completion (Promise Value))) :=
  generatedHashLock ← getHashLock F;
  nonceCall ← getAuxiliaryChainNonce self redeemer;
  match nonceCall with
  | Throw e => mret (Some (Throw e))
  | Return noncePromise =>
    r ← thenWaiting noncePromise (fun nonce =>
      bountyPromise ← EIP20CoGateway.getBounty env (coGateway self);
      thenWaiting bountyPromise (fun bounty =>
        txOptionsAuxiliaryWithValue ←
          assignNew {["value" := bounty]} (txOptionsAuxiliary self);
        redeemed ← facilitatorRedeem F
                     [redeemer; amount; beneficiary; gasPrice; gasLimit;
                      Utils.hashLock generatedHashLock;
                      VObj txOptionsAuxiliaryWithValue];
        thenWaiting (settle redeemed) (fun receipt =>
          blockNumber ← member receipt "blockNumber";
          match blockNumber with
          | Throw e => mret (Some (Rejected e))
          | Return blockNumber =>
            waited ← waitForStateRootCommit env fuel (originAnchor self) blockNumber;
            match waited with
            | None => mret None
            | Some p =>
              thenWaiting p (fun _ =>
                progressed ← facilitatorProgressRedeem F
                               [redeemer; nonce; beneficiary; amount; gasPrice; gasLimit;
                                Utils.hashLock generatedHashLock;
                                Utils.unlockSecret generatedHashLock;
                                txOptionsOrigin self; txOptionsAuxiliary self];
                mret (Some (settle progressed)))
            end
          end)));
    mret (Return <$> r)
  end.

End WithFacilitator.
End Facilitate.

(** ** Facilitator *)

Module Facilitator.

(** Modelled from the spec: the enumerated state of a message on one side
    of the transfer (src/utils/Message.js is not among the sources). *)
Inductive MessageStatus :=
| Undeclared
| Declared
| Progressed
| DeclaredRevocation
| Revoked.

(** Modelled from the spec: the error of a message that is not in a
    progressable state; the test of [performProgressRedeem] expects this
    message. *)
Definition MessageNotProgressable : Error :=
  PlainError "Message cannot be progressed.".

Section WithEnv.
Variable env : Env.

(** The status a value returned by the contract stands for (the table
    of src/utils/Message.js). *)
Variable statusOf : Value -> option MessageStatus.

(** What happens for a status the specification leaves open
    ([Progressed], or a value outside the table). *)
Variable otherwise : Value -> M (Promise Value).

(** Modelled from the spec: [Facilitator.performProgressRedeem] of
    src/Facilitator/Facilitator.js, of which only the test is among the
    sources.  It validates its arguments, reads the outbox status of the
    message from the CoGateway, fails with [MessageNotProgressable] for
    [Undeclared], [DeclaredRevocation] and [Revoked], and for [Declared]
    hands over to [EIP20CoGateway.progressRedeem], whose result it
    returns. *)
Definition performProgressRedeem (coGateway : loc)
    (messageHash unlockSecret txOptions : Value) : M (Promise Value) :=
  if negb (isString messageHash) then
    mret (Rejected (TypeError ("Invalid message hash: " +:+ toStr messageHash +:+ ".")))
  else if negb (isString unlockSecret) then
    mret (Rejected (TypeError ("Invalid unlock secret: " +:+ toStr unlockSecret +:+ ".")))
  else if negb (truthy txOptions) then
    mret (Rejected (TypeError ("Invalid transaction option: " +:+ toStr txOptions +:+ ".")))
  else
    status ← EIP20CoGateway.getOutboxMessageStatus env coGateway messageHash;
    pthen (settle status) (fun s =>
      match statusOf s with
      | Some Undeclared => mret (Rejected MessageNotProgressable)
      | Some DeclaredRevocation => mret (Rejected MessageNotProgressable)
      | Some Revoked => mret (Rejected MessageNotProgressable)
      | Some Declared =>
        EIP20CoGateway.progressRedeem env coGateway messageHash unlockSecret txOptions
      | Some Progressed => otherwise s
      | None => otherwise s
      end).

End WithEnv.
End Facilitator.

(** ** Vocabulary of the statements *)

(** Events that reach the network. *)
Definition isCall (e : Event) : bool :=
  match e with ECall _ => true | _ => false end.

Definition isMethod (name : string) (e : Event) : bool :=
  match e with EMethod tx => String.eqb (tx_method tx) name | _ => false end.

Definition count (p : Event -> bool) (t : list Event) : nat :=
  length (List.filter p t).

(** [n] calls of the same operation, one after the other. *)
Fixpoint repeatM {A} (n : nat) (m : M A) : M (list A) :=
  match n with
  | O => mret []
  | S n' => a ← m; rest ← repeatM n' m; mret (a :: rest)
  end.

(** The trace of [k] polls that each ended in a sleep. *)
Fixpoint pollTrace (k : nat) : list Event :=
  match k with
  | O => []
  | S k' => EAnchorRead :: ESleep Facilitate.TIME_DURATION :: pollTrace k'
  end.

Definition isHexChar (c : ascii) : bool :=
  let n := Ascii.nat_of_ascii c in
  ((48 <=? n) && (n <=? 57) || (97 <=? n) && (n <=? 102) || (65 <=? n) && (n <=? 70))%nat.

Fixpoint allHex (s : string) : bool :=
  match s with
  | EmptyString => true
  | String c s' => isHexChar c && allHex s'
  end.

(** Lower-case hexadecimal digits only. *)
Definition isLowerHexChar (c : ascii) : bool :=
  let n := Ascii.nat_of_ascii c in
  ((48 <=? n) && (n <=? 57) || (97 <=? n) && (n <=? 102))%nat.

Fixpoint allLowerHex (s : string) : bool :=
  match s with
  | EmptyString => true
  | String c s' => isLowerHexChar c && allLowerHex s'
  end.

(** Upper-case hexadecimal digits only. *)
Definition isUpperHexChar (c : ascii) : bool :=
  let n := Ascii.nat_of_ascii c in
  ((48 <=? n) && (n <=? 57) || (65 <=? n) && (n <=? 70))%nat.

Fixpoint allUpperHex (s : string) : bool :=
  match s with
  | EmptyString => true
  | String c s' => isUpperHexChar c && allUpperHex s'
  end.

(** [0x] followed by [digits] hexadecimal digits. *)
Definition isHexOfLength (digits : nat) (v : Value) : bool :=
  match v with
  | VStr (String "0"%char (String "x"%char s)) => (String.length s =? digits)%nat && allHex s
  | _ => false
  end.

(** The specification's well-formed message hash: a 32-byte hex
    identifier. *)
Definition isBytes32Hex (v : Value) : bool := isHexOfLength 64 v.

(** ** A sample environment, for the examples *)

Module Sample.

(** bn.js 4.11.8 reading a string in base 10: white space is dropped, a
    leading [-] is the sign, and every other character counts as a digit,
    worth its code less 48 below [A], less 55 from [A] on and less 87 from
    [a] on.  No character is refused: ["1.5"] is read as 85 and ["abc"] as
    1122.  (bn.js reads seven characters at a time into its limbs; the
    value is the sum taken here as long as no limb leaves its range, which
    is so for decimal numerals and for strings of up to seven
    characters.) *)
Definition isSpace (c : ascii) : bool :=
  let n := Ascii.nat_of_ascii c in
  ((9 <=? n) && (n <=? 13) || (n =? 32))%nat.

Fixpoint dropSpaces (s : string) : string :=
  match s with
  | EmptyString => EmptyString
  | String c s' => if isSpace c then dropSpaces s' else String c (dropSpaces s')
  end.

Definition digitValue (c : ascii) : Z :=
  let n := (Z.of_nat (Ascii.nat_of_ascii c) - 48)%Z in
  if (49 <=? n)%Z then (n - 49 + 10)%Z
  else if (17 <=? n)%Z then (n - 17 + 10)%Z
  else n.

Fixpoint parseBase (r : Z) (s : string) : Z :=
  match s with
  | EmptyString => r
  | String c s' => parseBase (r * 10 + digitValue c) s'
  end.

Definition parseString (s : string) : Z :=
  match dropSpaces s with
  | String "-"%char digits => (- parseBase 0 digits)%Z
  | digits => parseBase 0 digits
  end.

Definition assertionFailed : Error := PlainError "Assertion failed".

Definition noWords : Error := TypeError "Cannot read property '0' of null".

(** [new BN(v)] of bn.js 4.11.8, as far as its first comparison.  A falsy
    value other than [null] is read as 0; a number is taken as it is up to
    [2^53], where the constructor's assertion fails, as it does on an
    object that is not an array; a string, and a boolean through its text,
    is read by [parseString]; for [null] nothing is read, and the
    comparison throws. *)
Definition BN (v : Value) : Completion Z :=
  match v with
  | VNum n => if (Z.abs n <? 2 ^ 53)%Z then Return n else Throw assertionFailed
  | VUndefined => Return 0
  | VBool false => Return 0
  | VBool true => Return (parseString "true")
  | VStr s => Return (parseString s)
  | VNull => Throw noWords
  | VObj _ => Throw assertionFailed
  end.

(** [Web3.utils.isAddress]: 40 hexadecimal digits, with or without [0x]
    before them, all in lower case or all in upper case.  Digits in mixed
    case are an address when their checksum is right, which takes the real
    hash; the sample has none of them. *)
Definition isAddressDigits (s : string) : bool :=
  (String.length s =? 40)%nat && (allLowerHex s || allUpperHex s).

Definition isAddress (v : Value) : bool :=
  match v with
  | VStr (String "0"%char (String "x"%char s)) => isAddressDigits s
  | VStr (String "0"%char (String "X"%char s)) => isAddressDigits s
  | VStr s => isAddressDigits s
  | _ => false
  end.

(** A stand-in for the hash, so that the environment is complete: the
    bytes of the text. *)
Definition keccakDigest (s : string) : list Byte.byte :=
  List.map byte_of_ascii (list_ascii_of_string s).

(** Which arguments web3 encodes as [bytes32] for the status queries: the
    sample takes [0x] and up to 64 hexadecimal digits, and refuses any
    other string. *)
Definition isBytes32Argument (v : Value) : bool :=
  match v with
  | VStr (String "0"%char (String "x"%char s)) => (String.length s <=? 64)%nat && allHex s
  | _ => false
  end.

Definition invalidBytes32 : Error := PlainError "invalid bytes32 value".

Definition abiError (tx : Tx) : option Error :=
  if String.eqb (tx_method tx) "getInboxMessageStatus"
     || String.eqb (tx_method tx) "getOutboxMessageStatus"
  then if forallb isBytes32Argument (tx_args tx) then None else Some invalidBytes32
  else None.

(** A chain that answers every read with ["1000"]. *)
Definition steadyChain (h : list Event) (tx : Tx) : Promise Value :=
  Resolved (VStr "1000").

(** A chain whose first read fails. *)
Definition flakyChain (h : list Event) (tx : Tx) : Promise Value :=
  match count isCall h with
  | O => Rejected (Foreign (VStr "connection lost"))
  | S _ => Resolved (VStr "1000")
  end.

Definition estimate (h : list Event) (tx : Tx) (o : gmap string Value) : Promise Value :=
  Resolved (VNum 21000).

Definition receipt (h : list Event) (tx : Tx) (o : gmap string Value) : Promise Value :=
  Resolved (VBool true).

Definition env : Env :=
  mkEnv isAddress BN keccakDigest steadyChain abiError estimate receipt.

Definition flakyEnv : Env :=
  mkEnv isAddress BN keccakDigest flakyChain abiError estimate receipt.

(** A chain that reports every message with the given status code. *)
Definition statusEnv (code : string) : Env :=
  mkEnv isAddress BN keccakDigest (fun _ _ => Resolved (VStr code)) abiError estimate receipt.

Definition statusOf (v : Value) : option Facilitator.MessageStatus :=
  match v with
  | VStr "0" => Some Facilitator.Undeclared
  | VStr "1" => Some Facilitator.Declared
  | VStr "2" => Some Facilitator.Progressed
  | VStr "3" => Some Facilitator.DeclaredRevocation
  | VStr "4" => Some Facilitator.Revoked
  | _ => None
  end.

Definition account : Value := VStr "0x0000000000000000000000000000000000000001".

Definition messageHash : Value :=
  VStr "0x0000000000000000000000000000000000000000000000000000000000000001".

Definition unlockSecret : Value :=
  VStr "0x0000000000000000000000000000000000000000000000000000000000000002".

(** A client instance at location 1 and the object [{from: account}] at
    location 2. *)
Definition world : World :=
  mkWorld (<[2%positive := {["from" := account]}]> (<[1%positive := ∅]> ∅)) [].

Definition this : loc := 1%positive.

Definition txOptions : Value := VObj 2%positive.

(** An anchor that stays at one height. *)
Definition stuckAnchor (height : string) : Facilitate.Anchor :=
  fun _ => Resolved (VStr height).

(** An anchor at height 7 for its first two reads and at 8 afterwards. *)
Definition risingAnchor : Facilitate.Anchor :=
  fun n => if (n <? 2)%nat then Resolved (VStr "7") else Resolved (VStr "8").

(** A facilitator whose stake and redeem are mined in block 7 (the receipt
    is the object at location 3) and whose progress steps succeed. *)
Definition lock : Utils.HashLock :=
  match Utils.toHashLock env "secret" with
  | Return generated => generated
  | Throw _ => Utils.mkHashLock "secret" VNull VNull
  end.

Definition receipt7 : Value := VObj 3%positive.

Definition facilitator : Facilitate.FacilitatorOps :=
  Facilitate.mkFacilitatorOps
    (mret lock)
    (fun _ => mret (Return (Resolved receipt7)))
    (fun _ => mret (Return (Resolved (VStr "progressed"))))
    (fun _ => mret (Return (Resolved receipt7)))
    (fun _ => mret (Return (Resolved (VStr "progressed")))).

(** A facilitator whose stake and redeem fail. *)
Definition failingFacilitator : Facilitate.FacilitatorOps :=
  Facilitate.mkFacilitatorOps
    (mret lock)
    (fun _ => mret (Return (Rejected (Foreign (VStr "reverted")))))
    (fun _ => mret (Return (Resolved (VStr "progressed"))))
    (fun _ => mret (Return (Rejected (Foreign (VStr "reverted")))))
    (fun _ => mret (Return (Resolved (VStr "progressed")))).

(** The sample world with the receipt in it. *)
Definition minedWorld : World :=
  mkWorld (<[3%positive := {["blockNumber" := VNum 7]}]> (heap world)) [].

Definition facilitate (anchor : Facilitate.Anchor) : Facilitate.Instance :=
  Facilitate.mkInstance this this anchor anchor txOptions txOptions.

(** A token client that is the object at location 9 and reports every
    amount as approved. *)
Definition token : TokenOps :=
  mkTokenOps
    (fun _ => mret (Return (VObj 9%positive)))
    (fun _ _ => mret (Return (Resolved (VBool true))))
    (fun _ _ => mret (Return (Resolved (VBool true)))).

End Sample.

(** The two rejections of the amount guard. *)
Definition stakeAmountError (amount : Value) : Error :=
  TypeError ("Stake amount must be greater than zero: " +:+ toStr amount +:+ ".").

Definition redeemAmountError (amount : Value) : Error :=
  TypeError ("Redeem amount must be greater than zero: " +:+ toStr amount +:+ ".").

Definition messageHashError (messageHash : Value) : Error :=
  TypeError ("Invalid message hash: " +:+ toStr messageHash +:+ ".").

Definition accountAddressError (accountAddress : Value) : Error :=
  TypeError ("Invalid account address: " +:+ toStr accountAddress +:+ ".").

(** The world after a read of the chain through [tx]. *)
Definition afterRead (tx : Tx) (w : World) : World :=
  mkWorld (heap w) (trace w ++ [EMethod tx; ECall tx]).

(** The shape the cached reads share. *)
Definition readThrough (env : Env) (field meth : string) (this : loc) : M (Promise Value) :=
  cached ← getProp (VObj this) field;
  if truthy cached then mret (Resolved cached)
  else
    tx ← method this meth [];
    p ← call env tx;
    pthen p (fun v => setProp this field v;; mret (Resolved v)).

Definition cachedReads (env : Env) : list (loc -> M (Promise Value)) :=
  [ EIP20Gateway.getBounty env;
    EIP20Gateway.getBaseToken env;
    EIP20Gateway.getValueToken env;
    EIP20Gateway.getStateRootProviderAddress env;
    EIP20CoGateway.getBounty env;
    EIP20CoGateway.getUtilityToken env;
    EIP20CoGateway.getStateRootProviderAddress env ].

Definition cachedValue (field : string) (this : loc) (w : World) : Value :=
  fst (getProp (VObj this) field w).


(** The height the anchor reports at its [n]-th read, when it reports
    one. *)
Definition heightAt (env : Env) (anchor : Facilitate.Anchor) (n : nat) : option Z :=
  match anchor n with
  | Resolved v => match BN env v with Return h => Some h | Throw _ => None end
  | _ => None
  end.

(** The world after [k] more polls that each ended in a sleep. *)
Definition afterPolls (k : nat) (w : World) : World :=
  mkWorld (heap w) (trace w ++ pollTrace k).

(** ** Vocabulary for the transaction operations *)

Definition isSendEvent (e : Event) : bool :=
  match e with ESend _ _ => true | _ => false end.

Definition isEstimate (e : Event) : bool :=
  match e with EEstimateGas _ _ => true | _ => false end.

(** The builders of raw transactions of both clients, at given arguments
    (each takes as many of them as it has parameters). *)
Definition rawTxBuilders (env : Env) (this : loc)
    (a1 a2 a3 a4 a5 a6 a7 a8 a9 : Value) : list (M (Promise Tx)) :=
  [ EIP20Gateway.proveGatewayRawTx this a1 a2 a3;
    EIP20Gateway.progressStakeRawTx this a1 a2;
    EIP20Gateway.confirmRedeemIntentRawTx env this a1 a2 a3 a4 a5 a6 a7 a8 a9;
    EIP20Gateway.progressUnstakeRawTx this a1 a2;
    EIP20Gateway.activateGatewayRawTx env this a1;
    EIP20CoGateway.proveGatewayRawTx this a1 a2 a3;
    EIP20CoGateway.confirmStakeIntentRawTx env this a1 a2 a3 a4 a5 a6 a7 a8 a9;
    EIP20CoGateway.progressMintRawTx this a1 a2;
    EIP20CoGateway.progressRedeemRawTx this a1 a2 ].

(** The operations that send such a transaction, as functions of the
    transaction options. *)
Definition sendOperations (env : Env) (this : loc)
    (a1 a2 a3 a4 a5 a6 a7 a8 a9 : Value) : list (Value -> M (Promise Value)) :=
  [ EIP20Gateway.proveGateway env this a1 a2 a3;
    EIP20Gateway.progressStake env this a1 a2;
    EIP20Gateway.confirmRedeemIntent env this a1 a2 a3 a4 a5 a6 a7 a8 a9;
    EIP20Gateway.progressUnstake env this a1 a2;
    EIP20Gateway.activateGateway env this a1;
    EIP20CoGateway.proveGateway env this a1 a2 a3;
    EIP20CoGateway.confirmStakeIntent env this a1 a2 a3 a4 a5 a6 a7 a8 a9;
    EIP20CoGateway.progressMint env this a1 a2;
    EIP20CoGateway.progressRedeem env this a1 a2 ].

(** The shape these operations share: the two checks of the options, the
    builder, the send. *)
Definition guardedSend (env : Env) (optionsMessage fromMessage : Value -> string)
    (builder : M (Promise Tx)) (txOptions : Value) : M (Promise Value) :=
  if negb (truthy txOptions) then
    mret (Rejected (TypeError (optionsMessage txOptions)))
  else
    from ← getProp txOptions "from";
    if negb (isAddress env from) then
      mret (Rejected (TypeError (fromMessage from)))
    else
      p ← builder;
      pthen p (fun tx => Utils.sendTransaction env tx txOptions).

(** The sender named by the options, as the operations read it. *)
Definition senderOf (txOptions : Value) (w : World) : Value :=
  fst (getProp txOptions "from" w).

(** The progress operations, with the name of their contract method. *)
Definition progressOperations (env : Env)
    : list (string * (loc -> Value -> Value -> Value -> M (Promise Value))) :=
  [ ("progressStake", EIP20Gateway.progressStake env);
    ("progressUnstake", EIP20Gateway.progressUnstake env);
    ("progressMint", EIP20CoGateway.progressMint env);
    ("progressRedeem", EIP20CoGateway.progressRedeem env) ].

(** A call that returned a resolved promise. *)
Definition isResolved {A} (c : Completion (Promise A)) : bool :=
  match c with Return (Resolved _) => true | _ => false end.

(** The world once the method object [tx] has been built. *)
Definition afterMethod (tx : Tx) (w : World) : World :=
  mkWorld (heap w) (trace w ++ [EMethod tx]).

(** The reads that go to the chain at every call. *)
Definition directReads (env : Env) (this : loc) (accountAddress messageHash : Value)
    : list (M (Completion (Promise Value))) :=
  [ EIP20Gateway.getNonce env this accountAddress;
    EIP20CoGateway.getNonce env this accountAddress;
    EIP20Gateway.getInboxMessageStatus env this messageHash;
    EIP20Gateway.getOutboxMessageStatus env this messageHash;
    EIP20CoGateway.getInboxMessageStatus env this messageHash;
    EIP20CoGateway.getOutboxMessageStatus env this messageHash ].

(** The token contract objects the clients keep, and the shape their
    getters share. *)
Definition tokenContracts (env : Env) (T : TokenOps) : list (loc -> M (Promise Value)) :=
  [ EIP20Gateway.getValueTokenContract env T;
    EIP20Gateway.getBaseTokenContract env T;
    EIP20CoGateway.getUtilityTokenContract env T ].

Definition contractThrough (T : TokenOps) (field : string)
    (address : loc -> M (Promise Value)) (this : loc) : M (Promise Value) :=
  cached ← getProp (VObj this) field;
  if truthy cached then mret (Resolved cached)
  else
    p ← address this;
    pthen p (fun tokenAddress =>
      created ← newEIP20Token T tokenAddress;
      match created with
      | Throw e => mret (Rejected e)
      | Return token => setProp this field token;; mret (Resolved token)
      end).

(** * Properties *)

Ltac unfold_monad :=
  unfold mbind, M_bind, mret, M_ret, reject, method, call, emit, history,
    getProp, setProp, readObj, alloc, pthen, settle in *.

Ltac run := unfold_monad; simpl in *.

Lemma app_two {A} (l : list A) (a b : A) : ((l ++ [a]) ++ [b] = l ++ [a; b])%list.
Proof. now rewrite <- app_assoc. Qed.

(** ** Hash locks *)

Lemma take_cons_of_length {A} (n : nat) (l : list A) (x : A) :
  exists b rest, take (S n) (l ++ replicate (S n) x) = b :: rest.
Proof. destruct l as [| a l]; simpl; eauto. Qed.

(** A digest text is [0x] and at least two digits: it never stands for the
    empty message. *)
Lemma digestText_not_empty (digest : list Byte.byte) :
  Web3Utils.isEmptyMessage (Web3Utils.digestText digest) = false.
Proof.
  unfold Web3Utils.digestText.
  destruct (take_cons_of_length 31 digest Byte.x00) as (b & rest & ->).
  reflexivity.
Qed.

Lemma toHashLock_run (env : Env) (s : string) :
  Utils.toHashLock env s =
    if Web3Utils.isEmptyMessage s then Throw (Web3Utils.notHashable VNull)
    else Return {| Utils.secret := s;
                   Utils.unlockSecret := VStr (Web3Utils.hashText env s);
                   Utils.hashLock :=
                     VStr (Web3Utils.hashText env (Web3Utils.hashText env s)) |}.
Proof.
  unfold Utils.toHashLock, Web3Utils.keccak256.
  destruct (Web3Utils.isEmptyMessage s); [reflexivity |].
  unfold Web3Utils.hashText at 1. now rewrite digestText_not_empty.
Qed.

(** The claim C1 as the specification has it fails at the empty secret:
    web3 hashes it to [null], hashing [null] throws, and no record is
    returned. *)
Lemma toHashLock_empty_secret_throws :
  Web3Utils.keccak256 Sample.env (VStr "") = Return VNull /\
  (exists e, Utils.toHashLock Sample.env "" = Throw e) /\
  (forall lock, Utils.toHashLock Sample.env "" <> Return lock).
Proof.
  split; [reflexivity |]. split; [eexists; reflexivity |].
  intros lock H. discriminate H.
Qed.

(** C1, amended: for every secret string that does not stand for the empty
    message, [toHashLock] returns the record made of the secret itself, its
    Keccak-256 hash (as web3 prints it) as unlock secret and the hash of
    that hash as hash lock, a function of the secret and of the hash alone.
    For the empty string and for a bare [0x] it throws, and returns no
    record. *)
Theorem toHashLock_spec (env : Env) (s : string) :
  if Web3Utils.isEmptyMessage s
  then exists e, Utils.toHashLock env s = Throw e
  else Utils.toHashLock env s =
         Return {| Utils.secret := s;
                   Utils.unlockSecret := VStr (Web3Utils.hashText env s);
                   Utils.hashLock :=
                     VStr (Web3Utils.hashText env (Web3Utils.hashText env s)) |}.
Proof.
  rewrite toHashLock_run.
  destruct (Web3Utils.isEmptyMessage s); [eexists |]; reflexivity.
Qed.

Example toHashLock_sample :
  Utils.toHashLock Sample.env "secret" = Return Sample.lock /\
  Utils.secret Sample.lock = "secret" /\
  Utils.unlockSecret Sample.lock = VStr (Web3Utils.hashText Sample.env "secret").
Proof. vm_compute. auto. Qed.

(** ** Validation of the nonce query *)

(** C9: for an account address that [isAddress] refuses, the CoGateway's
    [getNonce] throws its [TypeError], while the Gateway's [getNonce]
    returns a promise rejected with the same error; neither touches the
    chain. *)
Theorem getNonce_invalid_address_channels
    (env : Env) (this : loc) (accountAddress : Value) (w : World) :
  isAddress env accountAddress = false ->
  EIP20CoGateway.getNonce env this accountAddress w
    = (Throw (accountAddressError accountAddress), w) /\
  EIP20Gateway.getNonce env this accountAddress w
    = (Return (Rejected (accountAddressError accountAddress)), w).
Proof.
  intros Hbad.
  unfold EIP20CoGateway.getNonce, EIP20Gateway.getNonce, accountAddressError.
  rewrite Hbad. split; reflexivity.
Qed.

Lemma getNonce_invalid_address_channels_witness :
  isAddress Sample.env (VStr "0x123") = false /\
  EIP20CoGateway.getNonce Sample.env Sample.this (VStr "0x123") Sample.world
    = (Throw (TypeError "Invalid account address: 0x123."), Sample.world) /\
  EIP20Gateway.getNonce Sample.env Sample.this (VStr "0x123") Sample.world
    = (Return (Rejected (TypeError "Invalid account address: 0x123.")), Sample.world).
Proof.
  split; [reflexivity |].
  apply (getNonce_invalid_address_channels Sample.env Sample.this (VStr "0x123") Sample.world).
  reflexivity.
Defined.

(** ** The amount guard of [stakeRawTx] and [redeemRawTx] *)

Lemma stakeRawTx_amount (env : Env) (this : loc)
    (amount beneficiary gasPrice gasLimit nonce hashLock : Value) (w : World) (n : Z) :
  BN env amount = Return n -> n <= 0 ->
  EIP20Gateway.stakeRawTx env this amount beneficiary gasPrice gasLimit nonce hashLock w
    = (Return (Rejected (stakeAmountError amount)), w).
Proof.
  intros HBN Hn. unfold EIP20Gateway.stakeRawTx. rewrite HBN.
  rewrite Z.gtb_ltb. destruct (Z.ltb_spec 0 n); [lia | reflexivity].
Qed.

Lemma redeemRawTx_amount (env : Env) (this : loc)
    (amount beneficiary gasPrice gasLimit nonce hashLock : Value) (w : World) (n : Z) :
  BN env amount = Return n -> n <= 0 ->
  EIP20CoGateway.redeemRawTx env this amount beneficiary gasPrice gasLimit nonce hashLock w
    = (Return (Rejected (redeemAmountError amount)), w).
Proof.
  intros HBN Hn. unfold EIP20CoGateway.redeemRawTx. rewrite HBN.
  rewrite Z.gtb_ltb. destruct (Z.ltb_spec 0 n); [lia | reflexivity].
Qed.

Lemma stake_amount (env : Env) (this : loc)
    (amount beneficiary gasPrice gasLimit nonce hashLock txOptions : Value)
    (w : World) (n : Z) :
  BN env amount = Return n -> n <= 0 ->
  exists e,
    EIP20Gateway.stake env this amount beneficiary gasPrice gasLimit nonce hashLock
      txOptions w = (Return (Rejected e), w) /\
    (truthy txOptions = true ->
     isAddress env (fst (getProp txOptions "from" w)) = true ->
     e = stakeAmountError amount).
Proof.
  intros HBN Hn. unfold EIP20Gateway.stake.
  destruct (truthy txOptions) eqn:Ht; simpl.
  - unfold mbind, M_bind. simpl.
    destruct (isAddress env (default VUndefined (ownProps (heap w) txOptions !! "from")))
      eqn:Ha; simpl.
    + rewrite (stakeRawTx_amount env this amount beneficiary gasPrice gasLimit nonce
                 hashLock w n HBN Hn).
      eexists; split; [reflexivity | auto].
    + eexists; split; [reflexivity | intros _ Hc; discriminate Hc].
  - eexists; split; [reflexivity | intros Hc; discriminate Hc].
Qed.

Lemma redeem_amount (env : Env) (this : loc)
    (amount beneficiary gasPrice gasLimit nonce hashLock txOptions : Value)
    (w : World) (n : Z) :
  BN env amount = Return n -> n <= 0 ->
  exists e,
    EIP20CoGateway.redeem env this amount beneficiary gasPrice gasLimit nonce hashLock
      txOptions w = (Return (Rejected e), w) /\
    (truthy txOptions = true ->
     isAddress env (fst (getProp txOptions "from" w)) = true ->
     e = redeemAmountError amount).
Proof.
  intros HBN Hn. unfold EIP20CoGateway.redeem.
  destruct (truthy txOptions) eqn:Ht; simpl.
  - unfold mbind, M_bind. simpl.
    destruct (isAddress env (default VUndefined (ownProps (heap w) txOptions !! "from")))
      eqn:Ha; simpl.
    + rewrite (redeemRawTx_amount env this amount beneficiary gasPrice gasLimit nonce
                 hashLock w n HBN Hn).
      eexists; split; [reflexivity | auto].
    + eexists; split; [reflexivity | intros _ Hc; discriminate Hc].
  - eexists; split; [reflexivity | intros Hc; discriminate Hc].
Qed.

(** C5: an amount that bn.js reads as zero or negative is refused by
    [stakeRawTx] and [redeemRawTx] with their "must be greater than zero"
    error, and by [stake] and [redeem] with a rejection that is this very
    error as soon as the transaction options carry a valid sender; in every
    case the world is left as it was: no contract method object is built,
    nothing is estimated, sent or called. *)
Theorem nonpositive_amount_rejected (env : Env) (this : loc)
    (amount beneficiary gasPrice gasLimit nonce hashLock : Value)
    (w : World) (n : Z) :
  BN env amount = Return n -> n <= 0 ->
  EIP20Gateway.stakeRawTx env this amount beneficiary gasPrice gasLimit nonce hashLock w
    = (Return (Rejected (stakeAmountError amount)), w) /\
  EIP20CoGateway.redeemRawTx env this amount beneficiary gasPrice gasLimit nonce hashLock w
    = (Return (Rejected (redeemAmountError amount)), w) /\
  (forall txOptions : Value, exists e,
     EIP20Gateway.stake env this amount beneficiary gasPrice gasLimit nonce hashLock
       txOptions w = (Return (Rejected e), w) /\
     (truthy txOptions = true ->
      isAddress env (fst (getProp txOptions "from" w)) = true ->
      e = stakeAmountError amount)) /\
  (forall txOptions : Value, exists e,
     EIP20CoGateway.redeem env this amount beneficiary gasPrice gasLimit nonce hashLock
       txOptions w = (Return (Rejected e), w) /\
     (truthy txOptions = true ->
      isAddress env (fst (getProp txOptions "from" w)) = true ->
      e = redeemAmountError amount)).
Proof.
  intros HBN Hn. repeat split.
  - eapply stakeRawTx_amount; eassumption.
  - eapply redeemRawTx_amount; eassumption.
  - intros txOptions. eapply stake_amount; eassumption.
  - intros txOptions. eapply redeem_amount; eassumption.
Qed.

Lemma nonpositive_amount_rejected_witness :
  BN Sample.env (VStr "0") = Return 0 /\ 0 <= 0 /\
  EIP20Gateway.stakeRawTx Sample.env Sample.this (VStr "0") Sample.account
      (VStr "1") (VStr "1000000") (VStr "1") (VStr "0xhashlock") Sample.world
    = (Return (Rejected (TypeError "Stake amount must be greater than zero: 0.")),
       Sample.world) /\
  EIP20CoGateway.redeemRawTx Sample.env Sample.this (VStr "0") Sample.account
      (VStr "1") (VStr "1000000") (VStr "1") (VStr "0xhashlock") Sample.world
    = (Return (Rejected (TypeError "Redeem amount must be greater than zero: 0.")),
       Sample.world).
Proof.
  split; [reflexivity |]. split; [lia |].
  pose proof (nonpositive_amount_rejected Sample.env Sample.this (VStr "0") Sample.account
                (VStr "1") (VStr "1000000") (VStr "1") (VStr "0xhashlock") Sample.world 0
                eq_refl (Z.le_refl 0)) as [Hs [Hr _]].
  split; [exact Hs | exact Hr].
Defined.

Lemma stakeRawTx_positive (env : Env) (this : loc)
    (amount beneficiary gasPrice gasLimit nonce hashLock : Value) (w : World) (n : Z) :
  BN env amount = Return n -> 0 < n ->
  fst (EIP20Gateway.stakeRawTx env this amount beneficiary gasPrice gasLimit nonce
         hashLock w) <> Return (Rejected (stakeAmountError amount)).
Proof.
  intros HBN Hn. unfold EIP20Gateway.stakeRawTx. rewrite HBN.
  rewrite Z.gtb_ltb. destruct (Z.ltb_spec 0 n); [| lia]. simpl.
  unfold stakeAmountError.
  destruct (isAddress env beneficiary); simpl; [| discriminate].
  destruct (isUndefined gasPrice); simpl; [discriminate |].
  destruct (isUndefined gasLimit); simpl; [discriminate |].
  destruct (isString nonce); simpl; [| discriminate].
  destruct (isString hashLock); simpl; discriminate.
Qed.

Lemma redeemRawTx_positive (env : Env) (this : loc)
    (amount beneficiary gasPrice gasLimit nonce hashLock : Value) (w : World) (n : Z) :
  BN env amount = Return n -> 0 < n ->
  fst (EIP20CoGateway.redeemRawTx env this amount beneficiary gasPrice gasLimit nonce
         hashLock w) <> Return (Rejected (redeemAmountError amount)).
Proof.
  intros HBN Hn. unfold EIP20CoGateway.redeemRawTx. rewrite HBN.
  rewrite Z.gtb_ltb. destruct (Z.ltb_spec 0 n); [| lia]. simpl.
  unfold redeemAmountError.
  destruct (isAddress env beneficiary); simpl; [| discriminate].
  destruct (isString gasPrice); simpl; [| discriminate].
  destruct (isString gasLimit); simpl; [| discriminate].
  destruct (isString nonce); simpl; [| discriminate].
  destruct (isString hashLock); simpl; discriminate.
Qed.

Lemma stakeRawTx_returns (env : Env) (this : loc)
    (amount beneficiary gasPrice gasLimit nonce hashLock : Value) (w : World) (n : Z) :
  BN env amount = Return n ->
  exists p, fst (EIP20Gateway.stakeRawTx env this amount beneficiary gasPrice gasLimit
                   nonce hashLock w) = Return p.
Proof.
  intros HBN. unfold EIP20Gateway.stakeRawTx. rewrite HBN.
  destruct (n >? 0); simpl; [| eexists; reflexivity].
  destruct (isAddress env beneficiary); simpl; [| eexists; reflexivity].
  destruct (isUndefined gasPrice); simpl; [eexists; reflexivity |].
  destruct (isUndefined gasLimit); simpl; [eexists; reflexivity |].
  destruct (isString nonce); simpl; [| eexists; reflexivity].
  destruct (isString hashLock); simpl; eexists; reflexivity.
Qed.

Lemma redeemRawTx_returns (env : Env) (this : loc)
    (amount beneficiary gasPrice gasLimit nonce hashLock : Value) (w : World) (n : Z) :
  BN env amount = Return n ->
  exists p, fst (EIP20CoGateway.redeemRawTx env this amount beneficiary gasPrice gasLimit
                   nonce hashLock w) = Return p.
Proof.
  intros HBN. unfold EIP20CoGateway.redeemRawTx. rewrite HBN.
  destruct (n >? 0); simpl; [| eexists; reflexivity].
  destruct (isAddress env beneficiary); simpl; [| eexists; reflexivity].
  destruct (isString gasPrice); simpl; [| eexists; reflexivity].
  destruct (isString gasLimit); simpl; [| eexists; reflexivity].
  destruct (isString nonce); simpl; [| eexists; reflexivity].
  destruct (isString hashLock); simpl; eexists; reflexivity.
Qed.

(** C10, as stated, fails at the amounts it names: bn.js 4.11.8 refuses
    none of them.  It reads ["1.5"] as 85 and ["abc"] as 1122, so that the
    transaction is built with them, and [undefined] as 0, which the guard
    rejects. *)
Lemma named_amounts_do_not_throw :
  BN Sample.env (VStr "1.5") = Return 85 /\
  BN Sample.env (VStr "abc") = Return 1122 /\
  BN Sample.env VUndefined = Return 0 /\
  EIP20Gateway.stakeRawTx Sample.env Sample.this (VStr "1.5") Sample.account
      (VStr "1") (VStr "1") (VStr "1") (VStr "0xab") Sample.world
    = (let tx := mkTx Sample.this "stake"
                   [VStr "1.5"; Sample.account; VStr "1"; VStr "1"; VStr "1"; VStr "0xab"] in
       (Return (Resolved tx), afterMethod tx Sample.world)) /\
  EIP20CoGateway.redeemRawTx Sample.env Sample.this (VStr "abc") Sample.account
      (VStr "1") (VStr "1") (VStr "1") (VStr "0xab") Sample.world
    = (let tx := mkTx Sample.this "redeem"
                   [VStr "abc"; Sample.account; VStr "1"; VStr "1"; VStr "1"; VStr "0xab"] in
       (Return (Resolved tx), afterMethod tx Sample.world)) /\
  EIP20Gateway.stakeRawTx Sample.env Sample.this VUndefined Sample.account
      (VStr "1") (VStr "1") (VStr "1") (VStr "0xab") Sample.world
    = (Return (Rejected (TypeError "Stake amount must be greater than zero: undefined.")),
       Sample.world) /\
  EIP20CoGateway.redeemRawTx Sample.env Sample.this VUndefined Sample.account
      (VStr "1") (VStr "1") (VStr "1") (VStr "0xab") Sample.world
    = (Return (Rejected (TypeError "Redeem amount must be greater than zero: undefined.")),
       Sample.world).
Proof. repeat split. Qed.

(** C10, amended: [stakeRawTx] and [redeemRawTx] throw, instead of
    returning a rejected promise, exactly when bn.js throws on the amount,
    and then with its exception and before anything else happens; when
    bn.js yields an integer they return a promise, which is the "must be
    greater than zero" rejection exactly when that integer is at most
    zero. *)
Theorem rawTx_amount_guard_channels (env : Env) (this : loc)
    (amount beneficiary gasPrice gasLimit nonce hashLock : Value) (w : World) :
  match BN env amount with
  | Throw e =>
    EIP20Gateway.stakeRawTx env this amount beneficiary gasPrice gasLimit nonce hashLock w
      = (Throw e, w) /\
    EIP20CoGateway.redeemRawTx env this amount beneficiary gasPrice gasLimit nonce hashLock w
      = (Throw e, w)
  | Return n =>
    (exists p, fst (EIP20Gateway.stakeRawTx env this amount beneficiary gasPrice gasLimit
                      nonce hashLock w) = Return p) /\
    (exists p, fst (EIP20CoGateway.redeemRawTx env this amount beneficiary gasPrice
                      gasLimit nonce hashLock w) = Return p) /\
    (fst (EIP20Gateway.stakeRawTx env this amount beneficiary gasPrice gasLimit nonce
            hashLock w) = Return (Rejected (stakeAmountError amount)) <-> n <= 0) /\
    (fst (EIP20CoGateway.redeemRawTx env this amount beneficiary gasPrice gasLimit nonce
            hashLock w) = Return (Rejected (redeemAmountError amount)) <-> n <= 0)
  end.
Proof.
  destruct (BN env amount) as [n | e] eqn:HBN.
  - split; [eapply stakeRawTx_returns; exact HBN |].
    split; [eapply redeemRawTx_returns; exact HBN |].
    split; split; intros H.
    + destruct (Z_le_gt_dec n 0) as [Hle | Hgt]; [exact Hle |].
      exfalso. eapply stakeRawTx_positive; [exact HBN | lia | exact H].
    + now rewrite (stakeRawTx_amount _ _ _ _ _ _ _ _ _ _ HBN H).
    + destruct (Z_le_gt_dec n 0) as [Hle | Hgt]; [exact Hle |].
      exfalso. eapply redeemRawTx_positive; [exact HBN | lia | exact H].
    + now rewrite (redeemRawTx_amount _ _ _ _ _ _ _ _ _ _ HBN H).
  - unfold EIP20Gateway.stakeRawTx, EIP20CoGateway.redeemRawTx.
    rewrite HBN. split; reflexivity.
Qed.

(** The same at sample amounts: [null] and an object make bn.js throw, a
    negative amount is rejected. *)
Example rawTx_amount_samples :
  EIP20Gateway.stakeRawTx Sample.env Sample.this VNull Sample.account
      (VStr "1") (VStr "1") (VStr "1") (VStr "0xab") Sample.world
    = (Throw Sample.noWords, Sample.world) /\
  EIP20CoGateway.redeemRawTx Sample.env Sample.this Sample.txOptions Sample.account
      (VStr "1") (VStr "1") (VStr "1") (VStr "0xab") Sample.world
    = (Throw Sample.assertionFailed, Sample.world) /\
  fst (EIP20Gateway.stakeRawTx Sample.env Sample.this (VStr "-5") Sample.account
         (VStr "1") (VStr "1") (VStr "1") (VStr "0xab") Sample.world)
    = Return (Rejected (TypeError "Stake amount must be greater than zero: -5.")).
Proof. repeat split. Qed.

(** ** Message status queries *)

(** What the status queries do with a string: no check of theirs, the
    method object and web3's call. *)
Lemma status_query_string (env : Env) (this : loc) (messageHash : Value) (w : World) :
  isString messageHash = true ->
  let inbox := mkTx this "getInboxMessageStatus" [messageHash] in
  let outbox := mkTx this "getOutboxMessageStatus" [messageHash] in
  EIP20Gateway.getInboxMessageStatus env this messageHash w
    = callEncoded env inbox (afterMethod inbox w) /\
  EIP20Gateway.getOutboxMessageStatus env this messageHash w
    = callEncoded env outbox (afterMethod outbox w) /\
  EIP20CoGateway.getInboxMessageStatus env this messageHash w
    = callEncoded env inbox (afterMethod inbox w) /\
  EIP20CoGateway.getOutboxMessageStatus env this messageHash w
    = callEncoded env outbox (afterMethod outbox w).
Proof.
  intros Hs.
  unfold EIP20Gateway.getInboxMessageStatus, EIP20Gateway.getOutboxMessageStatus,
    EIP20CoGateway.getInboxMessageStatus, EIP20CoGateway.getOutboxMessageStatus.
  rewrite Hs. repeat split.
Qed.

Lemma callEncoded_run (env : Env) (tx : Tx) (w : World) :
  callEncoded env tx (afterMethod tx w) =
    match abiError env tx with
    | Some e => (Throw e, afterMethod tx w)
    | None => (Return (chainCall env (trace w ++ [EMethod tx]) tx), afterRead tx w)
    end.
Proof.
  unfold callEncoded, afterMethod, afterRead.
  destruct (abiError env tx); run; rewrite ?app_two; reflexivity.
Qed.

(** C7, as stated, fails: a string that is not a 32-byte hex identifier is
    not refused; the chain is read with it. *)
Lemma malformed_hash_reaches_chain :
  isBytes32Hex (VStr "0x123") = false /\
  EIP20Gateway.getOutboxMessageStatus Sample.env Sample.this (VStr "0x123") Sample.world
    = (Return (Resolved (VStr "1000")),
       afterRead (mkTx Sample.this "getOutboxMessageStatus" [VStr "0x123"]) Sample.world) /\
  count isCall
    (trace (snd (EIP20CoGateway.getInboxMessageStatus Sample.env Sample.this
                   (VStr "0x123") Sample.world))) = 1%nat.
Proof. repeat split. Qed.

(** C7, amended: for every message hash that is not a string, the four
    status queries return a promise rejected with a [TypeError] and leave
    the world as it was: nothing is built and the chain is not read.  The
    message of the error is "Invalid message hash: " followed by the text
    of the value and a full stop (the text of a number is left open). *)
Theorem message_status_guard (env : Env) (this : loc) (messageHash : Value) (w : World) :
  isString messageHash = false ->
  exists msg,
    (isNumber messageHash = false ->
     msg = "Invalid message hash: " +:+ toStr messageHash +:+ ".") /\
    EIP20Gateway.getInboxMessageStatus env this messageHash w
      = (Return (Rejected (TypeError msg)), w) /\
    EIP20Gateway.getOutboxMessageStatus env this messageHash w
      = (Return (Rejected (TypeError msg)), w) /\
    EIP20CoGateway.getInboxMessageStatus env this messageHash w
      = (Return (Rejected (TypeError msg)), w) /\
    EIP20CoGateway.getOutboxMessageStatus env this messageHash w
      = (Return (Rejected (TypeError msg)), w).
Proof.
  intros Hs. exists ("Invalid message hash: " +:+ toStr messageHash +:+ ".").
  unfold EIP20Gateway.getInboxMessageStatus, EIP20Gateway.getOutboxMessageStatus,
    EIP20CoGateway.getInboxMessageStatus, EIP20CoGateway.getOutboxMessageStatus.
  rewrite Hs. repeat split.
Qed.

Lemma message_status_guard_witness :
  isString VUndefined = false /\
  exists msg,
    (isNumber VUndefined = false ->
     msg = "Invalid message hash: " +:+ toStr VUndefined +:+ ".") /\
    EIP20Gateway.getInboxMessageStatus Sample.env Sample.this VUndefined Sample.world
      = (Return (Rejected (TypeError msg)), Sample.world) /\
    EIP20Gateway.getOutboxMessageStatus Sample.env Sample.this VUndefined Sample.world
      = (Return (Rejected (TypeError msg)), Sample.world) /\
    EIP20CoGateway.getInboxMessageStatus Sample.env Sample.this VUndefined Sample.world
      = (Return (Rejected (TypeError msg)), Sample.world) /\
    EIP20CoGateway.getOutboxMessageStatus Sample.env Sample.this VUndefined Sample.world
      = (Return (Rejected (TypeError msg)), Sample.world).
Proof.
  split; [reflexivity |].
  apply (message_status_guard Sample.env Sample.this VUndefined Sample.world).
  reflexivity.
Defined.

(** A message hash that is not a string, on the sample chain, and a string
    that web3 does not encode: the call throws and nothing is read. *)
Example message_status_undefined :
  EIP20CoGateway.getOutboxMessageStatus Sample.env Sample.this VUndefined Sample.world
    = (Return (Rejected (TypeError "Invalid message hash: undefined.")), Sample.world) /\
  EIP20CoGateway.getOutboxMessageStatus Sample.env Sample.this (VStr "hello") Sample.world
    = (Throw Sample.invalidBytes32,
       afterMethod (mkTx Sample.this "getOutboxMessageStatus" [VStr "hello"]) Sample.world).
Proof. split; reflexivity. Qed.

(** ** [sendTransaction] and the caller's options *)

Lemma fresh_loc_new (h : gmap loc (gmap string Value)) (l : loc) (o : gmap string Value) :
  h !! l = Some o -> fresh (dom h) <> l.
Proof.
  intros Hl Heq. apply (is_fresh (dom h)). rewrite Heq.
  apply elem_of_dom. eauto.
Qed.

Lemma sendTransaction_heap (env : Env) (tx : Tx) (txOption : Value) (w : World) :
  exists copy : gmap string Value,
    heap (snd (Utils.sendTransaction env tx txOption w))
      = <[fresh (dom (heap w)) := copy]> (heap w) /\
    forall k, k <> "gas" -> copy !! k = ownProps (heap w) txOption !! k.
Proof.
  unfold Utils.sendTransaction, Utils.estimateGas, Utils.send, assign. run.
  rewrite (right_id_L ∅ (∪)).
  set (source := ownProps (heap w) txOption).
  rewrite lookup_insert_eq. simpl.
  destruct (truthy (default VUndefined (source !! "gas"))); simpl.
  - exists source. split; reflexivity.
  - rewrite lookup_insert_eq. simpl.
    destruct (txEstimateGas env (trace w) tx source) as [g | e |]; simpl.
    + exists (<["gas" := g]> source). split.
      * rewrite lookup_insert_eq. simpl. apply insert_insert_eq.
      * intros k Hk. now rewrite lookup_insert_ne.
    + exists source. split; reflexivity.
    + exists source. split; reflexivity.
Qed.

(** C8: [sendTransaction] changes no object that existed when it was
    called, whatever the transaction and the options argument are: the
    caller's options object in particular keeps all its properties.  The
    options that are estimated with and sent are a new object, a copy of the
    argument's properties in which alone the estimated gas is written. *)
Theorem sendTransaction_frame (env : Env) (tx : Tx) (txOption : Value) (w : World)
    (l : loc) (o : gmap string Value) :
  heap w !! l = Some o ->
  heap (snd (Utils.sendTransaction env tx txOption w)) !! l = Some o /\
  exists copy : gmap string Value,
    heap (snd (Utils.sendTransaction env tx txOption w))
      = <[fresh (dom (heap w)) := copy]> (heap w) /\
    forall k, k <> "gas" -> copy !! k = ownProps (heap w) txOption !! k.
Proof.
  intros Hl.
  destruct (sendTransaction_heap env tx txOption w) as [copy [Hheap Hcopy]].
  split; [| exists copy; split; assumption].
  rewrite Hheap, lookup_insert_ne; [exact Hl |].
  eapply fresh_loc_new; exact Hl.
Qed.

Lemma sendTransaction_frame_witness :
  heap Sample.world !! 2%positive = Some {["from" := Sample.account]} /\
  heap (snd (Utils.sendTransaction Sample.env (mkTx Sample.this "stake" [])
               Sample.txOptions Sample.world)) !! 2%positive
    = Some {["from" := Sample.account]}.
Proof.
  split; [reflexivity |].
  apply (sendTransaction_frame Sample.env (mkTx Sample.this "stake" []) Sample.txOptions
           Sample.world 2%positive {["from" := Sample.account]}).
  reflexivity.
Defined.

(** The copy that was sent does carry the estimate. *)
Example sendTransaction_copy_has_gas :
  heap (snd (Utils.sendTransaction Sample.env (mkTx Sample.this "stake" [])
               Sample.txOptions Sample.world)) !! 3%positive
    = Some (<["gas" := VNum 21000]> {["from" := Sample.account]}).
Proof. vm_compute. reflexivity. Qed.

(** ** Read-through caches *)

Lemma cachedReads_shape (env : Env) (g : loc -> M (Promise Value)) :
  In g (cachedReads env) -> exists field meth, g = readThrough env field meth.
Proof.
  unfold cachedReads. simpl.
  intros [H | [H | [H | [H | [H | [H | [H | []]]]]]]]; subst g.
  - exists "_bountyAmount", "bounty"; reflexivity.
  - exists "_baseTokenAddress", "baseToken"; reflexivity.
  - exists "_valueTokenAddress", "token"; reflexivity.
  - exists "_stateRootProviderAddress", "stateRootProvider"; reflexivity.
  - exists "_bountyAmount", "bounty"; reflexivity.
  - exists "_utilityToken", "utilityToken"; reflexivity.
  - exists "_stateRootProviderAddress", "stateRootProvider"; reflexivity.
Qed.

Lemma readThrough_hit (env : Env) (field meth : string) (this : loc) (w : World) :
  truthy (cachedValue field this w) = true ->
  readThrough env field meth this w = (Resolved (cachedValue field this w), w).
Proof.
  unfold cachedValue, readThrough. run. intros Ht. rewrite Ht. reflexivity.
Qed.

Lemma readThrough_fill (env : Env) (field meth : string) (this : loc)
    (w w1 : World) (v : Value) :
  readThrough env field meth this w = (Resolved v, w1) ->
  cachedValue field this w1 = v.
Proof.
  unfold cachedValue, readThrough. run.
  destruct (truthy (default VUndefined (default ∅ (heap w !! this) !! field))) eqn:Ht.
  - intros H. inversion H; subst. reflexivity.
  - destruct (chainCall env (trace w ++ [EMethod (mkTx this meth [])]) (mkTx this meth []))
      as [v' | e |]; simpl; intros H; inversion H; subst; simpl.
    repeat (rewrite lookup_insert_eq; simpl). reflexivity.
Qed.

Lemma readThrough_queries (env : Env) (field meth : string) (this : loc) (w : World) :
  (count isCall (trace (snd (readThrough env field meth this w)))
   <= count isCall (trace w) + 1)%nat.
Proof.
  unfold readThrough, count. run.
  destruct (truthy (default VUndefined (default ∅ (heap w !! this) !! field))); simpl.
  - lia.
  - destruct (chainCall env (trace w ++ [EMethod (mkTx this meth [])]) (mkTx this meth []));
      simpl; rewrite !List.filter_app, !length_app; simpl; lia.
Qed.

Lemma repeatM_hit {A} (m : M A) (a : A) (w : World) (n : nat) :
  m w = (a, w) -> repeatM n m w = (repeat a n, w).
Proof.
  intros Hm. induction n as [| n IH]; [reflexivity |].
  simpl. unfold mbind, M_bind. rewrite Hm, IH. reflexivity.
Qed.

(** C6, as stated, fails: after a read that failed the chain is asked
    again. *)
Lemma failed_read_is_repeated :
  fst (repeatM 2 (EIP20Gateway.getBounty Sample.flakyEnv Sample.this) Sample.world)
    = [Rejected (Foreign (VStr "connection lost")); Resolved (VStr "1000")] /\
  count isCall
    (trace (snd (repeatM 2 (EIP20Gateway.getBounty Sample.flakyEnv Sample.this)
                   Sample.world))) = 2%nat.
Proof. split; reflexivity. Qed.

(** C6, amended: take any of the cached reads of a Gateway or CoGateway
    instance.  One call of it asks the chain at most once; and once a call
    has succeeded with a truthy value (a non-empty string, as the chain
    returns for amounts and addresses), any number of further calls on that
    instance return the same value without asking the chain and without
    changing anything. *)
Theorem cached_read_after_success (env : Env) (g : loc -> M (Promise Value)) (this : loc) :
  In g (cachedReads env) ->
  (forall w : World,
     (count isCall (trace (snd (g this w))) <= count isCall (trace w) + 1)%nat) /\
  (forall (w w1 : World) (v : Value) (n : nat),
     g this w = (Resolved v, w1) ->
     truthy v = true ->
     repeatM n (g this) w1 = (repeat (Resolved v) n, w1)).
Proof.
  intros Hg.
  destruct (cachedReads_shape env g Hg) as [field [meth ->]].
  split; [intros w; apply readThrough_queries |].
  intros w w1 v n Hcall Hv.
  pose proof (readThrough_fill env field meth this w w1 v Hcall) as Hcached.
  apply repeatM_hit.
  rewrite <- Hcached at 1. apply readThrough_hit. now rewrite Hcached.
Qed.

Lemma cached_read_after_success_witness :
  In (EIP20Gateway.getBounty Sample.env) (cachedReads Sample.env) /\
  repeatM 3 (EIP20Gateway.getBounty Sample.env Sample.this)
      (snd (EIP20Gateway.getBounty Sample.env Sample.this Sample.world))
    = ([Resolved (VStr "1000"); Resolved (VStr "1000"); Resolved (VStr "1000")],
       snd (EIP20Gateway.getBounty Sample.env Sample.this Sample.world)).
Proof.
  split; [left; reflexivity |].
  apply (proj2 (cached_read_after_success Sample.env (EIP20Gateway.getBounty Sample.env)
                  Sample.this (or_introl eq_refl))
           Sample.world
           (snd (EIP20Gateway.getBounty Sample.env Sample.this Sample.world))
           (VStr "1000") 3%nat); reflexivity.
Defined.

(** ** The anchor wait *)

Lemma reads_app (t u : list Event) :
  Facilitate.reads (t ++ u) = (Facilitate.reads t + Facilitate.reads u)%nat.
Proof. unfold Facilitate.reads. now rewrite List.filter_app, length_app. Qed.

Lemma wait_result_normal (env : Env) (fuel : nat) (anchor : Facilitate.Anchor)
    (blockNumber : Value) (w : World) :
  match fst (Facilitate.waitForStateRootCommit env fuel anchor blockNumber w) with
  | Some (Resolved v) => v = VBool true
  | _ => True
  end.
Proof.
  revert w. induction fuel as [| fuel IH]; intros w; simpl; [exact I |].
  destruct (BN env blockNumber) as [t | e]; simpl; [| exact I].
  unfold Facilitate.getLatestStateRootBlockHeight, Facilitate.sleep. run.
  destruct (anchor (Facilitate.reads (trace w))) as [v | e |]; simpl; try exact I.
  destruct (BN env v) as [h | e]; simpl; [| exact I].
  destruct (t >=? h); simpl; [| reflexivity].
  match goal with
  | |- context [Facilitate.waitForStateRootCommit env fuel anchor blockNumber ?w'] =>
      specialize (IH w');
      destruct (Facilitate.waitForStateRootCommit env fuel anchor blockNumber w')
        as [[[v' | e' |] |] w'']
  end; simpl in *; auto.
Qed.

(** One poll that finds the anchor not ahead of the target: sleep, then
    start over. *)
Lemma wait_poll_behind (env : Env) (fuel : nat) (anchor : Facilitate.Anchor)
    (blockNumber : Value) (target h : Z) (w : World) :
  BN env blockNumber = Return target ->
  heightAt env anchor (Facilitate.reads (trace w)) = Some h ->
  h <= target ->
  Facilitate.waitForStateRootCommit env (S fuel) anchor blockNumber w
    = Facilitate.waitForStateRootCommit env fuel anchor blockNumber (afterPolls 1 w).
Proof.
  intros Ht Hh Hle. simpl. rewrite Ht.
  unfold Facilitate.getLatestStateRootBlockHeight, Facilitate.sleep. run.
  unfold heightAt in Hh.
  destruct (anchor (Facilitate.reads (trace w))) as [v | e |]; try discriminate Hh.
  destruct (BN env v) as [h' | e]; try discriminate Hh.
  injection Hh as ->. simpl.
  replace (target >=? h) with true
    by (symmetry; rewrite Z.geb_leb; apply Z.leb_le; exact Hle).
  simpl. unfold afterPolls. simpl. rewrite app_two.
  pose proof (wait_result_normal env fuel anchor blockNumber
                (mkWorld (heap w) (trace w ++ [EAnchorRead; ESleep Facilitate.TIME_DURATION])))
    as Hn.
  destruct (Facilitate.waitForStateRootCommit env fuel anchor blockNumber
              (mkWorld (heap w) (trace w ++ [EAnchorRead; ESleep Facilitate.TIME_DURATION])))
    as [[[v' | e' |] |] w'']; simpl in *; subst; reflexivity.
Qed.

(** One poll that finds the anchor ahead of the target ends the wait. *)
Lemma wait_poll_ahead (env : Env) (fuel : nat) (anchor : Facilitate.Anchor)
    (blockNumber : Value) (target h : Z) (w : World) :
  BN env blockNumber = Return target ->
  heightAt env anchor (Facilitate.reads (trace w)) = Some h ->
  target < h ->
  Facilitate.waitForStateRootCommit env (S fuel) anchor blockNumber w
    = (Some (Resolved (VBool true)), mkWorld (heap w) (trace w ++ [EAnchorRead])).
Proof.
  intros Ht Hh Hlt. simpl. rewrite Ht.
  unfold Facilitate.getLatestStateRootBlockHeight. run.
  unfold heightAt in Hh.
  destruct (anchor (Facilitate.reads (trace w))) as [v | e |]; try discriminate Hh.
  destruct (BN env v) as [h' | e]; try discriminate Hh.
  injection Hh as ->. simpl.
  replace (target >=? h) with false
    by (symmetry; rewrite Z.geb_leb; apply Z.leb_gt; exact Hlt).
  reflexivity.
Qed.

(** A failed read of the anchor fails the wait with the same error. *)
Lemma wait_anchor_error (env : Env) (fuel : nat) (anchor : Facilitate.Anchor)
    (blockNumber : Value) (target : Z) (e : Error) (w : World) :
  BN env blockNumber = Return target ->
  anchor (Facilitate.reads (trace w)) = Rejected e ->
  Facilitate.waitForStateRootCommit env (S fuel) anchor blockNumber w
    = (Some (Rejected e), mkWorld (heap w) (trace w ++ [EAnchorRead])).
Proof.
  intros Ht Ha. simpl. rewrite Ht.
  unfold Facilitate.getLatestStateRootBlockHeight. run.
  rewrite Ha. reflexivity.
Qed.

Lemma afterPolls_reads (k : nat) (w : World) :
  Facilitate.reads (trace (afterPolls k w)) = (Facilitate.reads (trace w) + k)%nat.
Proof.
  unfold afterPolls. simpl. rewrite reads_app. f_equal.
  induction k as [| k IH]; [reflexivity |].
  simpl. unfold Facilitate.reads in *. simpl. now rewrite IH.
Qed.

Lemma afterPolls_S (k : nat) (w : World) :
  afterPolls k (afterPolls 1 w) = afterPolls (S k) w.
Proof. unfold afterPolls. simpl. now rewrite <- app_assoc. Qed.

(** [k] polls in a row that find the anchor not ahead of the target. *)
Lemma wait_polls_behind (env : Env) (anchor : Facilitate.Anchor) (blockNumber : Value)
    (target : Z) (k fuel : nat) (w : World) :
  BN env blockNumber = Return target ->
  (forall i, (i < k)%nat ->
     exists h, heightAt env anchor (Facilitate.reads (trace w) + i) = Some h /\ h <= target) ->
  Facilitate.waitForStateRootCommit env (k + fuel) anchor blockNumber w
    = Facilitate.waitForStateRootCommit env fuel anchor blockNumber (afterPolls k w).
Proof.
  intros Ht. revert w. induction k as [| k IH]; intros w Hbehind.
  - unfold afterPolls. simpl. rewrite app_nil_r. now destruct w.
  - destruct (Hbehind 0%nat ltac:(lia)) as [h [Hh Hle]].
    rewrite Nat.add_0_r in Hh.
    change (S k + fuel)%nat with (S (k + fuel)).
    rewrite (wait_poll_behind env (k + fuel) anchor blockNumber target h w Ht Hh Hle).
    rewrite IH.
    + now rewrite afterPolls_S.
    + intros i Hi. rewrite (afterPolls_reads 1 w).
      destruct (Hbehind (S i) ltac:(lia)) as [h' Hh'].
      exists h'. now replace (Facilitate.reads (trace w) + 1 + i)%nat
                   with (Facilitate.reads (trace w) + S i)%nat by lia.
Qed.

Lemma wait_stays_pending (env : Env) (anchor : Facilitate.Anchor) (blockNumber : Value)
    (target : Z) (fuel : nat) (w : World) :
  BN env blockNumber = Return target ->
  (forall n, exists h, heightAt env anchor n = Some h /\ h <= target) ->
  Facilitate.waitForStateRootCommit env fuel anchor blockNumber w
    = (None, afterPolls fuel w).
Proof.
  intros Ht Hbehind.
  rewrite <- (Nat.add_0_r fuel) at 1.
  rewrite (wait_polls_behind env anchor blockNumber target fuel 0 w Ht).
  - reflexivity.
  - intros i _. apply Hbehind.
Qed.

Lemma stuckAnchor_behind (height : string) (h target : Z) :
  BN Sample.env (VStr height) = Return h -> h <= target ->
  forall n, exists h', heightAt Sample.env (Sample.stuckAnchor height) n = Some h' /\ h' <= target.
Proof.
  intros Hh Hle n. exists h. unfold heightAt, Sample.stuckAnchor.
  rewrite Hh. split; [reflexivity | exact Hle].
Qed.

(** C3, as stated, fails: with the anchor stuck at height 5 and the target
    at 10, the wait is never rejected, however many polls are followed. *)
Lemma wait_has_no_timeout :
  ~ exists (fuel : nat) (e : Error),
      fst (Facilitate.waitForStateRootCommit Sample.env fuel (Sample.stuckAnchor "5")
             (VNum 10) Sample.world) = Some (Rejected e).
Proof.
  intros [fuel [e H]].
  rewrite (wait_stays_pending Sample.env (Sample.stuckAnchor "5") (VNum 10) 10 fuel
             Sample.world eq_refl) in H.
  - discriminate H.
  - apply (stuckAnchor_behind "5" 5 10); [reflexivity | lia].
Qed.

(** C3, amended: the wait has no timeout.  As long as every read of the
    anchor reports a height that is not above the target, the wait goes on:
    after any number of polls it has neither returned nor failed, and has
    slept 10000 ms after each of them. *)
Theorem wait_goes_on_while_behind (env : Env) (anchor : Facilitate.Anchor)
    (blockNumber : Value) (target : Z) (fuel : nat) (w : World) :
  BN env blockNumber = Return target ->
  (forall n, exists h, heightAt env anchor n = Some h /\ h <= target) ->
  Facilitate.waitForStateRootCommit env fuel anchor blockNumber w
    = (None, mkWorld (heap w) (trace w ++ pollTrace fuel)).
Proof. apply wait_stays_pending. Qed.

Lemma wait_goes_on_while_behind_witness :
  BN Sample.env (VNum 10) = Return 10 /\
  (forall n, exists h,
     heightAt Sample.env (Sample.stuckAnchor "5") n = Some h /\ h <= 10) /\
  Facilitate.waitForStateRootCommit Sample.env 2 (Sample.stuckAnchor "5") (VNum 10)
      Sample.world
    = (None,
       mkWorld (heap Sample.world)
         [EAnchorRead; ESleep 10000; EAnchorRead; ESleep 10000]).
Proof.
  split; [reflexivity |].
  split; [apply (stuckAnchor_behind "5" 5 10); [reflexivity | lia] |].
  apply (wait_goes_on_while_behind Sample.env (Sample.stuckAnchor "5") (VNum 10) 10 2
           Sample.world eq_refl).
  apply (stuckAnchor_behind "5" 5 10); [reflexivity | lia].
Defined.

(** C4, as stated, fails: with the anchor at the target height itself the
    wait never returns. *)
Lemma wait_at_target_height_goes_on :
  heightAt Sample.env (Sample.stuckAnchor "7") 0 = Some 7 /\
  BN Sample.env (VNum 7) = Return 7 /\
  ~ exists (fuel : nat) (v : Value),
      fst (Facilitate.waitForStateRootCommit Sample.env fuel (Sample.stuckAnchor "7")
             (VNum 7) Sample.world) = Some (Resolved v).
Proof.
  split; [reflexivity |]. split; [reflexivity |].
  intros [fuel [v H]].
  rewrite (wait_stays_pending Sample.env (Sample.stuckAnchor "7") (VNum 7) 7 fuel
             Sample.world eq_refl) in H.
  - discriminate H.
  - apply (stuckAnchor_behind "7" 7 7); [reflexivity | lia].
Qed.

(** C4, amended: the wait returns successfully at the first poll that
    observes a height strictly above the target.  If the first [k] reads
    report heights up to the target and the next one a height above it, the
    wait resolves to [true] after exactly [k] sleeps and [k + 1] reads, for
    every number of polls followed that is larger than [k]. *)
Theorem wait_returns_when_ahead (env : Env) (anchor : Facilitate.Anchor)
    (blockNumber : Value) (target : Z) (k fuel : nat) (w : World) :
  BN env blockNumber = Return target ->
  (forall i, (i < k)%nat ->
     exists h, heightAt env anchor (Facilitate.reads (trace w) + i) = Some h /\ h <= target) ->
  (exists h, heightAt env anchor (Facilitate.reads (trace w) + k) = Some h /\ target < h) ->
  Facilitate.waitForStateRootCommit env (k + S fuel) anchor blockNumber w
    = (Some (Resolved (VBool true)),
       mkWorld (heap w) (trace w ++ pollTrace k ++ [EAnchorRead])).
Proof.
  intros Ht Hbehind [h [Hh Hlt]].
  rewrite (wait_polls_behind env anchor blockNumber target k (S fuel) w Ht Hbehind).
  rewrite (wait_poll_ahead env fuel anchor blockNumber target h (afterPolls k w) Ht).
  - unfold afterPolls. simpl. now rewrite <- app_assoc.
  - now rewrite afterPolls_reads.
  - exact Hlt.
Qed.

Lemma risingAnchor_behind :
  forall i, (i < 2)%nat ->
    exists h, heightAt Sample.env Sample.risingAnchor
                (Facilitate.reads (trace Sample.world) + i) = Some h /\ h <= 7.
Proof.
  intros i Hi. exists 7.
  destruct i as [| [| i]]; [split; [reflexivity | lia] .. | lia].
Qed.

Lemma wait_returns_when_ahead_witness :
  BN Sample.env (VNum 7) = Return 7 /\
  Facilitate.waitForStateRootCommit Sample.env 5 Sample.risingAnchor (VNum 7) Sample.world
    = (Some (Resolved (VBool true)),
       mkWorld (heap Sample.world)
         [EAnchorRead; ESleep 10000; EAnchorRead; ESleep 10000; EAnchorRead]).
Proof.
  split; [reflexivity |].
  apply (wait_returns_when_ahead Sample.env Sample.risingAnchor (VNum 7) 7 2 2
           Sample.world eq_refl risingAnchor_behind).
  exists 8. split; [reflexivity | lia].
Defined.

(** ** Progressing a redeem *)

Lemma sendTransaction_methods (env : Env) (tx : Tx) (txOption : Value) (w : World)
    (name : string) :
  count (isMethod name) (trace (snd (Utils.sendTransaction env tx txOption w)))
    = count (isMethod name) (trace w).
Proof.
  unfold Utils.sendTransaction, Utils.estimateGas, Utils.send, count. run.
  match goal with |- context [if ?b then _ else _] => destruct b end; simpl.
  - match goal with |- context [match ?p with Resolved _ => _ | _ => _ end] =>
      destruct p end; simpl;
      rewrite ?List.filter_app, ?length_app; simpl; lia.
  - rewrite ?List.filter_app, ?length_app; simpl; lia.
Qed.

Lemma progressRedeem_once (env : Env) (this : loc)
    (messageHash unlockSecret txOptions : Value) (w : World) :
  isString messageHash = true ->
  isString unlockSecret = true ->
  truthy txOptions = true ->
  isAddress env (fst (getProp txOptions "from" w)) = true ->
  count (isMethod "progressRedeem")
    (trace (snd (EIP20CoGateway.progressRedeem env this messageHash unlockSecret
                   txOptions w)))
    = S (count (isMethod "progressRedeem") (trace w)).
Proof.
  intros Hm Hu Ht Ha.
  unfold EIP20CoGateway.progressRedeem, EIP20CoGateway.progressRedeemRawTx.
  rewrite Hm, Hu, Ht. simpl.
  unfold mbind, M_bind. unfold getProp in *. simpl in *. rewrite Ha. simpl.
  unfold method, emit, mbind, M_bind, mret, M_ret, pthen. simpl.
  rewrite sendTransaction_methods. simpl.
  unfold count. rewrite List.filter_app, length_app. simpl. lia.
Qed.

(** C2: let the arguments of [performProgressRedeem] be well-typed and let
    the CoGateway report the outbox status [s] of the message.  For
    [Undeclared], [DeclaredRevocation] and [Revoked] the operation is
    rejected with [MessageNotProgressable] and all that has happened is the
    status read.  For [Declared] it continues as
    [EIP20CoGateway.progressRedeem], once, and with a valid sender in the
    options exactly one [progressRedeem] method object of the contract is
    built.  (Should web3 refuse to encode the message hash, no status is
    read at all and the operation is rejected with web3's exception.) *)
Theorem performProgressRedeem_status_gate (env : Env)
    (statusOf : Value -> option Facilitator.MessageStatus)
    (otherwise : Value -> M (Promise Value))
    (coGateway : loc) (messageHash unlockSecret txOptions : Value)
    (w : World) (v : Value) (s : Facilitator.MessageStatus) :
  let query := mkTx coGateway "getOutboxMessageStatus" [messageHash] in
  let perform := Facilitator.performProgressRedeem env statusOf otherwise coGateway
                   messageHash unlockSecret txOptions in
  isString messageHash = true ->
  isString unlockSecret = true ->
  truthy txOptions = true ->
  chainCall env (trace w ++ [EMethod query]) query = Resolved v ->
  statusOf v = Some s ->
  match abiError env query with
  | Some e => perform w = (Rejected e, afterMethod query w)
  | None =>
    match s with
    | Facilitator.Undeclared | Facilitator.DeclaredRevocation | Facilitator.Revoked =>
      perform w = (Rejected Facilitator.MessageNotProgressable, afterRead query w)
    | Facilitator.Declared =>
      perform w = EIP20CoGateway.progressRedeem env coGateway messageHash unlockSecret
                    txOptions (afterRead query w) /\
      (isAddress env (fst (getProp txOptions "from" w)) = true ->
       count (isMethod "progressRedeem") (trace (snd (perform w)))
         = S (count (isMethod "progressRedeem") (trace w)))
    | Facilitator.Progressed => perform w = otherwise v (afterRead query w)
    end
  end.
Proof.
  intros query perform Hm Hu Ht Hchain Hs.
  assert (Hstatus : EIP20CoGateway.getOutboxMessageStatus env coGateway messageHash w
                    = callEncoded env query (afterMethod query w)).
  { apply (status_query_string env coGateway messageHash w Hm). }
  rewrite callEncoded_run in Hstatus.
  destruct (abiError env query) as [e |] eqn:Habi.
  { subst perform. unfold Facilitator.performProgressRedeem.
    rewrite Hm, Hu, Ht. simpl. unfold mbind, M_bind. rewrite Hstatus. reflexivity. }
  assert (Hperform : perform w =
            match s with
            | Facilitator.Undeclared | Facilitator.DeclaredRevocation
            | Facilitator.Revoked =>
              (Rejected Facilitator.MessageNotProgressable, afterRead query w)
            | Facilitator.Declared =>
              EIP20CoGateway.progressRedeem env coGateway messageHash unlockSecret
                txOptions (afterRead query w)
            | Facilitator.Progressed => otherwise v (afterRead query w)
            end).
  { subst perform. unfold Facilitator.performProgressRedeem.
    rewrite Hm, Hu, Ht. simpl.
    unfold mbind, M_bind. rewrite Hstatus, Hchain. simpl. rewrite Hs.
    destruct s; reflexivity. }
  destruct s; try exact Hperform.
  split; [exact Hperform |].
  intros Ha. rewrite Hperform.
  rewrite progressRedeem_once; try assumption.
  unfold afterRead, count. simpl.
  rewrite List.filter_app, length_app. simpl. lia.
Qed.

Lemma performProgressRedeem_status_gate_witness :
  isString Sample.messageHash = true /\
  isString Sample.unlockSecret = true /\
  truthy Sample.txOptions = true /\
  Sample.statusOf (VStr "1") = Some Facilitator.Declared /\
  Facilitator.performProgressRedeem (Sample.statusEnv "1") Sample.statusOf
      (fun _ => mret Pending) Sample.this Sample.messageHash Sample.unlockSecret
      Sample.txOptions Sample.world
    = EIP20CoGateway.progressRedeem (Sample.statusEnv "1") Sample.this Sample.messageHash
        Sample.unlockSecret Sample.txOptions
        (afterRead (mkTx Sample.this "getOutboxMessageStatus" [Sample.messageHash])
           Sample.world) /\
  count (isMethod "progressRedeem")
    (trace (snd (Facilitator.performProgressRedeem (Sample.statusEnv "1") Sample.statusOf
                   (fun _ => mret Pending) Sample.this Sample.messageHash
                   Sample.unlockSecret Sample.txOptions Sample.world))) = 1%nat.
Proof.
  do 4 (split; [reflexivity |]).
  pose proof (performProgressRedeem_status_gate (Sample.statusEnv "1") Sample.statusOf
                (fun _ => mret Pending) Sample.this Sample.messageHash Sample.unlockSecret
                Sample.txOptions Sample.world (VStr "1") Facilitator.Declared
                eq_refl eq_refl eq_refl eq_refl eq_refl) as Hgate.
  change (abiError (Sample.statusEnv "1")
            (mkTx Sample.this "getOutboxMessageStatus" [Sample.messageHash]))
    with (@None Error) in Hgate.
  destruct Hgate as [Hrun Honce].
  split; [exact Hrun | exact (Honce eq_refl)].
Defined.

(** The three refused statuses on the sample chain: the rejection, and a
    trace that holds the status read only. *)
Example performProgressRedeem_refused :
  Forall (fun code =>
    Facilitator.performProgressRedeem (Sample.statusEnv code) Sample.statusOf
        (fun _ => mret Pending) Sample.this Sample.messageHash Sample.unlockSecret
        Sample.txOptions Sample.world
      = (Rejected (PlainError "Message cannot be progressed."),
         afterRead (mkTx Sample.this "getOutboxMessageStatus" [Sample.messageHash])
           Sample.world))
    ["0"; "3"; "4"].
Proof. repeat constructor. Qed.

(** * Further properties of the code *)

(** ** [sendTransaction] *)

Lemma assign_empty (source : gmap string Value) : assign ∅ source = source.
Proof. unfold assign. apply (right_id_L ∅ (∪)). Qed.

(** X1: when the options carry a truthy [gas], [sendTransaction] estimates
    nothing: it sends the transaction once, with exactly the properties of
    the caller's options, and settles as the send does. *)
Theorem sendTransaction_gas_given (env : Env) (tx : Tx) (txOption : Value) (w : World) :
  truthy (fst (getProp txOption "gas" w)) = true ->
  Utils.sendTransaction env tx txOption w
    = (txSend env (trace w) tx (ownProps (heap w) txOption),
       mkWorld (<[fresh (dom (heap w)) := ownProps (heap w) txOption]> (heap w))
         (trace w ++ [ESend tx (ownProps (heap w) txOption)])).
Proof.
  unfold Utils.sendTransaction, Utils.estimateGas, Utils.send. run.
  rewrite assign_empty. intros Hgas.
  rewrite lookup_insert_eq. simpl. rewrite Hgas. simpl.
  rewrite lookup_insert_eq. reflexivity.
Qed.

Lemma sendTransaction_gas_given_witness :
  truthy (fst (getProp (VObj 2%positive) "gas"
                 (mkWorld {[2%positive := {["gas" := VStr "7500000"]}]} []))) = true /\
  fst (Utils.sendTransaction Sample.env (mkTx Sample.this "stake" []) (VObj 2%positive)
         (mkWorld {[2%positive := {["gas" := VStr "7500000"]}]} []))
    = Resolved (VBool true).
Proof.
  split; [reflexivity |].
  rewrite (sendTransaction_gas_given Sample.env (mkTx Sample.this "stake" [])
             (VObj 2%positive)
             (mkWorld {[2%positive := {["gas" := VStr "7500000"]}]} []))
    by (vm_compute; reflexivity).
  reflexivity.
Defined.

(** X2: when the options carry no truthy [gas] (none, [0], the empty
    string), the gas is estimated on the copy of the options.  If the
    estimate resolves, the transaction is sent once with the copy extended
    by that gas, and the result is the send's.  If the estimate is rejected
    or never answers, nothing is sent and the returned promise stays
    pending for ever: the error is lost. *)
Theorem sendTransaction_gas_estimated (env : Env) (tx : Tx) (txOption : Value) (w : World) :
  truthy (fst (getProp txOption "gas" w)) = false ->
  let options := ownProps (heap w) txOption in
  let estimated := (trace w ++ [EEstimateGas tx options])%list in
  let copy := fresh (dom (heap w)) in
  Utils.sendTransaction env tx txOption w =
    match txEstimateGas env (trace w) tx options with
    | Resolved g =>
      (txSend env estimated tx (<["gas" := g]> options),
       mkWorld (<[copy := <["gas" := g]> options]> (heap w))
         (estimated ++ [ESend tx (<["gas" := g]> options)])%list)
    | _ => (Pending, mkWorld (<[copy := options]> (heap w)) estimated)
    end.
Proof.
  unfold Utils.sendTransaction, Utils.estimateGas, Utils.send. run.
  rewrite assign_empty. intros Hgas.
  rewrite lookup_insert_eq. simpl. rewrite Hgas. simpl.
  rewrite lookup_insert_eq. simpl.
  destruct (txEstimateGas env (trace w) tx (ownProps (heap w) txOption)); simpl;
    try reflexivity.
  repeat (rewrite lookup_insert_eq; simpl). rewrite insert_insert_eq. reflexivity.
Qed.

Lemma sendTransaction_gas_estimated_witness :
  truthy (fst (getProp Sample.txOptions "gas" Sample.world)) = false /\
  trace (snd (Utils.sendTransaction Sample.env (mkTx Sample.this "stake" [])
                Sample.txOptions Sample.world))
    = [EEstimateGas (mkTx Sample.this "stake" []) {["from" := Sample.account]};
       ESend (mkTx Sample.this "stake" [])
         (<["gas" := VNum 21000]> {["from" := Sample.account]})].
Proof.
  split; [reflexivity |].
  rewrite (sendTransaction_gas_estimated Sample.env (mkTx Sample.this "stake" [])
             Sample.txOptions Sample.world)
    by (vm_compute; reflexivity).
  reflexivity.
Defined.

(** ** Raw transactions and the operations that send them *)

Ltac builder_cases :=
  repeat match goal with
         | |- context [if negb ?b then _ else _] => destruct b; simpl
         end.

Lemma rawTx_builders_local_aux (env : Env) (this : loc)
    (a1 a2 a3 a4 a5 a6 a7 a8 a9 : Value) :
  Forall (fun builder : M (Promise Tx) =>
            forall w : World,
              (exists tx, builder w
                 = (Resolved tx, mkWorld (heap w) (trace w ++ [EMethod tx]))) \/
              (exists msg, builder w = (Rejected (TypeError msg), w)))
    (rawTxBuilders env this a1 a2 a3 a4 a5 a6 a7 a8 a9).
Proof.
  unfold rawTxBuilders.
  repeat (apply List.Forall_cons; [cbv beta; intros w |]); try apply List.Forall_nil;
    unfold EIP20Gateway.proveGatewayRawTx, EIP20Gateway.progressStakeRawTx,
      EIP20Gateway.confirmRedeemIntentRawTx, EIP20Gateway.progressUnstakeRawTx,
      EIP20Gateway.activateGatewayRawTx, EIP20CoGateway.proveGatewayRawTx,
      EIP20CoGateway.confirmStakeIntentRawTx, EIP20CoGateway.progressMintRawTx,
      EIP20CoGateway.progressRedeemRawTx;
    builder_cases;
    solve [ right; eexists; reflexivity | left; eexists; reflexivity ].
Qed.

(** X3: the builders of raw transactions are local.  With whatever
    arguments, each of them either refuses with a [TypeError] and has done
    nothing, or resolves to the one contract method object it has built;
    it reads nothing from the chain, sends nothing, changes no object and is
    never left pending. *)
Theorem rawTx_builders_local (env : Env) (this : loc)
    (a1 a2 a3 a4 a5 a6 a7 a8 a9 : Value) :
  Forall (fun builder : M (Promise Tx) =>
            forall w : World,
              (exists tx, builder w
                 = (Resolved tx, mkWorld (heap w) (trace w ++ [EMethod tx]))) \/
              (exists msg, builder w = (Rejected (TypeError msg), w)))
    (rawTxBuilders env this a1 a2 a3 a4 a5 a6 a7 a8 a9).
Proof. apply rawTx_builders_local_aux. Qed.

Lemma sendOperations_shape (env : Env) (this : loc)
    (a1 a2 a3 a4 a5 a6 a7 a8 a9 : Value) (op : Value -> M (Promise Value)) :
  In op (sendOperations env this a1 a2 a3 a4 a5 a6 a7 a8 a9) ->
  exists optionsMessage fromMessage builder,
    In builder (rawTxBuilders env this a1 a2 a3 a4 a5 a6 a7 a8 a9) /\
    op = guardedSend env optionsMessage fromMessage builder.
Proof.
  unfold sendOperations, rawTxBuilders. simpl.
  intros [H | [H | [H | [H | [H | [H | [H | [H | [H | []]]]]]]]]]; subst op;
    do 3 eexists; (split; [| reflexivity]); simpl; tauto.
Qed.

Lemma builder_local_of_list (env : Env) (this : loc)
    (a1 a2 a3 a4 a5 a6 a7 a8 a9 : Value) (builder : M (Promise Tx)) (w : World) :
  In builder (rawTxBuilders env this a1 a2 a3 a4 a5 a6 a7 a8 a9) ->
  (exists tx, builder w = (Resolved tx, mkWorld (heap w) (trace w ++ [EMethod tx]))) \/
  (exists msg, builder w = (Rejected (TypeError msg), w)).
Proof.
  intros Hin.
  pose proof (rawTx_builders_local_aux env this a1 a2 a3 a4 a5 a6 a7 a8 a9) as Hall.
  rewrite List.Forall_forall in Hall. exact (Hall builder Hin w).
Qed.

Lemma guardedSend_refuses (env : Env) (optionsMessage fromMessage : Value -> string)
    (builder : M (Promise Tx)) (txOptions : Value) (w : World) :
  truthy txOptions = false \/ isAddress env (senderOf txOptions w) = false ->
  exists msg,
    guardedSend env optionsMessage fromMessage builder txOptions w
      = (Rejected (TypeError msg), w).
Proof.
  unfold guardedSend, senderOf. intros Hbad.
  destruct (truthy txOptions) eqn:Ht; simpl.
  - destruct Hbad as [Hc | Ha]; [discriminate Hc |].
    run. rewrite Ha. simpl. eexists; reflexivity.
  - eexists; reflexivity.
Qed.

(** X4: every operation that sends a transaction refuses options that are
    missing (falsy) or whose [from] is not an address, with a promise
    rejected by a [TypeError], before it looks at any other argument and
    without having done anything.  [stake] and [redeem] do the same. *)
Theorem sender_checked_first (env : Env) (this : loc)
    (a1 a2 a3 a4 a5 a6 a7 a8 a9 txOptions : Value) (w : World) :
  truthy txOptions = false \/ isAddress env (senderOf txOptions w) = false ->
  Forall (fun op : Value -> M (Promise Value) =>
            exists msg, op txOptions w = (Rejected (TypeError msg), w))
    (sendOperations env this a1 a2 a3 a4 a5 a6 a7 a8 a9) /\
  (exists msg, EIP20Gateway.stake env this a1 a2 a3 a4 a5 a6 txOptions w
                 = (Return (Rejected (TypeError msg)), w)) /\
  (exists msg, EIP20CoGateway.redeem env this a1 a2 a3 a4 a5 a6 txOptions w
                 = (Return (Rejected (TypeError msg)), w)).
Proof.
  intros Hbad. split; [| split].
  - apply List.Forall_forall. intros op Hop.
    destruct (sendOperations_shape env this a1 a2 a3 a4 a5 a6 a7 a8 a9 op Hop)
      as [om [fm [builder [_ ->]]]].
    apply guardedSend_refuses. exact Hbad.
  - unfold EIP20Gateway.stake, senderOf in *.
    destruct (truthy txOptions) eqn:Ht; simpl.
    + destruct Hbad as [Hc | Ha]; [discriminate Hc |].
      run. rewrite Ha. simpl. eexists; reflexivity.
    + eexists; reflexivity.
  - unfold EIP20CoGateway.redeem, senderOf in *.
    destruct (truthy txOptions) eqn:Ht; simpl.
    + destruct Hbad as [Hc | Ha]; [discriminate Hc |].
      run. rewrite Ha. simpl. eexists; reflexivity.
    + eexists; reflexivity.
Qed.

Lemma sender_checked_first_witness :
  (truthy (VObj 5%positive) = false \/
   isAddress Sample.env (senderOf (VObj 5%positive) Sample.world) = false) /\
  exists msg,
    EIP20Gateway.stake Sample.env Sample.this (VStr "0") VUndefined VUndefined VUndefined
        VUndefined VUndefined (VObj 5%positive) Sample.world
      = (Return (Rejected (TypeError msg)), Sample.world).
Proof.
  split; [right; reflexivity |].
  apply (sender_checked_first Sample.env Sample.this (VStr "0") VUndefined VUndefined
           VUndefined VUndefined VUndefined VUndefined VUndefined VUndefined
           (VObj 5%positive) Sample.world).
  right; reflexivity.
Defined.

Lemma sendTransaction_counts (env : Env) (tx : Tx) (txOption : Value) (w : World) :
  count isCall (trace (snd (Utils.sendTransaction env tx txOption w)))
    = count isCall (trace w) /\
  (count isSendEvent (trace (snd (Utils.sendTransaction env tx txOption w)))
   <= count isSendEvent (trace w) + 1)%nat.
Proof.
  unfold Utils.sendTransaction, Utils.estimateGas, Utils.send, count. run.
  match goal with |- context [if ?b then _ else _] => destruct b end; simpl.
  - match goal with |- context [match ?p with Resolved _ => _ | _ => _ end] =>
      destruct p end; simpl;
      rewrite ?List.filter_app, ?length_app; simpl; lia.
  - rewrite ?List.filter_app, ?length_app; simpl; lia.
Qed.

Lemma guardedSend_effects (env : Env) (optionsMessage fromMessage : Value -> string)
    (builder : M (Promise Tx)) (txOptions : Value) (w : World) :
  ((exists tx, builder w = (Resolved tx, mkWorld (heap w) (trace w ++ [EMethod tx]))) \/
   (exists msg, builder w = (Rejected (TypeError msg), w))) ->
  let w' := snd (guardedSend env optionsMessage fromMessage builder txOptions w) in
  count isCall (trace w') = count isCall (trace w) /\
  (count isSendEvent (trace w') <= count isSendEvent (trace w) + 1)%nat /\
  (forall l o, heap w !! l = Some o -> heap w' !! l = Some o).
Proof.
  intros Hlocal. unfold guardedSend.
  destruct (truthy txOptions); simpl; [| repeat split; auto; lia].
  unfold mbind, M_bind, getProp. simpl.
  destruct (isAddress env _); simpl; [| repeat split; auto; lia].
  destruct Hlocal as [[tx Hb] | [msg Hb]]; rewrite Hb; simpl;
    [| repeat split; auto; lia].
  set (w1 := mkWorld (heap w) (trace w ++ [EMethod tx])).
  destruct (sendTransaction_counts env tx txOptions w1) as [Hcalls Hsends].
  destruct (sendTransaction_heap env tx txOptions w1) as [copy [Hheap _]].
  unfold count in *. subst w1. simpl in *.
  rewrite !List.filter_app, !length_app in *. simpl in *.
  repeat split; try lia.
  intros l o Hl. rewrite Hheap, lookup_insert_ne; [exact Hl |].
  eapply fresh_loc_new; exact Hl.
Qed.

(** X5: what an operation that sends a transaction never does, whatever
    its arguments: it never reads the chain (so none of them looks up a
    message status or a nonce on its own), it sends at most one
    transaction, and it changes no object that existed before, the options
    it was given included. *)
Theorem send_operations_effects (env : Env) (this : loc)
    (a1 a2 a3 a4 a5 a6 a7 a8 a9 txOptions : Value) (w : World) :
  Forall (fun op : Value -> M (Promise Value) =>
            let w' := snd (op txOptions w) in
            count isCall (trace w') = count isCall (trace w) /\
            (count isSendEvent (trace w') <= count isSendEvent (trace w) + 1)%nat /\
            (forall l o, heap w !! l = Some o -> heap w' !! l = Some o))
    (sendOperations env this a1 a2 a3 a4 a5 a6 a7 a8 a9).
Proof.
  apply List.Forall_forall. intros op Hop.
  destruct (sendOperations_shape env this a1 a2 a3 a4 a5 a6 a7 a8 a9 op Hop)
    as [om [fm [builder [Hb ->]]]].
  apply guardedSend_effects.
  eapply builder_local_of_list. exact Hb.
Qed.

Lemma progress_run (env : Env) (name : string)
    (op : loc -> Value -> Value -> Value -> M (Promise Value))
    (this : loc) (messageHash unlockSecret txOptions : Value) (w : World) :
  In (name, op) (progressOperations env) ->
  isString messageHash = true ->
  isString unlockSecret = true ->
  truthy txOptions = true ->
  isAddress env (senderOf txOptions w) = true ->
  op this messageHash unlockSecret txOptions w
    = Utils.sendTransaction env (mkTx this name [messageHash; unlockSecret]) txOptions
        (mkWorld (heap w)
           (trace w ++ [EMethod (mkTx this name [messageHash; unlockSecret])])).
Proof.
  unfold progressOperations, senderOf. simpl.
  intros [H | [H | [H | [H | []]]]] Hm Hu Ht Ha; inversion H; subst name op;
    unfold EIP20Gateway.progressStake, EIP20Gateway.progressStakeRawTx,
      EIP20Gateway.progressUnstake, EIP20Gateway.progressUnstakeRawTx,
      EIP20CoGateway.progressMint, EIP20CoGateway.progressMintRawTx,
      EIP20CoGateway.progressRedeem, EIP20CoGateway.progressRedeemRawTx;
    rewrite Hm, Hu, Ht; simpl; unfold mbind, M_bind; unfold getProp in *; simpl in *;
    rewrite Ha; reflexivity.
Qed.

(** X6: a progress operation ([progressStake], [progressUnstake],
    [progressMint], [progressRedeem]) with a string message hash, a string
    unlock secret and options that name a valid sender builds the contract
    method of its own name on exactly these two arguments, in this order,
    and hands it to [sendTransaction] with the caller's options; nothing
    else happens in between. *)
Theorem progress_builds_and_sends (env : Env) (name : string)
    (op : loc -> Value -> Value -> Value -> M (Promise Value))
    (this : loc) (messageHash unlockSecret txOptions : Value) (w : World) :
  In (name, op) (progressOperations env) ->
  isString messageHash = true ->
  isString unlockSecret = true ->
  truthy txOptions = true ->
  isAddress env (senderOf txOptions w) = true ->
  op this messageHash unlockSecret txOptions w
    = Utils.sendTransaction env (mkTx this name [messageHash; unlockSecret]) txOptions
        (mkWorld (heap w)
           (trace w ++ [EMethod (mkTx this name [messageHash; unlockSecret])])).
Proof. apply progress_run. Qed.

Lemma progress_builds_and_sends_witness :
  In ("progressMint", EIP20CoGateway.progressMint Sample.env)
    (progressOperations Sample.env) /\
  isString Sample.messageHash = true /\
  isString Sample.unlockSecret = true /\
  truthy Sample.txOptions = true /\
  isAddress Sample.env (senderOf Sample.txOptions Sample.world) = true /\
  EIP20CoGateway.progressMint Sample.env Sample.this Sample.messageHash
      Sample.unlockSecret Sample.txOptions Sample.world
    = Utils.sendTransaction Sample.env
        (mkTx Sample.this "progressMint" [Sample.messageHash; Sample.unlockSecret])
        Sample.txOptions
        (mkWorld (heap Sample.world)
           [EMethod (mkTx Sample.this "progressMint"
                       [Sample.messageHash; Sample.unlockSecret])]).
Proof.
  split; [right; right; left; reflexivity |].
  do 4 (split; [reflexivity |]).
  apply (progress_builds_and_sends Sample.env "progressMint"
           (EIP20CoGateway.progressMint Sample.env) Sample.this Sample.messageHash
           Sample.unlockSecret Sample.txOptions Sample.world);
    [right; right; left; reflexivity | reflexivity ..].
Defined.

(** ** [stakeRawTx] and [redeemRawTx] *)

(** X7: what the two builders accept, once bn.js has read the amount as
    the integer [n].  Both want a positive amount, a beneficiary address, a
    string nonce and a string hash lock.  For the gas price and the gas
    limit [stakeRawTx] accepts anything but [undefined] ([null], numbers and
    objects included), while [redeemRawTx] accepts strings only.  An
    accepted call resolves to the method object on the six arguments as they
    were given. *)
Theorem rawTx_acceptance (env : Env) (this : loc)
    (amount beneficiary gasPrice gasLimit nonce hashLock : Value) (w : World) (n : Z) :
  BN env amount = Return n ->
  let args := [amount; beneficiary; gasPrice; gasLimit; nonce; hashLock] in
  let stakeOk := (0 <? n)%Z && isAddress env beneficiary && negb (isUndefined gasPrice)
                 && negb (isUndefined gasLimit) && isString nonce && isString hashLock in
  let redeemOk := (0 <? n)%Z && isAddress env beneficiary && isString gasPrice
                  && isString gasLimit && isString nonce && isString hashLock in
  isResolved (fst (EIP20Gateway.stakeRawTx env this amount beneficiary gasPrice gasLimit
                     nonce hashLock w)) = stakeOk /\
  isResolved (fst (EIP20CoGateway.redeemRawTx env this amount beneficiary gasPrice
                     gasLimit nonce hashLock w)) = redeemOk /\
  (stakeOk = true ->
   EIP20Gateway.stakeRawTx env this amount beneficiary gasPrice gasLimit nonce hashLock w
     = (Return (Resolved (mkTx this "stake" args)),
        afterMethod (mkTx this "stake" args) w)) /\
  (redeemOk = true ->
   EIP20CoGateway.redeemRawTx env this amount beneficiary gasPrice gasLimit nonce
       hashLock w
     = (Return (Resolved (mkTx this "redeem" args)),
        afterMethod (mkTx this "redeem" args) w)).
Proof.
  intros HBN args stakeOk redeemOk. subst args stakeOk redeemOk.
  unfold EIP20Gateway.stakeRawTx, EIP20CoGateway.redeemRawTx, afterMethod.
  rewrite HBN, Z.gtb_ltb.
  destruct (0 <? n)%Z; simpl; [| repeat split; discriminate].
  destruct (isAddress env beneficiary); simpl; [| repeat split; discriminate].
  destruct (isUndefined gasPrice) eqn:Hgp, (isString gasPrice) eqn:Hsp;
    try (destruct gasPrice; discriminate); simpl;
  destruct (isUndefined gasLimit) eqn:Hgl, (isString gasLimit) eqn:Hsl;
    try (destruct gasLimit; discriminate); simpl;
  destruct (isString nonce); simpl;
  destruct (isString hashLock); simpl;
  repeat split; try discriminate; reflexivity.
Qed.

Lemma rawTx_acceptance_witness :
  BN Sample.env (VStr "100") = Return 100 /\
  isResolved (fst (EIP20Gateway.stakeRawTx Sample.env Sample.this (VStr "100")
                     Sample.account VNull (VNum 1000000) (VStr "1") (VStr "0xab")
                     Sample.world)) = true /\
  isResolved (fst (EIP20CoGateway.redeemRawTx Sample.env Sample.this (VStr "100")
                     Sample.account VNull (VNum 1000000) (VStr "1") (VStr "0xab")
                     Sample.world)) = false.
Proof.
  split; [reflexivity |].
  pose proof (rawTx_acceptance Sample.env Sample.this (VStr "100") Sample.account VNull
                (VNum 1000000) (VStr "1") (VStr "0xab") Sample.world 100 eq_refl)
    as [Hs [Hr _]].
  split; [exact Hs | exact Hr].
Defined.

(** X8: [stake] and [redeem] on arguments their builder accepts and with
    options that name a valid sender build the method object and hand it to
    [sendTransaction] with the caller's options; what they return is the
    promise of that send. *)
Theorem stake_redeem_build_and_send (env : Env) (this : loc)
    (amount beneficiary gasPrice gasLimit nonce hashLock txOptions : Value)
    (w : World) (n : Z) :
  BN env amount = Return n -> 0 < n ->
  isAddress env beneficiary = true ->
  isString gasPrice = true -> isString gasLimit = true ->
  isString nonce = true -> isString hashLock = true ->
  truthy txOptions = true ->
  isAddress env (senderOf txOptions w) = true ->
  let args := [amount; beneficiary; gasPrice; gasLimit; nonce; hashLock] in
  EIP20Gateway.stake env this amount beneficiary gasPrice gasLimit nonce hashLock
      txOptions w
    = (let (r, w') := Utils.sendTransaction env (mkTx this "stake" args) txOptions
                        (afterMethod (mkTx this "stake" args) w)
       in (Return r, w')) /\
  EIP20CoGateway.redeem env this amount beneficiary gasPrice gasLimit nonce hashLock
      txOptions w
    = (let (r, w') := Utils.sendTransaction env (mkTx this "redeem" args) txOptions
                        (afterMethod (mkTx this "redeem" args) w)
       in (Return r, w')).
Proof.
  intros HBN Hn Hb Hgp Hgl Hno Hhl Ht Ha args. subst args.
  unfold senderOf, getProp in Ha. simpl in Ha.
  assert (Hu : forall v, isString v = true -> isUndefined v = false)
    by (intros v Hv; destruct v; try discriminate Hv; reflexivity).
  unfold EIP20Gateway.stake, EIP20CoGateway.redeem,
    EIP20Gateway.stakeRawTx, EIP20CoGateway.redeemRawTx, afterMethod.
  rewrite HBN, Z.gtb_ltb, Ht, Hb, Hgp, Hgl, Hno, Hhl, (Hu _ Hgp), (Hu _ Hgl).
  destruct (Z.ltb_spec 0 n); [| lia]. simpl.
  unfold mbind, M_bind, getProp. simpl. rewrite Ha. simpl.
  split; reflexivity.
Qed.

Lemma stake_redeem_build_and_send_witness :
  BN Sample.env (VStr "100") = Return 100 /\
  fst (EIP20Gateway.stake Sample.env Sample.this (VStr "100") Sample.account (VStr "1")
         (VStr "1000000") (VStr "1") (VStr "0xab") Sample.txOptions Sample.world)
    = Return (Resolved (VBool true)).
Proof.
  split; [reflexivity |].
  rewrite (proj1 (stake_redeem_build_and_send Sample.env Sample.this (VStr "100")
                    Sample.account (VStr "1") (VStr "1000000") (VStr "1") (VStr "0xab")
                    Sample.txOptions Sample.world 100 eq_refl eq_refl eq_refl eq_refl
                    eq_refl eq_refl eq_refl eq_refl eq_refl)).
  reflexivity.
Defined.

(** ** Reads of the chain *)

Lemma repeatM_reads {A} (m : M A) (n : nat) (w : World) :
  (forall w0, heap (snd (m w0)) = heap w0 /\
              count isCall (trace (snd (m w0))) = S (count isCall (trace w0))) ->
  heap (snd (repeatM n m w)) = heap w /\
  count isCall (trace (snd (repeatM n m w))) = (count isCall (trace w) + n)%nat.
Proof.
  intros Hm. revert w. induction n as [| n IH]; intros w; simpl.
  - split; [reflexivity | lia].
  - unfold mbind, M_bind. simpl.
    destruct (Hm w) as [Hh Hc]. destruct (m w) as [a w1]. simpl in *.
    destruct (IH w1) as [Hh' Hc']. destruct (repeatM n m w1) as [rest w2]. simpl in *.
    split; [congruence | lia].
Qed.

Lemma count_afterRead (tx : Tx) (w : World) :
  count isCall (trace (afterRead tx w)) = S (count isCall (trace w)).
Proof.
  unfold count, afterRead. simpl. rewrite List.filter_app, length_app. simpl. lia.
Qed.

Lemma directReads_step (env : Env) (this : loc) (accountAddress messageHash : Value)
    (m : M (Completion (Promise Value))) (w : World) :
  isAddress env accountAddress = true ->
  isString messageHash = true ->
  abiError env (mkTx this "getInboxMessageStatus" [messageHash]) = None ->
  abiError env (mkTx this "getOutboxMessageStatus" [messageHash]) = None ->
  In m (directReads env this accountAddress messageHash) ->
  exists tx, snd (m w) = afterRead tx w.
Proof.
  intros Ha Hm Hin Hout. unfold directReads. simpl.
  destruct (status_query_string env this messageHash w Hm) as (H1 & H2 & H3 & H4).
  rewrite callEncoded_run in H1, H2, H3, H4. rewrite Hin in H1, H3. rewrite Hout in H2, H4.
  intros [H | [H | [H | [H | [H | [H | []]]]]]]; subst m;
    rewrite ?H1, ?H2, ?H3, ?H4; try (eexists; reflexivity);
    unfold EIP20Gateway.getNonce, EIP20CoGateway.getNonce;
    rewrite ?Ha; run; unfold afterRead; rewrite app_two; eexists; reflexivity.
Qed.

(** X9: the nonce and the message status are never cached.  With a valid
    account address and a string message hash that web3 encodes for the
    status queries, [n] calls of [getNonce], [getInboxMessageStatus] or
    [getOutboxMessageStatus] of either client read the chain [n] times,
    and so do [n] calls of [getStakeVault]; none of them stores
    anything. *)
Theorem direct_reads_every_time (env : Env) (this : loc)
    (accountAddress messageHash : Value) (n : nat) (w : World) :
  isAddress env accountAddress = true ->
  isString messageHash = true ->
  abiError env (mkTx this "getInboxMessageStatus" [messageHash]) = None ->
  abiError env (mkTx this "getOutboxMessageStatus" [messageHash]) = None ->
  Forall (fun m : M (Completion (Promise Value)) =>
            heap (snd (repeatM n m w)) = heap w /\
            count isCall (trace (snd (repeatM n m w))) = (count isCall (trace w) + n)%nat)
    (directReads env this accountAddress messageHash) /\
  heap (snd (repeatM n (EIP20Gateway.getStakeVault env this) w)) = heap w /\
  count isCall (trace (snd (repeatM n (EIP20Gateway.getStakeVault env this) w)))
    = (count isCall (trace w) + n)%nat.
Proof.
  intros Ha Hm Hinbox Houtbox. split.
  - apply List.Forall_forall. intros m Hin. apply repeatM_reads. intros w0.
    destruct (directReads_step env this accountAddress messageHash m w0 Ha Hm
                Hinbox Houtbox Hin) as [tx ->].
    split; [reflexivity | apply count_afterRead].
  - apply repeatM_reads. intros w0.
    unfold EIP20Gateway.getStakeVault. run. rewrite app_two.
    split; [reflexivity |].
    apply (count_afterRead (mkTx this "stakeVault" []) w0).
Qed.

Lemma direct_reads_every_time_witness :
  isAddress Sample.env Sample.account = true /\
  isString Sample.messageHash = true /\
  abiError Sample.env (mkTx Sample.this "getInboxMessageStatus" [Sample.messageHash])
    = None /\
  abiError Sample.env (mkTx Sample.this "getOutboxMessageStatus" [Sample.messageHash])
    = None /\
  count isCall
    (trace (snd (repeatM 3 (EIP20CoGateway.getOutboxMessageStatus Sample.env Sample.this
                              Sample.messageHash)
                   Sample.world))) = 3%nat.
Proof.
  do 4 (split; [reflexivity |]).
  pose proof (direct_reads_every_time Sample.env Sample.this Sample.account
                Sample.messageHash 3 Sample.world eq_refl eq_refl eq_refl eq_refl)
    as [Hall _].
  rewrite List.Forall_forall in Hall.
  exact (proj2 (Hall (EIP20CoGateway.getOutboxMessageStatus Sample.env Sample.this
                        Sample.messageHash)
                  (or_intror (or_intror (or_intror (or_intror (or_intror
                     (or_introl eq_refl)))))))).
Defined.

(** ** More on the read-through caches *)









Lemma readThrough_frame (env : Env) (field meth : string) (this : loc) (w : World)
    (l : loc) (k : string) :
  l <> this \/ k <> field ->
  ownProps (heap (snd (readThrough env field meth this w))) (VObj l) !! k
    = ownProps (heap w) (VObj l) !! k.
Proof.
  intros Hother. unfold readThrough. run.
  destruct (truthy (default VUndefined (default ∅ (heap w !! this) !! field)));
    simpl; [reflexivity |].
  destruct (chainCall env (trace w ++ [EMethod (mkTx this meth [])]) (mkTx this meth []));
    simpl; try reflexivity.
  destruct (decide (this = l)) as [-> | Hne].
  - rewrite lookup_insert_eq. simpl.
    destruct Hother as [Hc | Hk]; [congruence |].
    rewrite lookup_insert_ne by congruence. reflexivity.
  - rewrite lookup_insert_ne by exact Hne. reflexivity.
Qed.

(** X12: a cached read writes at most one property, of its own instance.
    Every other property of the instance and every property of every other
    object, another client instance for the same contract included, reads
    after the call as it did before: the caches of two instances are
    independent, and so are the cached values of one instance. *)
Theorem cached_read_frame (env : Env) (g : loc -> M (Promise Value)) :
  In g (cachedReads env) ->
  exists field : string,
    forall (this : loc) (w : World) (l : loc) (k : string),
      l <> this \/ k <> field ->
      ownProps (heap (snd (g this w))) (VObj l) !! k = ownProps (heap w) (VObj l) !! k.
Proof.
  intros Hg.
  destruct (cachedReads_shape env g Hg) as [field [meth ->]].
  exists field. intros this w l k. apply readThrough_frame.
Qed.

Lemma cached_read_frame_witness :
  In (EIP20Gateway.getBounty Sample.env) (cachedReads Sample.env) /\
  exists field : string,
    forall (this : loc) (w : World) (l : loc) (k : string),
      l <> this \/ k <> field ->
      ownProps (heap (snd (EIP20Gateway.getBounty Sample.env this w))) (VObj l) !! k
        = ownProps (heap w) (VObj l) !! k.
Proof.
  split; [left; reflexivity |].
  apply (cached_read_frame Sample.env (EIP20Gateway.getBounty Sample.env)).
  left; reflexivity.
Defined.

(** ** Failures during the anchor wait *)

Lemma wait_poll_fails (env : Env) (fuel : nat) (anchor : Facilitate.Anchor)
    (blockNumber : Value) (target : Z) (e : Error) (w : World) :
  BN env blockNumber = Return target ->
  (anchor (Facilitate.reads (trace w)) = Rejected e \/
   exists v, anchor (Facilitate.reads (trace w)) = Resolved v /\ BN env v = Throw e) ->
  Facilitate.waitForStateRootCommit env (S fuel) anchor blockNumber w
    = (Some (Rejected e), mkWorld (heap w) (trace w ++ [EAnchorRead])).
Proof.
  intros Ht Hfail. simpl. rewrite Ht.
  unfold Facilitate.getLatestStateRootBlockHeight. run.
  destruct Hfail as [-> | [v [-> Hv]]]; simpl; [reflexivity |].
  rewrite Hv. reflexivity.
Qed.

(** X13: the wait does not retry a failed read.  If, after [k] polls that
    found the anchor not ahead of the target, a read of the anchor is
    rejected, or answers with something bn.js cannot read, the wait is
    rejected with that very error, after [k] sleeps and [k + 1] reads. *)
Theorem wait_fails_on_failed_read (env : Env) (anchor : Facilitate.Anchor)
    (blockNumber : Value) (target : Z) (k fuel : nat) (e : Error) (w : World) :
  BN env blockNumber = Return target ->
  (forall i, (i < k)%nat ->
     exists h, heightAt env anchor (Facilitate.reads (trace w) + i) = Some h /\ h <= target) ->
  (anchor (Facilitate.reads (trace w) + k)%nat = Rejected e \/
   exists v, anchor (Facilitate.reads (trace w) + k)%nat = Resolved v /\
             BN env v = Throw e) ->
  Facilitate.waitForStateRootCommit env (k + S fuel) anchor blockNumber w
    = (Some (Rejected e),
       mkWorld (heap w) (trace w ++ pollTrace k ++ [EAnchorRead])).
Proof.
  intros Ht Hbehind Hfail.
  rewrite (wait_polls_behind env anchor blockNumber target k (S fuel) w Ht Hbehind).
  rewrite (wait_poll_fails env fuel anchor blockNumber target e (afterPolls k w) Ht).
  - unfold afterPolls. simpl. now rewrite <- app_assoc.
  - now rewrite afterPolls_reads.
Qed.

Lemma wait_fails_on_failed_read_witness :
  BN Sample.env (VNum 7) = Return 7 /\
  Facilitate.waitForStateRootCommit Sample.env 3
      (fun n => if (n <? 1)%nat then Resolved (VStr "7")
                else Rejected (Foreign (VStr "connection lost")))
      (VNum 7) Sample.world
    = (Some (Rejected (Foreign (VStr "connection lost"))),
       mkWorld (heap Sample.world) [EAnchorRead; ESleep 10000; EAnchorRead]).
Proof.
  split; [reflexivity |].
  apply (wait_fails_on_failed_read Sample.env
           (fun n => if (n <? 1)%nat then Resolved (VStr "7")
                     else Rejected (Foreign (VStr "connection lost")))
           (VNum 7) 7 1 1 (Foreign (VStr "connection lost")) Sample.world eq_refl).
  - intros i Hi. exists 7. destruct i as [| i]; [split; [reflexivity | lia] | lia].
  - left; reflexivity.
Defined.

(** ** The demo's [stake] and [redeem] *)

(** X14: an account that [isAddress] refuses.  [Facilitate.stake] returns a
    rejected promise, [Facilitate.redeem] throws; in both cases a hash lock
    has been generated and nothing else has happened: the chain was not
    read and the facilitator was not asked to stake or redeem. *)
Theorem facilitate_invalid_account (env : Env) (F : Facilitate.FacilitatorOps)
    (fuel : nat) (self : Facilitate.Instance)
    (account amount beneficiary gasPrice gasLimit : Value) (w : World) :
  isAddress env account = false ->
  Facilitate.stake env F fuel self account amount beneficiary gasPrice gasLimit w
    = (Some (Return (Rejected (accountAddressError account))),
       snd (Facilitate.getHashLock F w)) /\
  Facilitate.redeem env F fuel self account amount beneficiary gasPrice gasLimit w
    = (Some (Throw (accountAddressError account)),
       snd (Facilitate.getHashLock F w)).
Proof.
  intros Hbad.
  unfold Facilitate.stake, Facilitate.redeem, Facilitate.getOriginChainNonce,
    Facilitate.getAuxiliaryChainNonce, EIP20Gateway.getNonce, EIP20CoGateway.getNonce,
    accountAddressError.
  rewrite Hbad. unfold mbind, M_bind. simpl.
  destruct (Facilitate.getHashLock F w) as [lock w1]. split; reflexivity.
Qed.

Lemma facilitate_invalid_account_witness :
  isAddress Sample.env (VStr "0x123") = false /\
  Facilitate.redeem Sample.env Sample.facilitator 5 (Sample.facilitate Sample.risingAnchor)
      (VStr "0x123") (VStr "100") Sample.account (VStr "1") (VStr "1000000")
      Sample.minedWorld
    = (Some (Throw (TypeError "Invalid account address: 0x123.")), Sample.minedWorld).
Proof.
  split; [reflexivity |].
  apply (facilitate_invalid_account Sample.env Sample.facilitator 5
           (Sample.facilitate Sample.risingAnchor) (VStr "0x123") (VStr "100")
           Sample.account (VStr "1") (VStr "1000000") Sample.minedWorld).
  reflexivity.
Defined.

Lemma member_defined (v : Value) (k : string) (w : World) :
  v <> VUndefined -> v <> VNull ->
  Facilitate.member v k w = (Return (fst (getProp v k w)), w).
Proof. intros Hu Hn. destruct v; try reflexivity; congruence. Qed.

(** [Facilitate.stake] up to its anchor wait. *)
Lemma stake_until_wait (env : Env) (F : Facilitate.FacilitatorOps) (fuel : nat)
    (self : Facilitate.Instance) (staker amount beneficiary gasPrice gasLimit : Value)
    (w w1 w2 : World) (lock : Utils.HashLock) (nonce receipt : Value) :
  let query := mkTx (Facilitate.gateway self) "getNonce" [staker] in
  Facilitate.getHashLock F w = (lock, w1) ->
  isAddress env staker = true ->
  chainCall env (trace w1 ++ [EMethod query]) query = Resolved nonce ->
  Facilitate.facilitatorStake F
      [staker; amount; beneficiary; gasPrice; gasLimit; Utils.hashLock lock;
       Facilitate.txOptionsOrigin self] (afterRead query w1)
    = (Return (Resolved receipt), w2) ->
  receipt <> VUndefined -> receipt <> VNull ->
  Facilitate.stake env F fuel self staker amount beneficiary gasPrice gasLimit w
    = (let (waited, w3) :=
         Facilitate.waitForStateRootCommit env fuel (Facilitate.auxiliaryAnchor self)
           (fst (getProp receipt "blockNumber" w2)) w2 in
       match waited with
       | None => (None, w3)
       | Some (Resolved _) =>
         let (progressed, w4) :=
           Facilitate.facilitatorProgressStake F
             [staker; amount; beneficiary; gasPrice; gasLimit; nonce;
              Utils.hashLock lock; Utils.unlockSecret lock;
              Facilitate.txOptionsOrigin self; Facilitate.txOptionsAuxiliary self] w3 in
         (Some (Return (settle progressed)), w4)
       | Some (Rejected e) => (Some (Return (Rejected e)), w3)
       | Some Pending => (Some (Return Pending), w3)
       end).
Proof.
  intros query Hlock Ha Hnonce Hstake Hu Hn.
  unfold Facilitate.stake, Facilitate.getOriginChainNonce, EIP20Gateway.getNonce.
  rewrite Ha. unfold mbind at 1, M_bind at 1. rewrite Hlock.
  unfold_monad. simpl. fold query. rewrite Hnonce. simpl.
  rewrite app_two. unfold afterRead in Hstake. rewrite Hstake. simpl.
  rewrite (member_defined receipt "blockNumber" w2 Hu Hn).
  unfold getProp. simpl.
  destruct (Facilitate.waitForStateRootCommit env fuel (Facilitate.auxiliaryAnchor self)
              (default VUndefined (ownProps (heap w2) receipt !! "blockNumber")) w2)
    as [[[v | e |] |] w3]; simpl; try reflexivity.
  destruct (Facilitate.facilitatorProgressStake F _ w3) as [progressed w4]. reflexivity.
Qed.

(** X15: no progress before the anchor is ahead.  Let the nonce have been
    read and the facilitator's stake have resolved to a receipt.  As long as
    the auxiliary anchor does not report a height above the receipt's block
    number, [Facilitate.stake] stays in its wait: after any number of polls
    nothing but reads of the anchor and sleeps has happened since the stake,
    and the facilitator's [progressStake] has not been called. *)
Theorem stake_waits_for_anchor (env : Env) (F : Facilitate.FacilitatorOps) (fuel : nat)
    (self : Facilitate.Instance) (staker amount beneficiary gasPrice gasLimit : Value)
    (w w1 w2 : World) (lock : Utils.HashLock) (nonce receipt : Value) (target : Z) :
  let query := mkTx (Facilitate.gateway self) "getNonce" [staker] in
  Facilitate.getHashLock F w = (lock, w1) ->
  isAddress env staker = true ->
  chainCall env (trace w1 ++ [EMethod query]) query = Resolved nonce ->
  Facilitate.facilitatorStake F
      [staker; amount; beneficiary; gasPrice; gasLimit; Utils.hashLock lock;
       Facilitate.txOptionsOrigin self] (afterRead query w1)
    = (Return (Resolved receipt), w2) ->
  receipt <> VUndefined -> receipt <> VNull ->
  BN env (fst (getProp receipt "blockNumber" w2)) = Return target ->
  (forall n, exists h,
     heightAt env (Facilitate.auxiliaryAnchor self) n = Some h /\ h <= target) ->
  Facilitate.stake env F fuel self staker amount beneficiary gasPrice gasLimit w
    = (None, mkWorld (heap w2) (trace w2 ++ pollTrace fuel)).
Proof.
  intros query Hlock Ha Hnonce Hstake Hu Hn HBN Hbehind.
  rewrite (stake_until_wait env F fuel self staker amount beneficiary gasPrice gasLimit
             w w1 w2 lock nonce receipt Hlock Ha Hnonce Hstake Hu Hn).
  rewrite (wait_stays_pending env (Facilitate.auxiliaryAnchor self) _ target fuel w2
             HBN Hbehind).
  reflexivity.
Qed.

Lemma stake_waits_for_anchor_witness :
  isAddress Sample.env Sample.account = true /\
  Facilitate.stake Sample.env Sample.facilitator 2 (Sample.facilitate (Sample.stuckAnchor "7"))
      Sample.account (VStr "100") Sample.account (VStr "1") (VStr "1000000")
      Sample.minedWorld
    = (None,
       mkWorld (heap Sample.minedWorld)
         [EMethod (mkTx Sample.this "getNonce" [Sample.account]);
          ECall (mkTx Sample.this "getNonce" [Sample.account]);
          EAnchorRead; ESleep 10000; EAnchorRead; ESleep 10000]).
Proof.
  split; [reflexivity |].
  apply (stake_waits_for_anchor Sample.env Sample.facilitator 2
           (Sample.facilitate (Sample.stuckAnchor "7")) Sample.account (VStr "100")
           Sample.account (VStr "1") (VStr "1000000") Sample.minedWorld Sample.minedWorld
           (afterRead (mkTx Sample.this "getNonce" [Sample.account]) Sample.minedWorld)
           Sample.lock (VStr "1000") Sample.receipt7 7);
    try reflexivity; try discriminate.
  apply (stuckAnchor_behind "7" 7 7); [reflexivity | lia].
Defined.

(** X16: progress follows the wait.  In the same situation, if the first
    [k] reads of the auxiliary anchor report heights up to the receipt's
    block number and the next one a height above it, [Facilitate.stake]
    then calls the facilitator's [progressStake], once, with the nonce that
    was read from the gateway before staking and with the hash lock and the
    unlock secret of the lock whose hash lock was staked with; what it
    returns is what this call returns. *)
Theorem stake_progresses_after_anchor (env : Env) (F : Facilitate.FacilitatorOps)
    (k fuel : nat) (self : Facilitate.Instance)
    (staker amount beneficiary gasPrice gasLimit : Value)
    (w w1 w2 : World) (lock : Utils.HashLock) (nonce receipt : Value) (target : Z) :
  let query := mkTx (Facilitate.gateway self) "getNonce" [staker] in
  Facilitate.getHashLock F w = (lock, w1) ->
  isAddress env staker = true ->
  chainCall env (trace w1 ++ [EMethod query]) query = Resolved nonce ->
  Facilitate.facilitatorStake F
      [staker; amount; beneficiary; gasPrice; gasLimit; Utils.hashLock lock;
       Facilitate.txOptionsOrigin self] (afterRead query w1)
    = (Return (Resolved receipt), w2) ->
  receipt <> VUndefined -> receipt <> VNull ->
  BN env (fst (getProp receipt "blockNumber" w2)) = Return target ->
  (forall i, (i < k)%nat ->
     exists h, heightAt env (Facilitate.auxiliaryAnchor self)
                 (Facilitate.reads (trace w2) + i) = Some h /\ h <= target) ->
  (exists h, heightAt env (Facilitate.auxiliaryAnchor self)
               (Facilitate.reads (trace w2) + k) = Some h /\ target < h) ->
  Facilitate.stake env F (k + S fuel) self staker amount beneficiary gasPrice gasLimit w
    = (let (progressed, w4) :=
         Facilitate.facilitatorProgressStake F
           [staker; amount; beneficiary; gasPrice; gasLimit; nonce;
            Utils.hashLock lock; Utils.unlockSecret lock;
            Facilitate.txOptionsOrigin self; Facilitate.txOptionsAuxiliary self]
           (mkWorld (heap w2) (trace w2 ++ pollTrace k ++ [EAnchorRead])) in
       (Some (Return (settle progressed)), w4)).
Proof.
  intros query Hlock Ha Hnonce Hstake Hu Hn HBN Hbehind [h [Hh Hlt]].
  rewrite (stake_until_wait env F (k + S fuel) self staker amount beneficiary gasPrice
             gasLimit w w1 w2 lock nonce receipt Hlock Ha Hnonce Hstake Hu Hn).
  rewrite (wait_polls_behind env (Facilitate.auxiliaryAnchor self) _ target k (S fuel) w2
             HBN Hbehind).
  rewrite (wait_poll_ahead env fuel (Facilitate.auxiliaryAnchor self) _ target h
             (afterPolls k w2) HBN).
  - unfold afterPolls. simpl. now rewrite <- app_assoc.
  - now rewrite afterPolls_reads.
  - exact Hlt.
Qed.

Lemma stake_progresses_after_anchor_witness :
  isAddress Sample.env Sample.account = true /\
  fst (Facilitate.stake Sample.env Sample.facilitator (2 + 3)
         (Sample.facilitate Sample.risingAnchor) Sample.account (VStr "100")
         Sample.account (VStr "1") (VStr "1000000") Sample.minedWorld)
    = Some (Return (Resolved (VStr "progressed"))).
Proof.
  split; [reflexivity |].
  rewrite (stake_progresses_after_anchor Sample.env Sample.facilitator 2 2
             (Sample.facilitate Sample.risingAnchor) Sample.account (VStr "100")
             Sample.account (VStr "1") (VStr "1000000") Sample.minedWorld
             Sample.minedWorld
             (afterRead (mkTx Sample.this "getNonce" [Sample.account]) Sample.minedWorld)
             Sample.lock (VStr "1000") Sample.receipt7 7);
    try reflexivity; try discriminate.
  - intros i Hi. exists 7.
    destruct i as [| [| i]]; [split; [reflexivity | lia] .. | lia].
  - exists 8. split; [reflexivity | lia].
Defined.

Lemma assign_value (bounty : Value) (props : gmap string Value) :
  assign {["value" := bounty]} props !! "value"
    = Some (default bounty (props !! "value")) /\
  forall k, k <> "value" -> assign {["value" := bounty]} props !! k = props !! k.
Proof.
  unfold assign. split.
  - rewrite lookup_union. destruct (props !! "value") as [v |] eqn:Hv; simpl.
    + rewrite lookup_singleton_eq. reflexivity.
    + rewrite lookup_singleton_eq. reflexivity.
  - intros k Hk. rewrite lookup_union, lookup_singleton_ne by congruence.
    destruct (props !! k); reflexivity.
Qed.

(** X17: the options of the demo's redeem.  Once the nonce and the bounty
    have been read, [Facilitate.redeem] calls the facilitator's [redeem]
    with a new options object: the properties of the auxiliary options it
    was constructed with, and [value] set to the bounty unless those options
    have a [value] of their own, which then stays.  If this call is
    rejected, [Facilitate.redeem] is rejected with the same error, without
    reading the anchor. *)
Theorem redeem_attaches_bounty (env : Env) (F : Facilitate.FacilitatorOps) (fuel : nat)
    (self : Facilitate.Instance) (redeemer amount beneficiary gasPrice gasLimit : Value)
    (w w1 w2 w3 : World) (lock : Utils.HashLock) (nonce bounty : Value) (e : Error) :
  let query := mkTx (Facilitate.coGateway self) "getNonce" [redeemer] in
  let given := ownProps (heap w2) (Facilitate.txOptionsAuxiliary self) in
  let options := assign {["value" := bounty]} given in
  let l := fresh (dom (heap w2)) in
  Facilitate.getHashLock F w = (lock, w1) ->
  isAddress env redeemer = true ->
  chainCall env (trace w1 ++ [EMethod query]) query = Resolved nonce ->
  EIP20CoGateway.getBounty env (Facilitate.coGateway self) (afterRead query w1)
    = (Resolved bounty, w2) ->
  Facilitate.facilitatorRedeem F
      [redeemer; amount; beneficiary; gasPrice; gasLimit; Utils.hashLock lock;
       VObj l] (mkWorld (<[l := options]> (heap w2)) (trace w2))
    = (Return (Rejected e), w3) ->
  Facilitate.redeem env F fuel self redeemer amount beneficiary gasPrice gasLimit w
    = (Some (Return (Rejected e)), w3) /\
  options !! "value" = Some (default bounty (given !! "value")) /\
  (forall k, k <> "value" -> options !! k = given !! k).
Proof.
  intros query given options l Hlock Ha Hnonce Hbounty Hredeem.
  split; [| apply assign_value].
  unfold Facilitate.redeem, Facilitate.getAuxiliaryChainNonce, EIP20CoGateway.getNonce.
  rewrite Ha. unfold mbind at 1, M_bind at 1. rewrite Hlock.
  unfold mbind at 1, M_bind at 1. unfold method, emit, call, history.
  unfold mbind, M_bind, mret, M_ret, Facilitate.thenWaiting. simpl. fold query.
  rewrite Hnonce. rewrite app_two.
  unfold afterRead in Hbounty. rewrite Hbounty.
  unfold Facilitate.assignNew, alloc, mbind, M_bind. simpl.
  fold given. fold options. fold l. rewrite Hredeem. reflexivity.
Qed.

Lemma redeem_attaches_bounty_witness :
  isAddress Sample.env Sample.account = true /\
  fst (Facilitate.redeem Sample.env Sample.failingFacilitator 5
         (Sample.facilitate Sample.risingAnchor) Sample.account (VStr "100")
         Sample.account (VStr "1") (VStr "1000000") Sample.minedWorld)
    = Some (Return (Rejected (Foreign (VStr "reverted")))).
Proof.
  split; [reflexivity |].
  rewrite (proj1 (redeem_attaches_bounty Sample.env Sample.failingFacilitator 5
                    (Sample.facilitate Sample.risingAnchor) Sample.account (VStr "100")
                    Sample.account (VStr "1") (VStr "1000000") Sample.minedWorld
                    Sample.minedWorld
                    (snd (EIP20CoGateway.getBounty Sample.env Sample.this
                            (afterRead (mkTx Sample.this "getNonce" [Sample.account])
                               Sample.minedWorld)))
                    _ Sample.lock (VStr "1000") (VStr "1000")
                    (Foreign (VStr "reverted"))
                    eq_refl eq_refl eq_refl eq_refl eq_refl)).
  reflexivity.
Defined.

(** ** The secret of a new hash lock *)

Lemma hexDigit_cases (k : N) :
  (k < 16)%N -> In k [0; 1; 2; 3; 4; 5; 6; 7; 8; 9; 10; 11; 12; 13; 14; 15]%N.
Proof. intros Hk. simpl. lia. Qed.

Lemma hexDigit_inj (m n : N) :
  (m < 16)%N -> (n < 16)%N -> hexDigit m = hexDigit n -> m = n.
Proof.
  intros Hm Hn.
  pose proof (hexDigit_cases m Hm) as Im. pose proof (hexDigit_cases n Hn) as In'.
  simpl in Im, In'.
  repeat (destruct Im as [<- | Im];
          [repeat (destruct In' as [<- | In'];
                   [first [reflexivity | (intros H; vm_compute in H; discriminate H)] |]);
           destruct In' |]);
    destruct Im.
Qed.

Lemma hexDigit_lower (n : N) : (n < 16)%N -> isLowerHexChar (hexDigit n) = true.
Proof.
  intros Hn. pose proof (hexDigit_cases n Hn) as Hin. simpl in Hin.
  repeat (destruct Hin as [<- | Hin]; [reflexivity |]). destruct Hin.
Qed.

Lemma byte_nibbles (b : Byte.byte) :
  (Byte.to_N b / 16 < 16)%N /\ (Byte.to_N b mod 16 < 16)%N.
Proof.
  pose proof (Byte.to_N_bounded b) as Hb. split.
  - apply N.Div0.div_lt_upper_bound. lia.
  - apply N.mod_lt. lia.
Qed.

Lemma hexOfByte_inj (b1 b2 : Byte.byte) :
  hexOfByte b1 = hexOfByte b2 -> b1 = b2.
Proof.
  unfold hexOfByte. intros H. injection H as Hhi Hlo.
  destruct (byte_nibbles b1) as [H1 H1']. destruct (byte_nibbles b2) as [H2 H2'].
  apply hexDigit_inj in Hhi; [| assumption ..].
  apply hexDigit_inj in Hlo; [| assumption ..].
  assert (Heq : Byte.to_N b1 = Byte.to_N b2).
  { rewrite (N.div_mod (Byte.to_N b1) 16), (N.div_mod (Byte.to_N b2) 16) by lia.
    now rewrite Hhi, Hlo. }
  pose proof (Byte.of_to_N b1) as E1. pose proof (Byte.of_to_N b2) as E2.
  rewrite Heq in E1. congruence.
Qed.

Lemma hexOfBytes_inj (l1 l2 : list Byte.byte) :
  hexOfBytes l1 = hexOfBytes l2 -> l1 = l2.
Proof.
  revert l2. induction l1 as [| b1 l1 IH]; intros [| b2 l2] H; simpl in H;
    try reflexivity; try discriminate H.
  injection H as Hhi Hlo Hrest.
  assert (Hb : b1 = b2).
  { apply hexOfByte_inj. unfold hexOfByte. now rewrite Hhi, Hlo. }
  subst b2. f_equal. apply IH. exact Hrest.
Qed.

Lemma hexOfBytes_shape (l : list Byte.byte) :
  String.length (hexOfBytes l) = (2 * length l)%nat /\
  allLowerHex (hexOfBytes l) = true.
Proof.
  induction l as [| b l [IHlen IHhex]]; [split; reflexivity |].
  destruct (byte_nibbles b) as [Hhi Hlo]. simpl.
  change ("" +:+ hexOfBytes l) with (hexOfBytes l). split.
  - rewrite IHlen. lia.
  - rewrite (hexDigit_lower _ Hhi), (hexDigit_lower _ Hlo), IHhex. reflexivity.
Qed.

Lemma long_text_not_empty (s : string) :
  (2 < String.length s)%nat -> Web3Utils.isEmptyMessage s = false.
Proof.
  intros Hlen. unfold Web3Utils.isEmptyMessage.
  destruct (String.eqb_spec s "") as [-> | _]; [simpl in Hlen; lia |].
  destruct (String.eqb_spec s "0x") as [-> | _]; [simpl in Hlen; lia |].
  destruct (String.eqb_spec s "0X") as [-> | _]; [simpl in Hlen; lia |].
  reflexivity.
Qed.

Lemma createSecretHashLock_run (env : Env) (randomBytes : nat -> list Byte.byte) :
  length (randomBytes 16%nat) = 16%nat ->
  let text := hexOfBytes (randomBytes 16%nat) in
  Utils.createSecretHashLock env randomBytes =
    Return {| Utils.secret := text;
              Utils.unlockSecret := VStr (Web3Utils.hashText env text);
              Utils.hashLock :=
                VStr (Web3Utils.hashText env (Web3Utils.hashText env text)) |}.
Proof.
  intros Hlen text. unfold Utils.createSecretHashLock. rewrite toHashLock_run.
  rewrite long_text_not_empty; [reflexivity |].
  rewrite (proj1 (hexOfBytes_shape _)), Hlen. simpl. lia.
Qed.

Lemma createSecretHashLock_secret_of (env : Env) (randomBytes : nat -> list Byte.byte)
    (lock : Utils.HashLock) :
  Utils.createSecretHashLock env randomBytes = Return lock ->
  Utils.secret lock = hexOfBytes (randomBytes 16%nat).
Proof.
  unfold Utils.createSecretHashLock. rewrite toHashLock_run.
  destruct (Web3Utils.isEmptyMessage _); [discriminate |].
  intros H. injection H as <-. reflexivity.
Qed.

(** X18: [createSecretHashLock] returns a lock whose secret is the 16
    random bytes written as 32 lower-case hexadecimal digits and whose
    unlock secret and hash lock are the single and the double Keccak-256
    of that text; two draws that differ give two secrets that differ. *)
Theorem createSecretHashLock_secret (env : Env) (randomBytes : nat -> list Byte.byte) :
  length (randomBytes 16%nat) = 16%nat ->
  exists lock,
    Utils.createSecretHashLock env randomBytes = Return lock /\
    String.length (Utils.secret lock) = 32%nat /\
    allLowerHex (Utils.secret lock) = true /\
    Utils.unlockSecret lock = VStr (Web3Utils.hashText env (Utils.secret lock)) /\
    Utils.hashLock lock
      = VStr (Web3Utils.hashText env (Web3Utils.hashText env (Utils.secret lock))) /\
    (forall (randomBytes' : nat -> list Byte.byte) (lock' : Utils.HashLock),
       Utils.createSecretHashLock env randomBytes' = Return lock' ->
       Utils.secret lock' = Utils.secret lock ->
       randomBytes' 16%nat = randomBytes 16%nat).
Proof.
  intros Hlen. eexists. split; [apply (createSecretHashLock_run env randomBytes Hlen) |].
  simpl. destruct (hexOfBytes_shape (randomBytes 16%nat)) as [Hl Hh].
  repeat split.
  - rewrite Hl, Hlen. reflexivity.
  - exact Hh.
  - intros randomBytes' lock' Hrun Heq. apply hexOfBytes_inj.
    rewrite <- (createSecretHashLock_secret_of env randomBytes' lock' Hrun). exact Heq.
Qed.

Lemma createSecretHashLock_secret_witness :
  length (repeat Byte.xa7 16) = 16%nat /\
  exists lock,
    Utils.createSecretHashLock Sample.env (fun n => repeat Byte.xa7 n) = Return lock /\
    Utils.secret lock = "a7a7a7a7a7a7a7a7a7a7a7a7a7a7a7a7" /\
    String.length (Utils.secret lock) = 32%nat.
Proof.
  split; [reflexivity |].
  destruct (createSecretHashLock_secret Sample.env (fun n => repeat Byte.xa7 n) eq_refl)
    as (lock & Hrun & Hlength & _).
  exists lock. split; [exact Hrun |]. split; [| exact Hlength].
  exact (createSecretHashLock_secret_of Sample.env _ lock Hrun).
Defined.

(** ** Failures before the wait *)

(** X19: a failure before the wait ends the demo's stake.  If the read of
    the nonce is rejected, [Facilitate.stake] is rejected with that error
    and the facilitator is not asked to stake.  If the facilitator's stake
    is rejected, or throws, [Facilitate.stake] is rejected with its error
    and the anchor is not read.  In both cases no progress is attempted. *)
Theorem stake_failure_stops (env : Env) (F : Facilitate.FacilitatorOps) (fuel : nat)
    (self : Facilitate.Instance) (staker amount beneficiary gasPrice gasLimit : Value)
    (w w1 : World) (lock : Utils.HashLock) (e : Error) :
  let query := mkTx (Facilitate.gateway self) "getNonce" [staker] in
  let stakeArgs := [staker; amount; beneficiary; gasPrice; gasLimit;
                    Utils.hashLock lock; Facilitate.txOptionsOrigin self] in
  Facilitate.getHashLock F w = (lock, w1) ->
  isAddress env staker = true ->
  (chainCall env (trace w1 ++ [EMethod query]) query = Rejected e ->
   Facilitate.stake env F fuel self staker amount beneficiary gasPrice gasLimit w
     = (Some (Return (Rejected e)), afterRead query w1)) /\
  (forall (nonce : Value) (w2 : World),
     chainCall env (trace w1 ++ [EMethod query]) query = Resolved nonce ->
     Facilitate.facilitatorStake F stakeArgs (afterRead query w1)
       = (Return (Rejected e), w2) \/
     Facilitate.facilitatorStake F stakeArgs (afterRead query w1) = (Throw e, w2) ->
     Facilitate.stake env F fuel self staker amount beneficiary gasPrice gasLimit w
       = (Some (Return (Rejected e)), w2)).
Proof.
  intros query stakeArgs Hlock Ha. subst stakeArgs.
  split; [intros Hnonce | intros nonce w2 Hnonce Hstake];
    unfold Facilitate.stake, Facilitate.getOriginChainNonce, EIP20Gateway.getNonce;
    rewrite Ha; unfold mbind at 1, M_bind at 1; rewrite Hlock;
    unfold_monad; simpl; fold query; rewrite Hnonce; simpl; rewrite app_two.
  - reflexivity.
  - unfold afterRead in Hstake. destruct Hstake as [-> | ->]; reflexivity.
Qed.

Lemma stake_failure_stops_witness :
  isAddress Sample.env Sample.account = true /\
  Facilitate.stake Sample.env Sample.failingFacilitator 5
      (Sample.facilitate Sample.risingAnchor) Sample.account (VStr "100")
      Sample.account (VStr "1") (VStr "1000000") Sample.minedWorld
    = (Some (Return (Rejected (Foreign (VStr "reverted")))),
       afterRead (mkTx Sample.this "getNonce" [Sample.account]) Sample.minedWorld).
Proof.
  split; [reflexivity |].
  apply (proj2 (stake_failure_stops Sample.env Sample.failingFacilitator 5
                  (Sample.facilitate Sample.risingAnchor) Sample.account (VStr "100")
                  Sample.account (VStr "1") (VStr "1000000") Sample.minedWorld
                  Sample.minedWorld Sample.lock (Foreign (VStr "reverted"))
                  eq_refl eq_refl) (VStr "1000")).
  - reflexivity.
  - left; reflexivity.
Defined.

(** ** Token approvals *)

(** X20: the approval queries and the approvals check their own
    arguments first.  An account that is not an address, an amount that is
    not a string, options that are missing or name no valid sender: each is
    refused with a promise rejected by a [TypeError], before the token
    contract is looked up and before anything is read or sent. *)
Theorem approvals_check_arguments (env : Env) (T : TokenOps) (this : loc)
    (account amount txOptions : Value) (w : World) :
  (isAddress env account = false \/ isString amount = false ->
   (exists msg, EIP20Gateway.isStakeAmountApproved env T this account amount w
                  = (Rejected (TypeError msg), w)) /\
   (exists msg, EIP20CoGateway.isRedeemAmountApproved env T this account amount w
                  = (Rejected (TypeError msg), w))) /\
  (isAddress env account = false ->
   exists msg, EIP20Gateway.isBountyAmountApproved env T this account w
                 = (Rejected (TypeError msg), w)) /\
  (truthy txOptions = false \/ isAddress env (senderOf txOptions w) = false \/
   isString amount = false ->
   (exists msg, EIP20Gateway.approveStakeAmount env T this amount txOptions w
                  = (Rejected (TypeError msg), w)) /\
   (exists msg, EIP20CoGateway.approveRedeemAmount env T this amount txOptions w
                  = (Rejected (TypeError msg), w))) /\
  (truthy txOptions = false \/ isAddress env (senderOf txOptions w) = false ->
   exists msg, EIP20Gateway.approveBountyAmount env T this txOptions w
                 = (Rejected (TypeError msg), w)).
Proof.
  unfold senderOf, getProp. simpl.
  split; [| split; [| split]].
  - intros Hbad. split;
      unfold EIP20Gateway.isStakeAmountApproved, EIP20CoGateway.isRedeemAmountApproved;
      destruct (isAddress env account); simpl; try (eexists; reflexivity);
      destruct Hbad as [Hc | Hs]; try discriminate Hc;
      rewrite Hs; eexists; reflexivity.
  - intros Ha. unfold EIP20Gateway.isBountyAmountApproved. rewrite Ha.
    eexists; reflexivity.
  - intros Hbad. split;
      unfold EIP20Gateway.approveStakeAmount, EIP20CoGateway.approveRedeemAmount;
      (destruct (truthy txOptions); simpl; [| eexists; reflexivity]);
      unfold mbind, M_bind, getProp; simpl;
      (destruct (isAddress env _); simpl; [| eexists; reflexivity]);
      destruct Hbad as [Hc | [Hc | Hs]]; try discriminate Hc;
      rewrite Hs; eexists; reflexivity.
  - intros Hbad. unfold EIP20Gateway.approveBountyAmount.
    destruct (truthy txOptions); simpl; [| eexists; reflexivity].
    unfold mbind, M_bind, getProp. simpl.
    destruct (isAddress env _); simpl; [| eexists; reflexivity].
    destruct Hbad as [Hc | Hc]; discriminate Hc.
Qed.

Lemma approvals_check_arguments_witness :
  isAddress Sample.env (VStr "0x123") = false /\
  exists msg,
    EIP20Gateway.isBountyAmountApproved Sample.env Sample.token Sample.this
        (VStr "0x123") Sample.world
      = (Rejected (TypeError msg), Sample.world).
Proof.
  split; [reflexivity |].
  apply (proj1 (proj2 (approvals_check_arguments Sample.env Sample.token Sample.this
                         (VStr "0x123") (VStr "1") Sample.txOptions Sample.world))).
  reflexivity.
Defined.

Lemma tokenContracts_shape (env : Env) (T : TokenOps) (g : loc -> M (Promise Value)) :
  In g (tokenContracts env T) ->
  exists field address, g = contractThrough T field address.
Proof.
  unfold tokenContracts. simpl. intros [H | [H | [H | []]]]; subst g.
  - exists "_eip20ValueToken", (EIP20Gateway.getValueToken env); reflexivity.
  - exists "_eip20BaseToken", (EIP20Gateway.getBaseToken env); reflexivity.
  - exists "_eip20UtilityToken", (EIP20CoGateway.getUtilityToken env); reflexivity.
Qed.

Lemma contractThrough_hit (T : TokenOps) (field : string)
    (address : loc -> M (Promise Value)) (this : loc) (w : World) :
  truthy (cachedValue field this w) = true ->
  contractThrough T field address this w = (Resolved (cachedValue field this w), w).
Proof.
  unfold cachedValue, contractThrough. run. intros Ht. rewrite Ht. reflexivity.
Qed.

Lemma contractThrough_fill (T : TokenOps) (field : string)
    (address : loc -> M (Promise Value)) (this : loc) (w w1 : World) (token : Value) :
  contractThrough T field address this w = (Resolved token, w1) ->
  cachedValue field this w1 = token.
Proof.
  unfold cachedValue, contractThrough. run.
  destruct (truthy (default VUndefined (default ∅ (heap w !! this) !! field))) eqn:Ht.
  - intros H. inversion H; subst. reflexivity.
  - destruct (address this w) as [[tokenAddress | e |] w']; simpl;
      try (intros H; discriminate H).
    destruct (newEIP20Token T tokenAddress w') as [[created | e] w'']; simpl;
      intros H; inversion H; subst; simpl.
    repeat (rewrite lookup_insert_eq; simpl). reflexivity.
Qed.

(** X21: a token contract object is built once.  When
    [getValueTokenContract], [getBaseTokenContract] or
    [getUtilityTokenContract] has resolved to a (truthy) token object, every
    later call on that instance resolves to the same object, and neither
    reads the token address again nor constructs another object. *)
Theorem token_contract_kept (env : Env) (T : TokenOps) (g : loc -> M (Promise Value))
    (this : loc) (w w1 : World) (token : Value) (n : nat) :
  In g (tokenContracts env T) ->
  g this w = (Resolved token, w1) ->
  truthy token = true ->
  repeatM n (g this) w1 = (repeat (Resolved token) n, w1).
Proof.
  intros Hg Hcall Ht.
  destruct (tokenContracts_shape env T g Hg) as [field [address ->]].
  pose proof (contractThrough_fill T field address this w w1 token Hcall) as Hcached.
  apply repeatM_hit.
  rewrite <- Hcached at 1. apply contractThrough_hit. now rewrite Hcached.
Qed.

Lemma token_contract_kept_witness :
  In (EIP20Gateway.getBaseTokenContract Sample.env Sample.token)
    (tokenContracts Sample.env Sample.token) /\
  truthy (VObj 9%positive) = true /\
  fst (repeatM 2 (EIP20Gateway.getBaseTokenContract Sample.env Sample.token Sample.this)
         (snd (EIP20Gateway.getBaseTokenContract Sample.env Sample.token Sample.this
                 Sample.world)))
    = [Resolved (VObj 9%positive); Resolved (VObj 9%positive)].
Proof.
  split; [right; left; reflexivity |]. split; [reflexivity |].
  rewrite (token_contract_kept Sample.env Sample.token
             (EIP20Gateway.getBaseTokenContract Sample.env Sample.token) Sample.this
             Sample.world
             (snd (EIP20Gateway.getBaseTokenContract Sample.env Sample.token Sample.this
                     Sample.world))
             (VObj 9%positive) 2);
    [reflexivity | right; left; reflexivity | reflexivity | reflexivity].
Defined.

(** ** The demo's redeem after the anchor wait *)

Lemma redeem_until_wait (env : Env) (F : Facilitate.FacilitatorOps) (fuel : nat)
    (self : Facilitate.Instance) (redeemer amount beneficiary gasPrice gasLimit : Value)
    (w w1 w2 w3 : World) (lock : Utils.HashLock) (nonce bounty receipt : Value) :
  let query := mkTx (Facilitate.coGateway self) "getNonce" [redeemer] in
  let options := assign {["value" := bounty]}
                   (ownProps (heap w2) (Facilitate.txOptionsAuxiliary self)) in
  let l := fresh (dom (heap w2)) in
  Facilitate.getHashLock F w = (lock, w1) ->
  isAddress env redeemer = true ->
  chainCall env (trace w1 ++ [EMethod query]) query = Resolved nonce ->
  EIP20CoGateway.getBounty env (Facilitate.coGateway self) (afterRead query w1)
    = (Resolved bounty, w2) ->
  Facilitate.facilitatorRedeem F
      [redeemer; amount; beneficiary; gasPrice; gasLimit; Utils.hashLock lock;
       VObj l] (mkWorld (<[l := options]> (heap w2)) (trace w2))
    = (Return (Resolved receipt), w3) ->
  receipt <> VUndefined -> receipt <> VNull ->
  Facilitate.redeem env F fuel self redeemer amount beneficiary gasPrice gasLimit w
    = (let (waited, w4) :=
         Facilitate.waitForStateRootCommit env fuel (Facilitate.originAnchor self)
           (fst (getProp receipt "blockNumber" w3)) w3 in
       match waited with
       | None => (None, w4)
       | Some (Resolved _) =>
         let (progressed, w5) :=
           Facilitate.facilitatorProgressRedeem F
             [redeemer; nonce; beneficiary; amount; gasPrice; gasLimit;
              Utils.hashLock lock; Utils.unlockSecret lock;
              Facilitate.txOptionsOrigin self; Facilitate.txOptionsAuxiliary self] w4 in
         (Some (Return (settle progressed)), w5)
       | Some (Rejected e) => (Some (Return (Rejected e)), w4)
       | Some Pending => (Some (Return Pending), w4)
       end).
Proof.
  intros query options l Hlock Ha Hnonce Hbounty Hredeem Hu Hn.
  unfold Facilitate.redeem, Facilitate.getAuxiliaryChainNonce, EIP20CoGateway.getNonce.
  rewrite Ha. unfold mbind at 1, M_bind at 1. rewrite Hlock.
  unfold mbind at 1, M_bind at 1. unfold method, emit, call, history.
  unfold mbind, M_bind, mret, M_ret, Facilitate.thenWaiting. simpl. fold query.
  rewrite Hnonce. rewrite app_two.
  unfold afterRead in Hbounty. rewrite Hbounty.
  unfold Facilitate.assignNew, alloc, mbind, M_bind. simpl.
  fold options. fold l. rewrite Hredeem. simpl.
  rewrite (member_defined receipt "blockNumber" w3 Hu Hn).
  unfold getProp. simpl.
  destruct (Facilitate.waitForStateRootCommit env fuel (Facilitate.originAnchor self)
              (default VUndefined (ownProps (heap w3) receipt !! "blockNumber")) w3)
    as [[[v | e |] |] w4]; simpl; try reflexivity.
  destruct (Facilitate.facilitatorProgressRedeem F _ w4) as [progressed w5]. reflexivity.
Qed.

(** X22: the demo's redeem waits on the origin anchor and then
    progresses.  Once the facilitator's redeem has resolved to a receipt,
    nothing but reads of the origin anchor and sleeps happens while that
    anchor reports heights up to the receipt's block number; at the first
    height above it the facilitator's [progressRedeem] is called, with the
    nonce read from the CoGateway before redeeming, the hash lock and unlock
    secret of the lock that was redeemed with, and the options the object
    was constructed with (not the copy that carries the bounty).  What it
    returns is what [Facilitate.redeem] returns. *)
Theorem redeem_progresses_after_anchor (env : Env) (F : Facilitate.FacilitatorOps)
    (k fuel : nat) (self : Facilitate.Instance)
    (redeemer amount beneficiary gasPrice gasLimit : Value)
    (w w1 w2 w3 : World) (lock : Utils.HashLock) (nonce bounty receipt : Value)
    (target : Z) :
  let query := mkTx (Facilitate.coGateway self) "getNonce" [redeemer] in
  let options := assign {["value" := bounty]}
                   (ownProps (heap w2) (Facilitate.txOptionsAuxiliary self)) in
  let l := fresh (dom (heap w2)) in
  Facilitate.getHashLock F w = (lock, w1) ->
  isAddress env redeemer = true ->
  chainCall env (trace w1 ++ [EMethod query]) query = Resolved nonce ->
  EIP20CoGateway.getBounty env (Facilitate.coGateway self) (afterRead query w1)
    = (Resolved bounty, w2) ->
  Facilitate.facilitatorRedeem F
      [redeemer; amount; beneficiary; gasPrice; gasLimit; Utils.hashLock lock;
       VObj l] (mkWorld (<[l := options]> (heap w2)) (trace w2))
    = (Return (Resolved receipt), w3) ->
  receipt <> VUndefined -> receipt <> VNull ->
  BN env (fst (getProp receipt "blockNumber" w3)) = Return target ->
  (forall i, (i < k)%nat ->
     exists h, heightAt env (Facilitate.originAnchor self)
                 (Facilitate.reads (trace w3) + i) = Some h /\ h <= target) ->
  (exists h, heightAt env (Facilitate.originAnchor self)
               (Facilitate.reads (trace w3) + k) = Some h /\ target < h) ->
  Facilitate.redeem env F (k + S fuel) self redeemer amount beneficiary gasPrice gasLimit w
    = (let (progressed, w5) :=
         Facilitate.facilitatorProgressRedeem F
           [redeemer; nonce; beneficiary; amount; gasPrice; gasLimit;
            Utils.hashLock lock; Utils.unlockSecret lock;
            Facilitate.txOptionsOrigin self; Facilitate.txOptionsAuxiliary self]
           (mkWorld (heap w3) (trace w3 ++ pollTrace k ++ [EAnchorRead])) in
       (Some (Return (settle progressed)), w5)).
Proof.
  intros query options l Hlock Ha Hnonce Hbounty Hredeem Hu Hn HBN Hbehind [h [Hh Hlt]].
  rewrite (redeem_until_wait env F (k + S fuel) self redeemer amount beneficiary gasPrice
             gasLimit w w1 w2 w3 lock nonce bounty receipt Hlock Ha Hnonce Hbounty
             Hredeem Hu Hn).
  rewrite (wait_polls_behind env (Facilitate.originAnchor self) _ target k (S fuel) w3
             HBN Hbehind).
  rewrite (wait_poll_ahead env fuel (Facilitate.originAnchor self) _ target h
             (afterPolls k w3) HBN).
  - unfold afterPolls. simpl. now rewrite <- app_assoc.
  - now rewrite afterPolls_reads.
  - exact Hlt.
Qed.

Lemma redeem_progresses_after_anchor_witness :
  isAddress Sample.env Sample.account = true /\
  fst (Facilitate.redeem Sample.env Sample.facilitator (2 + 3)
         (Sample.facilitate Sample.risingAnchor) Sample.account (VStr "100")
         Sample.account (VStr "1") (VStr "1000000") Sample.minedWorld)
    = Some (Return (Resolved (VStr "progressed"))).
Proof.
  split; [reflexivity |].
  erewrite (redeem_progresses_after_anchor Sample.env Sample.facilitator 2 2
             (Sample.facilitate Sample.risingAnchor) Sample.account (VStr "100")
             Sample.account (VStr "1") (VStr "1000000") Sample.minedWorld
             Sample.minedWorld
             (snd (EIP20CoGateway.getBounty Sample.env Sample.this
                     (afterRead (mkTx Sample.this "getNonce" [Sample.account])
                        Sample.minedWorld)))
             _ Sample.lock (VStr "1000") (VStr "1000") Sample.receipt7 7);
    try reflexivity; try discriminate.
  - intros i Hi. exists 7.
    destruct i as [| [| i]]; [split; [reflexivity | lia] .. | lia].
  - exists 8. split; [reflexivity | lia].
Defined.
